(** * Permit workflow: intent submission, draft linking, suspension, activity feed

  A shallow embedding of the workflow handlers of the permit-management
  front end:

  - [IntentRegistrationNew.handleSubmit]   (components/public/IntentRegistrationNew.tsx)
  - [UserManagement.fetchUsers], [UserManagement.handleSuspendUser]
                                           (components/admin/UserManagement.tsx)
  - [DocumentManagement.handleDelete]      (same file, second component)
  - [PublicDashboard.fetchRecentActivities] (pages/PublicDashboard.tsx)

  The hosted backend (record store and object store), the notifier and the
  console are explicit state; a handler is a computation in a small
  state-and-exception monad over that state. *)

From Stdlib Require Import ZArith List String Ascii Bool Lia Arith.
From Stdlib Require Import Permutation Sorting.Sorted DecimalString.
Import ListNotations.

Local Open Scope string_scope.
Local Open Scope Z_scope.

(* ================================================================== *)
(** * JavaScript built-ins used by the handlers *)
(* ================================================================== *)

Module Js.

(** A time value: [Some ms] is a finite number of milliseconds since the
    epoch, [None] is NaN (an Invalid Date). *)
Definition TimeValue := option Z.

Definition digit (c : ascii) : option Z :=
  let n := Z.of_nat (nat_of_ascii c) in
  if (48 <=? n) && (n <=? 57) then Some (n - 48) else None.

Fixpoint digits (acc : Z) (cs : list ascii) : option Z :=
  match cs with
  | [] => Some acc
  | c :: cs' =>
      match digit c with
      | Some d => digits (10 * acc + d) cs'
      | None => None
      end
  end.

Definition is_leap (y : Z) : bool :=
  ((y mod 4 =? 0) && negb (y mod 100 =? 0)) || (y mod 400 =? 0).

Definition days_in_month (y m : Z) : Z :=
  if m =? 2 then (if is_leap y then 29 else 28)
  else if (m =? 4) || (m =? 6) || (m =? 9) || (m =? 11) then 30
  else 31.

(** Day number of a civil date, counted from 1970-01-01. *)
Definition days_from_civil (y m d : Z) : Z :=
  let y' := if m <=? 2 then y - 1 else y in
  let era := y' / 400 in
  let yoe := y' - era * 400 in
  let mp := if 2 <? m then m - 3 else m + 9 in
  let doy := (153 * mp + 2) / 5 + d - 1 in
  let doe := yoe * 365 + yoe / 4 - yoe / 100 + doy in
  era * 146097 + doe - 719468.

Definition ms_per_day : Z := 86400000.

(** What [Date.parse] makes of a string outside the standard date-time
    format is left to the engine by the language ("implementation-specific
    heuristics or date formats"): a year of more than four digits, as a
    date input without [max] can hold, a day beyond the end of its month,
    the empty string.  That part of the built-in is a parameter of the
    handlers that parse dates. *)
Definition Engine := string -> TimeValue.

(** The date-only form [YYYY-MM-DD] of the standard format: a calendar
    date, read as its UTC midnight. *)
Definition Date_parse_iso (s : string) : TimeValue :=
  match list_ascii_of_string s with
  | [y1; y2; y3; y4; "-"%char; m1; m2; "-"%char; d1; d2] =>
      match digits 0 [y1; y2; y3; y4], digits 0 [m1; m2], digits 0 [d1; d2] with
      | Some y, Some m, Some d =>
          if (1 <=? m) && (m <=? 12) && (1 <=? d) && (d <=? days_in_month y m)
          then Some (days_from_civil y m d * ms_per_day)
          else None
      | _, _, _ => None
      end
  | _ => None
  end.

(** [new Date(s).getTime()] for the value of a date input: the standard
    form where the string has it, the engine's own reading otherwise. *)
Definition Date_parse (engine : Engine) (s : string) : TimeValue :=
  match Date_parse_iso s with
  | Some t => Some t
  | None => engine s
  end.

(** [a >= b] on two Date objects: both are converted to their time
    values; a comparison with NaN is false. *)
Definition date_ge (a b : TimeValue) : bool :=
  match a, b with
  | Some x, Some y => y <=? x
  | _, _ => false
  end.


(** White space and line terminators removed by [String.prototype.trim],
    among the code units below 256 (a character of a Rocq string stands
    for one code unit). *)
Definition is_space (c : ascii) : bool :=
  let n := nat_of_ascii c in
  ((9 <=? n) && (n <=? 13) || (n =? 32) || (n =? 160))%nat.

Fixpoint trimStart (s : string) : string :=
  match s with
  | EmptyString => EmptyString
  | String c s' => if is_space c then trimStart s' else s
  end.

Fixpoint trimEnd (s : string) : string :=
  match s with
  | EmptyString => EmptyString
  | String c s' =>
      match trimEnd s' with
      | EmptyString => if is_space c then EmptyString else String c EmptyString
      | t => String c t
      end
  end.

Definition trim (s : string) : string := trimEnd (trimStart s).

(** Truthiness of a string: only the empty string is falsy. *)
Definition truthy (s : string) : bool :=
  match s with
  | EmptyString => false
  | String _ _ => true
  end.

(** [`${n}`] for a non-negative integer. *)
Definition of_nat (n : nat) : string := NilEmpty.string_of_uint (Nat.to_uint n).

(** [`${n}`] for an integer. *)
Definition of_Z (n : Z) : string := NilZero.string_of_int (Z.to_int n).

(** Insertion into a list ordered by the comparator [cmp]: [x] moves past
    every element it must follow ([cmp x y > 0]) and stops at the first
    one it need not. *)
Fixpoint insert_by {A} (cmp : A -> A -> Z) (x : A) (l : list A) : list A :=
  match l with
  | [] => [x]
  | y :: l' => if 0 <? cmp x y then y :: insert_by cmp x l' else x :: y :: l'
  end.

(** [Array.prototype.sort(cmp)]: a stable sort; elements that compare
    equal keep their order. *)
Definition sort {A} (cmp : A -> A -> Z) (l : list A) : list A :=
  fold_right (insert_by cmp) [] l.

(** [Array.prototype.slice(0, n)]. *)
Definition slice0 {A} (n : nat) (l : list A) : list A := firstn n l.

End Js.

(* ================================================================== *)
(** * The hosted backend: record store and object store *)
(* ================================================================== *)

(** Primary keys are UUID strings in the source.  The handlers only pass
  them around and compare them, so a key is a number here and the store
  picks an unused one on insert. *)
Definition Id := nat.

(** A property of an object literal sent to the store: [undefined]
  properties are dropped when the body is serialised, [null] clears the
  column. *)
Inductive Field (A : Type) : Type :=
| Undefined
| Null
| Value (a : A).
Arguments Undefined {A}.
Arguments Null {A}.
Arguments Value {A} a.

Definition write_field {A} (f : Field A) (old : option A) : option A :=
match f with
| Undefined => old
| Null => None
| Value a => Some a
end.

(** Modelled from the spec: the [user_type] enumeration of the generated
  database types (integrations/supabase/types) is not part of the
  sources at hand; the spec lists public, staff, admin and super_admin. *)
Inductive UserType : Type := public | staff | admin | super_admin.

Definition UserType_eqb (a b : UserType) : bool :=
match a, b with
| public, public | staff, staff | admin, admin | super_admin, super_admin => true
| _, _ => false
end.

Module User.
Record t := { id : Id; email : string }.
End User.

Module UserProfile.
Record t := {
  id : Id;
  user_id : Id;
  email : string;
  first_name : option string;
  last_name : option string;
  user_type : UserType;
  staff_unit : option string;
  staff_position : option string;
  is_active : bool;
  is_suspended : option bool;
  suspended_at : option Z;
  suspended_by : option Id;
  suspension_reason : option string;
  created_at : Z;
  phone : option string;
  organization : option string
}.
End UserProfile.

Module Intent.
(** The object literal passed to [.insert] by the intent form. *)
Record payload := {
  user_id : Id;
  entity_id : string;
  activity_level : string;
  activity_description : string;
  preparatory_work_description : string;
  commencement_date : string;
  completion_date : string;
  status : string
}.
Record t := { id : Id; fields : payload }.
End Intent.

Module Document.
Record payload := {
  user_id : Id;
  filename : string;
  file_path : string;
  file_size : Z;
  mime_type : string;
  document_type : string;
  permit_id : option Id;
  intent_registration_id : option Id
}.
Record t := { id : Id; uploaded_at : Z; fields : payload }.
End Document.

Module Assessment.
Record t := {
  assessment_notes : option string;
  feedback_provided : option string;
  assessment_status : string;
  assessment_outcome : option string
}.
End Assessment.

Module Application.
Record t := {
  id : Id;
  user_id : Id;
  title : option string;
  status : string;
  updated_at : Z;
  application_number : option string;
  initial_assessments : list Assessment.t
}.
End Application.

Module Invoice.
Record t := {
  id : Id;
  user_id : Id;
  invoice_number : string;
  payment_status : string;
  amount : Z;
  due_date : Z;
  updated_at : Z
}.
End Invoice.

Module Notification.
Record t := {
  id : Id;
  user_id : Id;
  title : string;
  message : string;
  type : string;
  created_at : Z;
  is_read : bool
}.
End Notification.

(** The body of the [profiles] update sent by the suspension dialog. *)
Record SuspensionPatch := {
patch_is_suspended : bool;
patch_suspended_at : Field Z;
patch_suspended_by : Field Id;
patch_suspension_reason : Field string
}.

(** Requests sent to the backend. *)
Inductive Request : Type :=
| InsertIntent (p : Intent.payload)
| InsertDocument (p : Document.payload)
| DeleteDocument (id : Id)
| SelectDocuments (user_id : Id)
| SelectProfiles
| UpdateProfile (id : Id) (patch : SuspensionPatch)
| SelectApplications (user_id : Id)
| SelectInvoices (user_id : Id)
| SelectNotifications (user_id : Id)
| StorageRemove (paths : list string).

(** What the backend returns: [{ data, error }] with exactly one set. *)
Inductive Response (A : Type) : Type :=
| Data (a : A)
| Error (message : string).
Arguments Data {A} a.
Arguments Error {A} message.

(** One line of the backend's history: the request, whether it was
  accepted, and the documents table and bucket right after it. *)
Record Event := {
request : Request;
accepted : bool;
documents_after : list Document.t;
blobs_after : list string
}.

Record World := {
intent_registrations : list Intent.t;
documents : list Document.t;
profiles : list UserProfile.t;
permit_applications : list Application.t;
invoices : list Invoice.t;
notifications : list Notification.t;
blobs : list string;          (* keys held by the 'documents' bucket *)
now : Z;                      (* the clock, as a time value *)
outage : nat -> bool;         (* whether the n-th request is rejected *)
history : list Event          (* oldest first *)
}.

Module Backend.

Definition set_intent_registrations (x : list Intent.t) (w : World) : World :=
  {| intent_registrations := x; documents := documents w; profiles := profiles w;
     permit_applications := permit_applications w; invoices := invoices w;
     notifications := notifications w; blobs := blobs w; now := now w;
     outage := outage w; history := history w |}.

Definition set_documents (x : list Document.t) (w : World) : World :=
  {| intent_registrations := intent_registrations w; documents := x; profiles := profiles w;
     permit_applications := permit_applications w; invoices := invoices w;
     notifications := notifications w; blobs := blobs w; now := now w;
     outage := outage w; history := history w |}.

Definition set_profiles (x : list UserProfile.t) (w : World) : World :=
  {| intent_registrations := intent_registrations w; documents := documents w; profiles := x;
     permit_applications := permit_applications w; invoices := invoices w;
     notifications := notifications w; blobs := blobs w; now := now w;
     outage := outage w; history := history w |}.

Definition set_blobs (x : list string) (w : World) : World :=
  {| intent_registrations := intent_registrations w; documents := documents w;
     profiles := profiles w;
     permit_applications := permit_applications w; invoices := invoices w;
     notifications := notifications w; blobs := x; now := now w;
     outage := outage w; history := history w |}.

Definition set_history (x : list Event) (w : World) : World :=
  {| intent_registrations := intent_registrations w; documents := documents w;
     profiles := profiles w;
     permit_applications := permit_applications w; invoices := invoices w;
     notifications := notifications w; blobs := blobs w; now := now w;
     outage := outage w; history := x |}.

(** Whether the request about to be sent will be rejected. *)
Definition down (w : World) : bool := outage w (List.length (history w)).

Definition record (rq : Request) (ok : bool) (w : World) : World :=
  set_history (history w ++ [ {| request := rq; accepted := ok;
                                 documents_after := documents w;
                                 blobs_after := blobs w |} ]) w.

Definition rejected : string := "request rejected".

(** A key no row of the table uses. *)
Definition fresh (used : list Id) : Id := S (list_max used).

(** [ORDER BY key DESC]. *)
Definition order_desc {A} (key : A -> Z) (l : list A) : list A :=
  Js.sort (fun a b => key b - key a) l.

(** [.from('intent_registrations').insert(p).select().single()] *)
Definition insert_intent (p : Intent.payload) (w : World) : Response Intent.t * World :=
  if down w then (Error rejected, record (InsertIntent p) false w)
  else
    let row := {| Intent.id := fresh (map Intent.id (intent_registrations w));
                  Intent.fields := p |} in
    (Data row,
     record (InsertIntent p) true
       (set_intent_registrations (intent_registrations w ++ [row]) w)).

(** [.from('documents').insert(p).select().single()] *)
Definition insert_document (p : Document.payload) (w : World) : Response Document.t * World :=
  if down w then (Error rejected, record (InsertDocument p) false w)
  else
    let row := {| Document.id := fresh (map Document.id (documents w));
                  Document.uploaded_at := now w;
                  Document.fields := p |} in
    (Data row,
     record (InsertDocument p) true (set_documents (documents w ++ [row]) w)).

(** [.from('documents').delete().eq('id', id)] *)
Definition delete_document (id : Id) (w : World) : Response unit * World :=
  if down w then (Error rejected, record (DeleteDocument id) false w)
  else
    (Data tt,
     record (DeleteDocument id) true
       (set_documents (filter (fun d => negb (Document.id d =? id)%nat) (documents w)) w)).

(** [.from('documents').select('*').eq('user_id', uid).order('uploaded_at', desc)] *)
Definition select_documents (uid : Id) (w : World) : Response (list Document.t) * World :=
  if down w then (Error rejected, record (SelectDocuments uid) false w)
  else
    (Data (order_desc Document.uploaded_at
             (filter (fun d => (Document.user_id (Document.fields d) =? uid)%nat) (documents w))),
     record (SelectDocuments uid) true w).

(** [.from('profiles').select('*').order('created_at', desc)] *)
Definition select_profiles (w : World) : Response (list UserProfile.t) * World :=
  if down w then (Error rejected, record SelectProfiles false w)
  else (Data (order_desc UserProfile.created_at (profiles w)), record SelectProfiles true w).

Definition apply_patch (p : SuspensionPatch) (u : UserProfile.t) : UserProfile.t :=
  {| UserProfile.id := UserProfile.id u;
     UserProfile.user_id := UserProfile.user_id u;
     UserProfile.email := UserProfile.email u;
     UserProfile.first_name := UserProfile.first_name u;
     UserProfile.last_name := UserProfile.last_name u;
     UserProfile.user_type := UserProfile.user_type u;
     UserProfile.staff_unit := UserProfile.staff_unit u;
     UserProfile.staff_position := UserProfile.staff_position u;
     UserProfile.is_active := UserProfile.is_active u;
     UserProfile.is_suspended := Some (patch_is_suspended p);
     UserProfile.suspended_at := write_field (patch_suspended_at p) (UserProfile.suspended_at u);
     UserProfile.suspended_by := write_field (patch_suspended_by p) (UserProfile.suspended_by u);
     UserProfile.suspension_reason :=
       write_field (patch_suspension_reason p) (UserProfile.suspension_reason u);
     UserProfile.created_at := UserProfile.created_at u;
     UserProfile.phone := UserProfile.phone u;
     UserProfile.organization := UserProfile.organization u |}.

(** [.from('profiles').update(patch).eq('id', id)]: one statement that
    writes every column of the patch on the matching rows. *)
Definition update_profile (id : Id) (p : SuspensionPatch) (w : World) : Response unit * World :=
  if down w then (Error rejected, record (UpdateProfile id p) false w)
  else
    (Data tt,
     record (UpdateProfile id p) true
       (set_profiles
          (map (fun u => if (UserProfile.id u =? id)%nat then apply_patch p u else u)
               (profiles w)) w)).

(** The applications of a user that have at least one initial assessment
    (the [initial_assessments!inner] join), newest first, at most five. *)
Definition recent_applications (uid : Id) (w : World) : list Application.t :=
  firstn 5
    (order_desc Application.updated_at
       (filter (fun a => (Application.user_id a =? uid)%nat
                         && negb (List.length (Application.initial_assessments a) =? 0)%nat)
               (permit_applications w))).

Definition recent_invoices (uid : Id) (w : World) : list Invoice.t :=
  firstn 3
    (order_desc Invoice.updated_at
       (filter (fun i => (Invoice.user_id i =? uid)%nat) (invoices w))).

Definition recent_notifications (uid : Id) (w : World) : list Notification.t :=
  firstn 3
    (order_desc Notification.created_at
       (filter (fun n => (Notification.user_id n =? uid)%nat) (notifications w))).

Definition select_applications (uid : Id) (w : World) : Response (list Application.t) * World :=
  if down w then (Error rejected, record (SelectApplications uid) false w)
  else (Data (recent_applications uid w), record (SelectApplications uid) true w).

Definition select_invoices (uid : Id) (w : World) : Response (list Invoice.t) * World :=
  if down w then (Error rejected, record (SelectInvoices uid) false w)
  else (Data (recent_invoices uid w), record (SelectInvoices uid) true w).

Definition select_notifications (uid : Id) (w : World)
  : Response (list Notification.t) * World :=
  if down w then (Error rejected, record (SelectNotifications uid) false w)
  else (Data (recent_notifications uid w), record (SelectNotifications uid) true w).

(** [supabase.storage.from('documents').remove(paths)] *)
Definition storage_remove (paths : list string) (w : World) : Response unit * World :=
  if down w then (Error rejected, record (StorageRemove paths) false w)
  else
    (Data tt,
     record (StorageRemove paths) true
       (set_blobs (filter (fun k => negb (existsb (String.eqb k) paths)) (blobs w)) w)).

End Backend.

(* ================================================================== *)
(** * Handlers as computations: state, notifier, console, exceptions *)
(* ================================================================== *)

(** A call of [toast({ title, description, variant })]. *)
Record Toast := {
title : string;
description : string;
variant : option string
}.

(** What a handler runs against: the backend, what the notifier displayed,
  what was written with [console.error], and the React state [C] of the
  component it belongs to. *)
Record Session (C : Type) := {
world : World;
toasts : list Toast;
console : list string;
component : C
}.
Arguments world {C} s.
Arguments toasts {C} s.
Arguments console {C} s.
Arguments component {C} s.

(** A computation returns a value or throws. *)
Inductive Outcome (A : Type) : Type :=
| Done (a : A)
| Thrown (error : string).
Arguments Done {A} a.
Arguments Thrown {A} error.

Definition M (C A : Type) : Type := Session C -> Outcome A * Session C.

Section Monad.
Context {C : Type}.

Definition ret {A} (a : A) : M C A := fun s => (Done a, s).

Definition bind {A B} (m : M C A) (k : A -> M C B) : M C B :=
  fun s =>
    match m s with
    | (Done a, s') => k a s'
    | (Thrown e, s') => (Thrown e, s')
    end.

Definition throw {A} (e : string) : M C A := fun s => (Thrown e, s).

(** [try { body } catch (error) { handler error } finally { final }] *)
Definition try_catch_finally {A} (body : M C A) (handler : string -> M C A)
           (final : M C unit) : M C A :=
  fun s =>
    let (r, s1) := match body s with
                   | (Done a, s') => (Done a, s')
                   | (Thrown e, s') => handler e s'
                   end in
    match final s1 with
    | (Done _, s2) => (r, s2)
    | (Thrown e, s2) => (Thrown e, s2)
    end.

(** [try { body } catch (error) { handler error }] *)
Definition try_catch {A} (body : M C A) (handler : string -> M C A) : M C A :=
  fun s =>
    match body s with
    | (Done a, s') => (Done a, s')
    | (Thrown e, s') => handler e s'
    end.

(** Awaiting a request to the backend. *)
Definition call {A} (rq : World -> Response A * World) : M C (Response A) :=
  fun s =>
    let (r, w) := rq (world s) in
    (Done r, {| world := w; toasts := toasts s; console := console s;
                component := component s |}).

Definition toast (t : Toast) : M C unit :=
  fun s => (Done tt, {| world := world s; toasts := toasts s ++ [t];
                        console := console s; component := component s |}).

(** [console.error(label, error)] *)
Definition console_error (label error : string) : M C unit :=
  fun s => (Done tt, {| world := world s; toasts := toasts s;
                        console := console s ++ [label ++ " " ++ error];
                        component := component s |}).

Definition get_component : M C C := fun s => (Done (component s), s).

Definition modify_component (f : C -> C) : M C unit :=
  fun s => (Done tt, {| world := world s; toasts := toasts s; console := console s;
                        component := f (component s) |}).

(** [new Date()] read as a time value: the clock at the moment of the
    run.  Time passes between runs, not within one; a statement about two
    runs puts the elapsed time between them. *)
Definition Date_now : M C Z := fun s => (Done (now (world s)), s).

(** [await Promise.all(ps)] for promises started in list order: every
    one runs; the first rejection, if any, is thrown once all ran. *)
Fixpoint Promise_all (ps : list (M C unit)) : M C unit :=
  match ps with
  | [] => ret tt
  | p :: ps' =>
      fun s =>
        match p s with
        | (Done _, s1) => Promise_all ps' s1
        | (Thrown e, s1) =>
            match Promise_all ps' s1 with
            | (_, s2) => (Thrown e, s2)
            end
        end
  end.

End Monad.

Declare Scope monad_scope.
Delimit Scope monad_scope with monad.
Notation "x <- c1 ;; c2" := (bind c1 (fun x => c2))
(at level 61, c1 at next level, right associativity) : monad_scope.
Notation "c1 ;; c2" := (bind c1 (fun _ => c2))
(at level 61, right associativity) : monad_scope.
Local Open Scope monad_scope.

(* ================================================================== *)
(** * components/public/IntentRegistrationNew.tsx *)
(* ================================================================== *)

Module IntentRegistrationNew.

Record FormData := {
  entity_id : string;
  activity_level : string;
  activity_description : string;
  preparatory_work_description : string;
  commencement_date : string;
  completion_date : string
}.

Definition emptyForm : FormData :=
  {| entity_id := ""; activity_level := ""; activity_description := "";
     preparatory_work_description := ""; commencement_date := "";
     completion_date := "" |}.

(** The component's [useState] cells, and the document list held by the
    documents hook. *)
Record State := {
  submittedIntentId : option Id;
  formData : FormData;
  submitting : bool;
  currentIntent : option Intent.t;
  pendingDocuments : list Document.t;
  documents : list Document.t
}.

Definition setSubmittedIntentId (x : option Id) (c : State) : State :=
  {| submittedIntentId := x; formData := formData c; submitting := submitting c;
     currentIntent := currentIntent c; pendingDocuments := pendingDocuments c;
     documents := documents c |}.
Definition setFormData (x : FormData) (c : State) : State :=
  {| submittedIntentId := submittedIntentId c; formData := x; submitting := submitting c;
     currentIntent := currentIntent c; pendingDocuments := pendingDocuments c;
     documents := documents c |}.
Definition setSubmitting (x : bool) (c : State) : State :=
  {| submittedIntentId := submittedIntentId c; formData := formData c; submitting := x;
     currentIntent := currentIntent c; pendingDocuments := pendingDocuments c;
     documents := documents c |}.
Definition setCurrentIntent (x : option Intent.t) (c : State) : State :=
  {| submittedIntentId := submittedIntentId c; formData := formData c;
     submitting := submitting c; currentIntent := x;
     pendingDocuments := pendingDocuments c; documents := documents c |}.
Definition setPendingDocuments (x : list Document.t) (c : State) : State :=
  {| submittedIntentId := submittedIntentId c; formData := formData c;
     submitting := submitting c; currentIntent := currentIntent c;
     pendingDocuments := x; documents := documents c |}.
Definition setDocuments (x : list Document.t) (c : State) : State :=
  {| submittedIntentId := submittedIntentId c; formData := formData c;
     submitting := submitting c; currentIntent := currentIntent c;
     pendingDocuments := pendingDocuments c; documents := x |}.

(** The part of the documents hook ([useDocuments]) that [handleSubmit]
    calls. *)
Record DocumentsHook := {
  linkDraftsToIntent : list Document.t -> Id -> M State (list Document.t);
  deleteDocumentRecordOnly : Id -> M State unit;
  refreshDocuments : option (M State unit)
}.

Definition authenticationRequired : Toast :=
  {| title := "Authentication Required";
     description := "Please log in to submit an intent registration.";
     variant := Some "destructive" |}.

Definition invalidDates : Toast :=
  {| title := "Invalid Dates";
     description := "Completion date must be after commencement date.";
     variant := Some "destructive" |}.

Definition documentsLinked (n : nat) : Toast :=
  {| title := "Documents Linked";
     description := Js.of_nat n ++ " document(s) linked to this intent.";
     variant := None |}.

Definition submitted : Toast :=
  {| title := "Intent Registration Submitted";
     description := "Your registration of intent has been submitted successfully. You can now upload supporting documents.";
     variant := None |}.

Definition submissionFailed : Toast :=
  {| title := "Submission Failed";
     description := "Failed to submit intent registration. Please try again.";
     variant := Some "destructive" |}.

Definition intentPayload (u : User.t) (f : FormData) : Intent.payload :=
  {| Intent.user_id := User.id u;
     Intent.entity_id := entity_id f;
     Intent.activity_level := activity_level f;
     Intent.activity_description := activity_description f;
     Intent.preparatory_work_description := preparatory_work_description f;
     Intent.commencement_date := commencement_date f;
     Intent.completion_date := completion_date f;
     Intent.status := "pending" |}.

(** [handleSubmit], with the values its closure captured at render time:
    [user], and [formData] and [pendingDocuments] read once at entry; the
    engine is the browser's, for [new Date(...)]. *)
Definition handleSubmit (engine : Js.Engine) (hook : DocumentsHook) (user : option User.t)
  : M State unit :=
  c <- get_component ;;
  match user with
  | None => toast authenticationRequired
  | Some u =>
      if Js.date_ge (Js.Date_parse engine (commencement_date (formData c)))
                    (Js.Date_parse engine (completion_date (formData c)))
      then toast invalidDates
      else
        modify_component (setSubmitting true) ;;
        try_catch_finally
          (r <- call (Backend.insert_intent (intentPayload u (formData c))) ;;
           match r with
           | Error error => throw error
           | Data data =>
               modify_component (setSubmittedIntentId (Some (Intent.id data))) ;;
               modify_component (setCurrentIntent (Some data)) ;;
               (if (0 <? List.length (pendingDocuments c))%nat then
                  linked <- linkDraftsToIntent hook (pendingDocuments c) (Intent.id data) ;;
                  Promise_all (map (fun d => deleteDocumentRecordOnly hook (Document.id d))
                                   (pendingDocuments c)) ;;
                  modify_component (setPendingDocuments []) ;;
                  toast (documentsLinked (List.length linked)) ;;
                  match refreshDocuments hook with
                  | Some refresh => refresh
                  | None => ret tt
                  end
                else ret tt) ;;
               toast submitted ;;
               modify_component (setFormData emptyForm)
           end)
          (fun error =>
             console_error "Error submitting intent registration:" error ;;
             toast submissionFailed)
          (modify_component (setSubmitting false))
  end.

(** ** The documents hook *)

Definition linkedCopy (d : Document.t) (intentId : Id) : Document.payload :=
  {| Document.user_id := Document.user_id (Document.fields d);
     Document.filename := Document.filename (Document.fields d);
     Document.file_path := Document.file_path (Document.fields d);
     Document.file_size := Document.file_size (Document.fields d);
     Document.mime_type := Document.mime_type (Document.fields d);
     Document.document_type := Document.document_type (Document.fields d);
     Document.permit_id := Document.permit_id (Document.fields d);
     Document.intent_registration_id := Some intentId |}.

(** Modelled from the spec: [linkDraftsToIntent] of hooks/useDocuments,
    which is not among the sources.  For every pending draft it creates a
    new document record carrying the same storage key, filename, size and
    mime type with the parent id set; a creation that fails is logged,
    leaves the draft in place and is not fatal; the records created are
    returned, and their number is what the user is told. *)
Fixpoint useDocuments_linkDraftsToIntent (drafts : list Document.t) (intentId : Id)
  : M State (list Document.t) :=
  match drafts with
  | [] => ret []
  | d :: rest =>
      r <- call (Backend.insert_document (linkedCopy d intentId)) ;;
      match r with
      | Data row =>
          linked <- useDocuments_linkDraftsToIntent rest intentId ;;
          ret (row :: linked)
      | Error error =>
          console_error "Error linking draft document:" error ;;
          useDocuments_linkDraftsToIntent rest intentId
      end
  end.

(** Modelled from the spec: [deleteDocumentRecordOnly] of
    hooks/useDocuments, which is not among the sources.  It deletes the
    document record only, never the blob in the object store; a deletion
    that fails is logged and is not passed on to the caller. *)
Definition useDocuments_deleteDocumentRecordOnly (id : Id) : M State unit :=
  r <- call (Backend.delete_document id) ;;
  match r with
  | Data _ => ret tt
  | Error error => console_error "Error deleting document record:" error
  end.

(** Modelled from the spec: [refreshDocuments] of hooks/useDocuments,
    which is not among the sources.  The spec gives it no duty beyond
    reading back for display: it re-reads the user's documents into the
    hook's list and logs a failed read. *)
Definition useDocuments_refreshDocuments (user : option User.t) : M State unit :=
  match user with
  | None => ret tt
  | Some u =>
      r <- call (Backend.select_documents (User.id u)) ;;
      match r with
      | Data rows => modify_component (setDocuments rows)
      | Error error => console_error "Error fetching documents:" error
      end
  end.

(** Modelled from the spec: the hook value [useDocuments(...)] hands to
    the component, assembled from the three functions above. *)
Definition useDocuments (user : option User.t) : DocumentsHook :=
  {| linkDraftsToIntent := useDocuments_linkDraftsToIntent;
     deleteDocumentRecordOnly := useDocuments_deleteDocumentRecordOnly;
     refreshDocuments := Some (useDocuments_refreshDocuments user) |}.

(** A submission by [user] through the documents hook. *)
Definition submit (engine : Js.Engine) (user : option User.t) : M State unit :=
  handleSubmit engine (useDocuments user) user.

End IntentRegistrationNew.

(* ================================================================== *)
(** * components/admin/UserManagement.tsx: [UserManagement] *)
(* ================================================================== *)

Module UserManagement.

Record State := {
  users : list UserProfile.t;
  loading : bool;
  suspendDialogOpen : bool;
  userToSuspend : option UserProfile.t;
  suspensionReason : string
}.

(** The state the component is mounted with. *)
Definition initialState : State :=
  {| users := []; loading := true; suspendDialogOpen := false;
     userToSuspend := None; suspensionReason := "" |}.

Definition setUsers (x : list UserProfile.t) (c : State) : State :=
  {| users := x; loading := loading c; suspendDialogOpen := suspendDialogOpen c;
     userToSuspend := userToSuspend c; suspensionReason := suspensionReason c |}.
Definition setLoading (x : bool) (c : State) : State :=
  {| users := users c; loading := x; suspendDialogOpen := suspendDialogOpen c;
     userToSuspend := userToSuspend c; suspensionReason := suspensionReason c |}.
Definition setSuspendDialogOpen (x : bool) (c : State) : State :=
  {| users := users c; loading := loading c; suspendDialogOpen := x;
     userToSuspend := userToSuspend c; suspensionReason := suspensionReason c |}.
Definition setUserToSuspend (x : option UserProfile.t) (c : State) : State :=
  {| users := users c; loading := loading c; suspendDialogOpen := suspendDialogOpen c;
     userToSuspend := x; suspensionReason := suspensionReason c |}.
Definition setSuspensionReason (x : string) (c : State) : State :=
  {| users := users c; loading := loading c; suspendDialogOpen := suspendDialogOpen c;
     userToSuspend := userToSuspend c; suspensionReason := x |}.

Definition accessDenied : Toast :=
  {| title := "Access Denied";
     description := "You don't have permission to view all users";
     variant := Some "destructive" |}.

Definition fetchFailed : Toast :=
  {| title := "Error"; description := "Failed to fetch users";
     variant := Some "destructive" |}.

Definition cannotSuspendSuperAdmin : Toast :=
  {| title := "Cannot suspend Super Admin";
     description := "Super admin accounts cannot be suspended";
     variant := Some "destructive" |}.

Definition reasonRequired : Toast :=
  {| title := "Reason Required";
     description := "Please provide a reason for suspension";
     variant := Some "destructive" |}.

Definition statusChanged (isSuspending : bool) : Toast :=
  {| title := "Success";
     description := "User " ++ (if isSuspending then "suspended" else "reactivated")
                            ++ " successfully";
     variant := None |}.

Definition updateFailed : Toast :=
  {| title := "Error"; description := "Failed to update user status";
     variant := Some "destructive" |}.

(** [profile?.user_type !== 'admin' && profile?.user_type !== 'super_admin'] *)
Definition notAdministrator (profile : option UserProfile.t) : bool :=
  match profile with
  | None => true
  | Some p =>
      negb (UserType_eqb (UserProfile.user_type p) admin)
      && negb (UserType_eqb (UserProfile.user_type p) super_admin)
  end.

Definition fetchUsers (profile : option UserProfile.t) : M State unit :=
  try_catch_finally
    (if notAdministrator profile then
       toast accessDenied ;;
       modify_component (setLoading false)
     else
       r <- call Backend.select_profiles ;;
       match r with
       | Error error => throw error
       | Data data => modify_component (setUsers data)
       end)
    (fun error =>
       console_error "Error fetching users:" error ;;
       toast fetchFailed)
    (modify_component (setLoading false)).

(** [!userToSuspend.is_suspended]: [null] and [false] are both falsy. *)
Definition notSuspended (u : UserProfile.t) : bool :=
  match UserProfile.is_suspended u with
  | Some true => false
  | _ => true
  end.

(** [profile?.user_id] as a property of the update body. *)
Definition actingUserId (profile : option UserProfile.t) : Field Id :=
  match profile with
  | Some p => Value (UserProfile.user_id p)
  | None => Undefined
  end.

Definition suspensionPatch (profile : option UserProfile.t) (isSuspending : bool)
           (at_ : Z) (reason : string) : SuspensionPatch :=
  {| patch_is_suspended := isSuspending;
     patch_suspended_at := if isSuspending then Value at_ else Null;
     patch_suspended_by := if isSuspending then actingUserId profile else Null;
     patch_suspension_reason := if isSuspending then Value reason else Null |}.

Definition handleSuspendUser (profile : option UserProfile.t) : M State unit :=
  c <- get_component ;;
  match userToSuspend c with
  | None => ret tt
  | Some u =>
      if UserType_eqb (UserProfile.user_type u) super_admin then
        toast cannotSuspendSuperAdmin
      else if notSuspended u && negb (Js.truthy (Js.trim (suspensionReason c))) then
        toast reasonRequired
      else
        try_catch
          (let isSuspending := notSuspended u in
           t <- Date_now ;;
           r <- call (Backend.update_profile (UserProfile.id u)
                        (suspensionPatch profile isSuspending t (suspensionReason c))) ;;
           match r with
           | Error error => throw error
           | Data _ =>
               fetchUsers profile ;;
               toast (statusChanged isSuspending) ;;
               modify_component (setSuspensionReason "")
           end)
          (fun error =>
             console_error "Error updating user:" error ;;
             toast updateFailed) ;;
        modify_component (setSuspendDialogOpen false) ;;
        modify_component (setUserToSuspend None)
  end.

End UserManagement.

(* ================================================================== *)
(** * components/admin/UserManagement.tsx: [DocumentManagement] *)
(* ================================================================== *)

Module DocumentManagement.

Record State := {
  files : list Document.t;
  loading : bool
}.

Definition setFiles (x : list Document.t) (c : State) : State :=
  {| files := x; loading := loading c |}.
Definition setLoading (x : bool) (c : State) : State :=
  {| files := files c; loading := x |}.

Definition loadFailed : Toast :=
  {| title := "Error"; description := "Failed to load documents";
     variant := Some "destructive" |}.

Definition fileDeleted : Toast :=
  {| title := "File Deleted"; description := "File has been deleted successfully.";
     variant := None |}.

Definition deletionFailed : Toast :=
  {| title := "Deletion Failed"; description := "Failed to delete file";
     variant := Some "destructive" |}.

Definition fetchDocuments (user : option User.t) : M State unit :=
  match user with
  | None => ret tt
  | Some u =>
      try_catch_finally
        (r <- call (Backend.select_documents (User.id u)) ;;
         match r with
         | Error error => throw error
         | Data data => modify_component (setFiles data)
         end)
        (fun error =>
           console_error "Error fetching documents:" error ;;
           toast loadFailed)
        (modify_component (setLoading false))
  end.

Definition handleDelete (user : option User.t) (fileId : Id) (filePath : string)
  : M State unit :=
  try_catch
    (r <- call (Backend.storage_remove [filePath]) ;;
     match r with
     | Error storageError => throw storageError
     | Data _ =>
         r' <- call (Backend.delete_document fileId) ;;
         match r' with
         | Error dbError => throw dbError
         | Data _ =>
             fetchDocuments user ;;
             toast fileDeleted
         end
     end)
    (fun error =>
       console_error "Error deleting file:" error ;;
       toast deletionFailed).

End DocumentManagement.

(* ================================================================== *)
(** * pages/PublicDashboard.tsx *)
(* ================================================================== *)

Inductive ActivityType : Type :=
| application
| invoice
| notification
| document.

Module RecentActivity.
Record t := {
  id : Id;
  type : ActivityType;
  title : string;
  description : string;
  status : string;
  timestamp : Z;
  actionable : option bool;
  actionText : option string
}.
End RecentActivity.

Module PublicDashboard.

Record State := {
  recentActivities : list RecentActivity.t
}.

Definition initialState : State := {| recentActivities := [] |}.

Definition setRecentActivities (x : list RecentActivity.t) (c : State) : State :=
  {| recentActivities := x |}.

Definition getStatusUpdateTitle (status : string) : string :=
  if String.eqb status "approved" then "Application Approved"
  else if String.eqb status "rejected" then "Application Rejected"
  else if String.eqb status "under_initial_review" then "Under Initial Review"
  else if String.eqb status "initial_assessment_passed" then "Initial Assessment Passed"
  else if String.eqb status "pending_technical_assessment" then "Pending Technical Assessment"
  else if String.eqb status "under_technical_assessment" then "Under Technical Assessment"
  else if String.eqb status "requires_clarification" then "Requires Clarification"
  else if String.eqb status "submitted" then "Application Submitted"
  else if String.eqb status "draft" then "Draft Application"
  else "Application Updated".

(** [s || fallback] and [s ? f(s) : ''] on a nullable string. *)
Definition orElse (s : option string) (fallback : string) : string :=
  match s with
  | Some x => if Js.truthy x then x else fallback
  | None => fallback
  end.

Definition whenTruthy (s : option string) (f : string -> string) : string :=
  match s with
  | Some x => if Js.truthy x then f x else ""
  | None => ""
  end.

Definition ofApplication (app : Application.t) : RecentActivity.t :=
  let assessment := hd_error (Application.initial_assessments app) in
  let feedback := match assessment with
                  | Some a => Assessment.feedback_provided a
                  | None => None
                  end in
  let st := Application.status app in
  {| RecentActivity.id := Application.id app;
     RecentActivity.type := application;
     RecentActivity.title := getStatusUpdateTitle st;
     RecentActivity.description :=
       orElse (Application.title app) "Permit Application" ++ " "
       ++ whenTruthy (Application.application_number app) (fun n => "(" ++ n ++ ")")
       ++ whenTruthy feedback (fun f => " - " ++ f);
     RecentActivity.status := st;
     RecentActivity.timestamp := Application.updated_at app;
     RecentActivity.actionable :=
       Some ((String.eqb st "draft") || (String.eqb st "requires_clarification"));
     RecentActivity.actionText :=
       if String.eqb st "draft" then Some "Continue Draft"
       else if String.eqb st "requires_clarification" then Some "Respond to Feedback"
       else None |}.

Definition ofInvoice (today : Z) (inv : Invoice.t) : RecentActivity.t :=
  let isOverdue := (Invoice.due_date inv <? today)%Z
                   && (String.eqb (Invoice.payment_status inv) "pending") in
  {| RecentActivity.id := Invoice.id inv;
     RecentActivity.type := invoice;
     RecentActivity.title :=
       if isOverdue then "Overdue Payment" else "Invoice " ++ Invoice.payment_status inv;
     RecentActivity.description :=
       "Invoice " ++ Invoice.invoice_number inv ++ " - K" ++ Js.of_Z (Invoice.amount inv);
     RecentActivity.status := Invoice.payment_status inv;
     RecentActivity.timestamp := Invoice.updated_at inv;
     RecentActivity.actionable := Some (String.eqb (Invoice.payment_status inv) "pending");
     RecentActivity.actionText :=
       if String.eqb (Invoice.payment_status inv) "pending" then Some "View Invoice" else None |}.

Definition ofNotification (notif : Notification.t) : RecentActivity.t :=
  {| RecentActivity.id := Notification.id notif;
     RecentActivity.type := notification;
     RecentActivity.title := Notification.title notif;
     RecentActivity.description := Notification.message notif;
     RecentActivity.status := if Notification.is_read notif then "read" else "unread";
     RecentActivity.timestamp := Notification.created_at notif;
     RecentActivity.actionable := None;
     RecentActivity.actionText := None |}.

(** What a source contributes: its rows turned into activities, or
    nothing when the request came back with an error. *)
Definition contribution {A} (r : Response (list A)) (f : A -> RecentActivity.t)
  : list RecentActivity.t :=
  match r with
  | Data rows => map f rows
  | Error _ => []
  end.

(** The comparator of the final sort:
    [new Date(b.timestamp).getTime() - new Date(a.timestamp).getTime()]. *)
Definition newestFirst (a b : RecentActivity.t) : Z :=
  RecentActivity.timestamp b - RecentActivity.timestamp a.

Definition fetchRecentActivities (user : User.t) : M State unit :=
  try_catch
    (apps <- call (Backend.select_applications (User.id user)) ;;
     let activities := contribution apps ofApplication in
     invs <- call (Backend.select_invoices (User.id user)) ;;
     today <- Date_now ;;
     let activities := (activities ++ contribution invs (ofInvoice today))%list in
     notifs <- call (Backend.select_notifications (User.id user)) ;;
     let activities := (activities ++ contribution notifs ofNotification)%list in
     let activities := Js.sort newestFirst activities in
     modify_component (setRecentActivities (Js.slice0 6 activities)))
    (fun error => console_error "Error fetching recent activities:" error).

End PublicDashboard.

(* ================================================================== *)
(** * Text and array built-ins used by the list views *)
(* ================================================================== *)

Module JsText.

(** [String.prototype.toLowerCase] on one code unit below 256: the Latin
    capitals A to Z and, in the upper half, the capitals from U+00C0 to
    U+00DE except the multiplication sign. *)
Definition lower (c : ascii) : ascii :=
  let n := nat_of_ascii c in
  if (((65 <=? n) && (n <=? 90))
      || ((192 <=? n) && (n <=? 222) && negb (n =? 215)))%nat
  then ascii_of_nat (n + 32)
  else c.

Fixpoint toLowerCase (s : string) : string :=
  match s with
  | EmptyString => EmptyString
  | String c s' => String (lower c) (toLowerCase s')
  end.

(** [s.includes(t)]: [t] occurs in [s] as a contiguous run. *)
Fixpoint includes (s t : string) : bool :=
  String.prefix t s
  || match s with
     | EmptyString => false
     | String _ s' => includes s' t
     end.

(** [`${x}`] for a nullable string: [null] prints as the word null. *)
Definition show (x : option string) : string :=
  match x with
  | Some s => s
  | None => "null"
  end.

(** [Array.prototype.slice(start, end)] with its treatment of negative
    and oversized indices. *)
Definition relativeIndex (len i : Z) : Z :=
  if i <? 0 then Z.max (len + i) 0 else Z.min i len.

Definition slice {A} (l : list A) (start finish : Z) : list A :=
  let len := Z.of_nat (List.length l) in
  let k := relativeIndex len start in
  let final := relativeIndex len finish in
  firstn (Z.to_nat (final - k)) (skipn (Z.to_nat k) l).

(** The values of [new Set(xs)] in insertion order, given those already
    [seen]: each value once, where it first occurs. *)
Fixpoint firstOccurrences (seen xs : list string) : list string :=
  match xs with
  | [] => []
  | x :: xs' =>
      if existsb (String.eqb x) seen then firstOccurrences seen xs'
      else x :: firstOccurrences (x :: seen) xs'
  end.

(** [Array.from(new Set(xs))] *)
Definition unique (xs : list string) : list string := firstOccurrences [] xs.

(** [Math.ceil(n / d)] for counts. *)
Definition ceilDiv (n d : Z) : Z := (n + d - 1) / d.

End JsText.

(* ================================================================== *)
(** * components/admin/UserManagement.tsx: the list and the dialog *)
(* ================================================================== *)

Module UserFilters.

(** The literal of a [user_type] value. *)
Definition UserType_name (t : UserType) : string :=
  match t with
  | public => "public"
  | staff => "staff"
  | admin => "admin"
  | super_admin => "super_admin"
  end.

(** What the search box is compared with: the email, or first and last
    name joined by a space. *)
Definition matchesSearch (searchTerm : string) (user : UserProfile.t) : bool :=
  JsText.includes (JsText.toLowerCase (UserProfile.email user))
                  (JsText.toLowerCase searchTerm)
  || JsText.includes
       (JsText.toLowerCase (JsText.show (UserProfile.first_name user) ++ " "
                            ++ JsText.show (UserProfile.last_name user)))
       (JsText.toLowerCase searchTerm).

(** [filterUsers]: the list it passes to [setFilteredUsers]. *)
Definition filterUsers (users : list UserProfile.t)
           (searchTerm userTypeFilter statusFilter : string) : list UserProfile.t :=
  let filtered := users in
  let filtered :=
    if Js.truthy searchTerm then filter (matchesSearch searchTerm) filtered else filtered in
  let filtered :=
    if negb (String.eqb userTypeFilter "all")
    then filter (fun user => String.eqb (UserType_name (UserProfile.user_type user))
                                        userTypeFilter) filtered
    else filtered in
  if String.eqb statusFilter "active"
  then filter (fun user => UserManagement.notSuspended user) filtered
  else if String.eqb statusFilter "suspended"
  then filter (fun user => negb (UserManagement.notSuspended user)) filtered
  else filtered.

Definition publicUsers (filteredUsers : list UserProfile.t) : list UserProfile.t :=
  filter (fun u => String.eqb (UserType_name (UserProfile.user_type u)) "public") filteredUsers.

Definition staffUsers (filteredUsers : list UserProfile.t) : list UserProfile.t :=
  filter (fun u => String.eqb (UserType_name (UserProfile.user_type u)) "staff") filteredUsers.

End UserFilters.

Module SuspendDialog.

(** [onSuspend] of the user table: remember the row and open the dialog. *)
Definition onSuspend (u : UserProfile.t) : M UserManagement.State unit :=
  modify_component (UserManagement.setUserToSuspend (Some u)) ;;
  modify_component (UserManagement.setSuspendDialogOpen true).

(** The [disabled] attribute of the Confirm button:
    [!userToSuspend?.is_suspended && !suspensionReason]. *)
Definition confirmDisabled (c : UserManagement.State) : bool :=
  match UserManagement.userToSuspend c with
  | Some u => UserManagement.notSuspended u
  | None => true
  end
  && negb (Js.truthy (UserManagement.suspensionReason c)).

End SuspendDialog.

(* ================================================================== *)
(** * components/admin/UserManagement.tsx: the document browser *)
(* ================================================================== *)

Module DocumentBrowser.

Record Category := { id : string; name : string }.

Definition categories : list Category :=
  [ {| id := "all"; name := "All Documents" |};
    {| id := "environmental_assessment"; name := "Environmental Assessment" |};
    {| id := "monitoring"; name := "Monitoring" |};
    {| id := "compliance_reports"; name := "Compliance Reports" |};
    {| id := "inspection_reports"; name := "Inspection Reports" |};
    {| id := "notices"; name := "Notices" |};
    {| id := "safety"; name := "Safety" |} ].







Definition getCategoryName (categoryId : string) : string :=
  match find (fun c => String.eqb (id c) categoryId) categories with
  | Some category => name category
  | None => "General Document"
  end.


End DocumentBrowser.

(* ================================================================== *)
(** * pages/PublicDashboard.tsx: the activity card and the counters *)
(* ================================================================== *)

Module ActivityCard.

(** The button of an activity card, rendered under
    [activity.actionable && activity.actionText]: its caption and the tab
    its click selects. *)
Definition actionButton (activity : RecentActivity.t) : option (string * string) :=
  match RecentActivity.actionable activity, RecentActivity.actionText activity with
  | Some true, Some text =>
      if Js.truthy text
      then Some (text,
                 match RecentActivity.type activity with
                 | application => "permits"
                 | _ => "invoices"
                 end)
      else None
  | _, _ => None
  end.

End ActivityCard.

Module DashboardCounters.

Record DashboardStats := {
  activeApplications : nat;
  approvedPermits : nat;
  pendingPayments : string;
  documentsCount : nat
}.

Record State := {
  stats : DashboardStats;
  loading : bool
}.

Definition initialState : State :=
  {| stats := {| activeApplications := 0; approvedPermits := 0;
                 pendingPayments := "K0"; documentsCount := 0 |};
     loading := true |}.

Definition setStats (x : DashboardStats) (c : State) : State :=
  {| stats := x; loading := loading c |}.
Definition setLoading (x : bool) (c : State) : State :=
  {| stats := stats c; loading := x |}.

(** What the four reads of [fetchDashboardStats] came back with: the ids
    of the active and of the approved applications, the amounts (possibly
    null) of the pending or overdue invoices, the ids of the documents.
    The reads change nothing in the backend, so their answers are the
    input here. *)
Record Answers := {
  activeApps : Response (list Id);
  approvedApps : Response (list Id);
  invoices : Response (list (option Z));
  documents : Response (list Id)
}.

(** [const { data, error } = await ...; if (error) throw error;] *)
Definition orThrow {A} (r : Response A) : M State A :=
  match r with
  | Data data => ret data
  | Error error => throw error
  end.

(** [invoices.reduce((sum, invoice) => sum + (invoice.amount || 0), 0)] *)
Definition totalPending (invoices : list (option Z)) : Z :=
  fold_left (fun sum amount => sum + match amount with Some a => a | None => 0 end)
            invoices 0.

Section Counters.

(** [Number.prototype.toLocaleString], which depends on the locale of the
    browser. *)
Variable toLocaleString : Z -> string.

Definition fetchDashboardStats (answers : Answers) : M State unit :=
  try_catch_finally
    (activeApps <- orThrow (activeApps answers) ;;
     approvedApps <- orThrow (approvedApps answers) ;;
     invoices <- orThrow (invoices answers) ;;
     let totalPending := totalPending invoices in
     documents <- orThrow (documents answers) ;;
     modify_component
       (setStats {| activeApplications := List.length activeApps;
                    approvedPermits := List.length approvedApps;
                    pendingPayments := "K" ++ toLocaleString totalPending;
                    documentsCount := List.length documents |}))
    (fun error => console_error "Error fetching dashboard stats:" error)
    (modify_component (setLoading false)).

End Counters.

End DashboardCounters.

(* ================================================================== *)
(** * Paging, as computed by [PermitsList] and [EntitiesList] *)
(* ================================================================== *)

Module Paging.

Definition ITEMS_PER_PAGE : Z := 10.

Definition totalPages (count : nat) : Z :=
  JsText.ceilDiv (Z.of_nat count) ITEMS_PER_PAGE.

Definition startIndex (currentPage : Z) : Z := (currentPage - 1) * ITEMS_PER_PAGE.

Definition endIndex (currentPage : Z) : Z := startIndex currentPage + ITEMS_PER_PAGE.

Definition paginated {A} (filtered : list A) (currentPage : Z) : list A :=
  JsText.slice filtered (startIndex currentPage) (endIndex currentPage).

(** The two numbers of "Showing a-b of n". *)
Definition showingFrom (currentPage : Z) : Z := startIndex currentPage + 1.

Definition showingTo {A} (filtered : list A) (currentPage : Z) : Z :=
  Z.min (endIndex currentPage) (Z.of_nat (List.length filtered)).

(** The updates of [currentPage] behind the Previous and Next buttons. *)
Definition previousPage (prev : Z) : Z := Z.max 1 (prev - 1).

Definition nextPage (totalPages prev : Z) : Z := Z.min totalPages (prev + 1).

End Paging.

(* ================================================================== *)
(** * components/revenue/hooks/useInvoices.ts: [PermitsList] *)
(* ================================================================== *)

Module PermitsList.

(** Keys are kept as the strings they are here, since the entity filter
    compares them with the value of a select box. *)
Record Permit := {
  id : string;
  title : string;
  permit_number : option string;
  permit_type : string;
  description : option string;
  approval_date : option string;
  created_at : string;
  updated_at : string;
  entity_name : option string;
  entity_id : option string;
  activity_level : option string
}.

(** [x?.toLowerCase().includes(t.toLowerCase())]: undefined, hence falsy,
    when [x] is null. *)
Definition includesLower (x : option string) (t : string) : bool :=
  match x with
  | Some s => JsText.includes (JsText.toLowerCase s) (JsText.toLowerCase t)
  | None => false
  end.

(** [x === filter] for a nullable [x]. *)
Definition equals (x : option string) (value : string) : bool :=
  match x with
  | Some s => String.eqb s value
  | None => false
  end.

Definition filteredPermits (permits : list Permit)
           (searchTerm permitTypeFilter entityFilter categoryLevelFilter : string)
  : list Permit :=
  filter
    (fun permit =>
       let matchesSearch :=
         JsText.includes (JsText.toLowerCase (title permit)) (JsText.toLowerCase searchTerm)
         || includesLower (permit_number permit) searchTerm
         || includesLower (entity_name permit) searchTerm in
       let matchesType :=
         String.eqb permitTypeFilter "all" || String.eqb (permit_type permit) permitTypeFilter in
       let matchesEntity :=
         String.eqb entityFilter "all" || equals (entity_id permit) entityFilter in
       let matchesLevel :=
         String.eqb categoryLevelFilter "all"
         || equals (activity_level permit) categoryLevelFilter in
       matchesSearch && matchesType && matchesEntity && matchesLevel)
    permits.

Definition paginatedPermits (filtered : list Permit) (currentPage : Z) : list Permit :=
  Paging.paginated filtered currentPage.

Definition permitTypes (permits : list Permit) : list string :=
  JsText.unique (map permit_type permits).

(** Truthiness of a nullable string. *)
Definition present (x : option string) : bool :=
  match x with
  | Some s => Js.truthy s
  | None => false
  end.

(** The [filter] with the [seen] set: an entry passes when its id was not
    seen before. *)
Fixpoint firstById (seen : list string) (es : list (string * string))
  : list (string * string) :=
  match es with
  | [] => []
  | e :: es' =>
      if existsb (String.eqb (fst e)) seen then firstById seen es'
      else e :: firstById (fst e :: seen) es'
  end.

(** The options of the entity filter, as pairs of id and name. *)
Definition entities (permits : list Permit) : list (string * string) :=
  let uniqueEntities :=
    map (fun p => (JsText.show (entity_id p), JsText.show (entity_name p)))
        (filter (fun p => present (entity_id p) && present (entity_name p)) permits) in
  firstById [] uniqueEntities.

Definition categoryLevels (permits : list Permit) : list string :=
  JsText.unique
    (map JsText.show (filter present (map activity_level permits))).

End PermitsList.

(* ================================================================== *)
(** * components/registry/EntitiesList.tsx *)
(* ================================================================== *)

Module EntitiesList.

(** Modelled from the spec: the entity type of hooks/useEntities is not
    among the sources; the spec gives an entity a name, a type, a
    registration number and a suspension flag, and the list also reads its
    email. *)
Record Entity := {
  id : string;
  name : string;
  registration_number : option string;
  email : option string;
  entity_type : string;
  is_suspended : option bool
}.

(** Truthiness of [entity.is_suspended]. *)
Definition suspended (entity : Entity) : bool :=
  match is_suspended entity with
  | Some true => true
  | _ => false
  end.

Definition filteredEntities (entities : list Entity)
           (searchTerm entityTypeFilter statusFilter : string) : list Entity :=
  filter
    (fun entity =>
       let matchesSearch :=
         JsText.includes (JsText.toLowerCase (name entity)) (JsText.toLowerCase searchTerm)
         || PermitsList.includesLower (registration_number entity) searchTerm
         || PermitsList.includesLower (email entity) searchTerm in
       let matchesType :=
         String.eqb entityTypeFilter "all"
         || String.eqb (entity_type entity) entityTypeFilter in
       let matchesStatus :=
         String.eqb statusFilter "all"
         || (String.eqb statusFilter "active" && negb (suspended entity))
         || (String.eqb statusFilter "suspended" && suspended entity) in
       matchesSearch && matchesType && matchesStatus)
    entities.

Definition paginatedEntities (filtered : list Entity) (currentPage : Z) : list Entity :=
  Paging.paginated filtered currentPage.

Definition entityTypes (entities : list Entity) : list string :=
  JsText.unique (map entity_type entities).

End EntitiesList.

(* ================================================================== *)
(** * components/registry/EntitiesList.tsx: [RegistryDocumentManagement] *)
(* ================================================================== *)

Module RegistryDocumentManagement.

Record DocumentTemplate := {
  id : string;
  name : string;
  description : option string;
  document_type : string;
  category : string;
  file_path : option string;
  is_active : bool;
  created_at : string;
  updated_at : string
}.

Record FormData := {
  form_name : string;
  form_description : string;
  form_category : string
}.

Record State := {
  isEditDialogOpen : bool;
  selectedDocument : option DocumentTemplate;
  formData : FormData
}.

(** The body of the update the edit dialog sends. *)
Record UpdateBody := {
  body_name : string;
  body_description : option string;
  body_category : string
}.

(** [s || null] and [x || ''] *)
Definition orNull (s : string) : option string :=
  if Js.truthy s then Some s else None.

Definition orEmpty (x : option string) : string :=
  match x with
  | Some s => s
  | None => ""
  end.

Definition handleEdit (doc : DocumentTemplate) (c : State) : State :=
  {| isEditDialogOpen := true;
     selectedDocument := Some doc;
     formData := {| form_name := name doc;
                    form_description := orEmpty (description doc);
                    form_category := category doc |} |}.

Definition missingFields : string := "Please fill in all required fields".

(** [handleUpdate]: the error it displays, or the key and the body of the
    update that [updateMutation] sends for it. *)
Definition handleUpdate (c : State) : string + (string * UpdateBody) :=
  match selectedDocument c with
  | None => inl missingFields
  | Some doc =>
      if negb (Js.truthy (form_name (formData c)))
         || negb (Js.truthy (form_category (formData c)))
      then inl missingFields
      else inr (id doc,
                {| body_name := form_name (formData c);
                   body_description := orNull (form_description (formData c));
                   body_category := form_category (formData c) |})
  end.

End RegistryDocumentManagement.

(* ================================================================== *)
(** * components/public/PermitApplicationsMap.tsx *)
(* ================================================================== *)

Module PermitApplicationsMap.

Definition toggleStatus (status : string) (prev : list string) : list string :=
  if existsb (String.eqb status) prev
  then filter (fun s => negb (String.eqb s status)) prev
  else (prev ++ [status])%list.

Definition filteredApplications (applications : list Application.t)
           (selectedStatuses : list string) : list Application.t :=
  filter (fun app => existsb (String.eqb (Application.status app)) selectedStatuses)
         applications.

End PermitApplicationsMap.

(* ================================================================== *)
(** * Vocabulary for the statements *)
(* ================================================================== *)

(** Requests that change the record store or the object store. *)
Definition is_write (rq : Request) : bool :=
  match rq with
  | InsertIntent _ | InsertDocument _ | DeleteDocument _
  | UpdateProfile _ _ | StorageRemove _ => true
  | SelectDocuments _ | SelectProfiles | SelectApplications _
  | SelectInvoices _ | SelectNotifications _ => false
  end.

(** Number of live document records that point at a storage key. *)
Definition refs (key : string) (docs : list Document.t) : nat :=
  List.length
    (filter (fun d => String.eqb (Document.file_path (Document.fields d)) key) docs).

(** A string made of white space only (the empty string included). *)
Definition whitespace_only (s : string) : bool :=
  forallb Js.is_space (list_ascii_of_string s).

(** The two bodies the suspension dialog can send. *)
Definition suspendBody (at_ : Z) (by_ : Id) (reason : string) : SuspensionPatch :=
  {| patch_is_suspended := true;
     patch_suspended_at := Value at_;
     patch_suspended_by := Value by_;
     patch_suspension_reason := Value reason |}.

Definition reactivateBody : SuspensionPatch :=
  {| patch_is_suspended := false;
     patch_suspended_at := Null;
     patch_suspended_by := Null;
     patch_suspension_reason := Null |}.

(** A profile row is never suspended without a suspension time. *)
Definition suspension_consistent (u : UserProfile.t) : Prop :=
  UserProfile.is_suspended u = Some true -> UserProfile.suspended_at u <> None.

(** The session a handler leaves behind. *)
Definition after {C A} (m : M C A) (s : Session C) : Session C := snd (m s).

(** The writes the backend was sent so far, oldest first. *)
Definition writes (w : World) : list Request :=
  filter is_write (map request (history w)).

(** The same session with one more notification displayed. *)
Definition notified {C} (t : Toast) (s : Session C) : Session C :=
  {| world := world s; toasts := toasts s ++ [t]; console := console s;
     component := component s |}.

(** The history line left by the update the dialog sends. *)
Definition updateEvent (w : World) (id : Id) (body : SuspensionPatch) : Event :=
  {| request := UpdateProfile id body;
     accepted := negb (Backend.down w);
     documents_after := documents w;
     blobs_after := blobs w |}.

(** The profiles table after the update of the rows keyed [id]. *)
Definition patched (id : Id) (body : SuspensionPatch) (rows : list UserProfile.t)
  : list UserProfile.t :=
  map (fun r => if (UserProfile.id r =? id)%nat then Backend.apply_patch body r else r) rows.

(** What a table may look like once some of the rows keyed like [gone]
    have been deleted: nothing was added, and every other row is there. *)
Definition survivors (gone : list Document.t) (docs docs' : list Document.t) : Prop :=
  incl docs' docs
  /\ forall r, In r docs -> ~ In (Document.id r) (map Document.id gone) -> In r docs'.

(** The table once every row keyed like one of [gone] has been deleted. *)
Definition without (gone : list Document.t) (docs : list Document.t) : list Document.t :=
  filter (fun r => negb (existsb (Nat.eqb (Document.id r)) (map Document.id gone))) docs.

(** The intent row the store adds when it accepts the form of session [s]
    from user [u], and the history line of that insert. *)
Definition insertedIntent (u : User.t) (s : Session IntentRegistrationNew.State) : Intent.t :=
  {| Intent.id := Backend.fresh (map Intent.id (intent_registrations (world s)));
     Intent.fields :=
       IntentRegistrationNew.intentPayload u
         (IntentRegistrationNew.formData (component s)) |}.

Definition intentEvent (u : User.t) (s : Session IntentRegistrationNew.State) : Event :=
  {| request := InsertIntent (IntentRegistrationNew.intentPayload u
                                (IntentRegistrationNew.formData (component s)));
     accepted := negb (Backend.down (world s));
     documents_after := documents (world s);
     blobs_after := blobs (world s) |}.

(** The console line a rejected clean-up deletion leaves. *)
Definition deletionLog : string :=
  ("Error deleting document record:" ++ " " ++ Backend.rejected)%string.

(** The history lines recorded between two sessions of one run. *)
Definition during {C} (s s' : Session C) : list Event :=
  skipn (List.length (history (world s))) (history (world s')).

(** What each source contributes to the feed of [user] from backend [w]:
    the rows its request returns, as activities, or nothing when that
    request (the first, second or third of the run) is rejected. *)
Definition applicationsPart (user : User.t) (w : World) : list RecentActivity.t :=
  if outage w (List.length (history w)) then []
  else map PublicDashboard.ofApplication (Backend.recent_applications (User.id user) w).

Definition invoicesPart (user : User.t) (w : World) : list RecentActivity.t :=
  if outage w (List.length (history w) + 1) then []
  else map (PublicDashboard.ofInvoice (now w)) (Backend.recent_invoices (User.id user) w).

Definition notificationsPart (user : User.t) (w : World) : list RecentActivity.t :=
  if outage w (List.length (history w) + 2) then []
  else map PublicDashboard.ofNotification (Backend.recent_notifications (User.id user) w).

Definition merged (user : User.t) (w : World) : list RecentActivity.t :=
  applicationsPart user w ++ invoicesPart user w ++ notificationsPart user w.

(** The feed the dashboard holds after [fetchRecentActivities]. *)
Definition feed (user : User.t) (s : Session PublicDashboard.State) : list RecentActivity.t :=
  PublicDashboard.recentActivities
    (component (after (PublicDashboard.fetchRecentActivities user) s)).




Definition invoicesOf (user : User.t) (w : World) : list Invoice.t :=
  filter (fun i => (Invoice.user_id i =? User.id user)%nat) (invoices w).






(** The same session [d] milliseconds later: nothing has changed but the
    clock that [new Date()] and the store read. *)
Definition later {C} (d : Z) (s : Session C) : Session C :=
  {| world :=
       {| intent_registrations := intent_registrations (world s);
          documents := documents (world s);
          profiles := profiles (world s);
          permit_applications := permit_applications (world s);
          invoices := invoices (world s);
          notifications := notifications (world s);
          blobs := blobs (world s);
          now := now (world s) + d;
          outage := outage (world s);
          history := history (world s) |};
     toasts := toasts s; console := console s; component := component s |}.

(** Two items of the feed that differ at most by the title, the second
    being the later one: a title changes only on an invoice whose payment
    is pending, to "Overdue Payment". *)
Definition same_but_overdue (a b : RecentActivity.t) : Prop :=
  RecentActivity.id b = RecentActivity.id a
  /\ RecentActivity.type b = RecentActivity.type a
  /\ RecentActivity.description b = RecentActivity.description a
  /\ RecentActivity.status b = RecentActivity.status a
  /\ RecentActivity.timestamp b = RecentActivity.timestamp a
  /\ RecentActivity.actionable b = RecentActivity.actionable a
  /\ RecentActivity.actionText b = RecentActivity.actionText a
  /\ (RecentActivity.title b = RecentActivity.title a
      \/ (RecentActivity.type a = invoice
          /\ RecentActivity.status a = "pending"
          /\ RecentActivity.title b = "Overdue Payment")).

(** A variant of the documents hook whose clean-up passes a rejected
    deletion on to its caller instead of logging it; it shows what
    [handleSubmit] itself does with such a rejection. *)
Definition rethrowingCleanup (id : Id) : M IntentRegistrationNew.State unit :=
  r <- call (Backend.delete_document id) ;;
  match r with
  | Data _ => ret tt
  | Error error => throw error
  end.

Definition rethrowingHook (user : option User.t) : IntentRegistrationNew.DocumentsHook :=
  {| IntentRegistrationNew.linkDraftsToIntent :=
       IntentRegistrationNew.useDocuments_linkDraftsToIntent;
     IntentRegistrationNew.deleteDocumentRecordOnly := rethrowingCleanup;
     IntentRegistrationNew.refreshDocuments :=
       Some (IntentRegistrationNew.useDocuments_refreshDocuments user) |}.

(** ** Sample data *)

Module Sample.

(** An engine that reads the standard format only, and one that also
    reads a calendar date with a five-digit year. *)
Definition strict : Js.Engine := fun _ => None.


Definition alice : User.t := {| User.id := 1%nat; User.email := "alice@example.org" |}.

Definition profile (id : Id) (t : UserType) (susp : option bool) : UserProfile.t :=
  {| UserProfile.id := id; UserProfile.user_id := (100 + id)%nat;
     UserProfile.email := "user@example.org";
     UserProfile.first_name := None; UserProfile.last_name := None;
     UserProfile.user_type := t;
     UserProfile.staff_unit := None; UserProfile.staff_position := None;
     UserProfile.is_active := true;
     UserProfile.is_suspended := susp;
     UserProfile.suspended_at := None; UserProfile.suspended_by := None;
     UserProfile.suspension_reason := None;
     UserProfile.created_at := 0;
     UserProfile.phone := None; UserProfile.organization := None |}.

Definition root : UserProfile.t := profile 1%nat super_admin None.
Definition officer : UserProfile.t := profile 2%nat admin None.
Definition clerk : UserProfile.t := profile 3%nat staff None.
Definition citizen : UserProfile.t := profile 4%nat public None.

Definition draft (id : Id) (name key : string) : Document.t :=
  {| Document.id := id; Document.uploaded_at := 10;
     Document.fields :=
       {| Document.user_id := 1%nat; Document.filename := name;
          Document.file_path := key; Document.file_size := 2048;
          Document.mime_type := "application/pdf";
          Document.document_type := "intent_draft";
          Document.permit_id := None; Document.intent_registration_id := None |} |}.

Definition plan : Document.t := draft 4%nat "plan.pdf" "1/plan.pdf".
Definition survey : Document.t := draft 7%nat "survey.pdf" "1/survey.pdf".

(** A backend holding the four profiles and the two drafts; [o] tells
    which requests it rejects. *)
Definition backend (o : nat -> bool) : World :=
  {| intent_registrations := [];
     documents := [plan; survey];
     profiles := [root; officer; clerk; citizen];
     permit_applications := []; invoices := []; notifications := [];
     blobs := ["1/plan.pdf"; "1/survey.pdf"];
     now := 1700000000000;
     outage := o;
     history := [] |}.

Definition always_up : nat -> bool := fun _ => false.
Definition always_down : nat -> bool := fun _ => true.
Definition down_at (k : nat) : nat -> bool := fun n => Nat.eqb n k.

Definition session {C} (o : nat -> bool) (c : C) : Session C :=
  {| world := backend o; toasts := []; console := []; component := c |}.

Definition form (commencement completion : string) : IntentRegistrationNew.FormData :=
  {| IntentRegistrationNew.entity_id := "entity-9";
     IntentRegistrationNew.activity_level := "2";
     IntentRegistrationNew.activity_description := "Exploration drilling";
     IntentRegistrationNew.preparatory_work_description := "Site clearing";
     IntentRegistrationNew.commencement_date := commencement;
     IntentRegistrationNew.completion_date := completion |}.

Definition intentForm (commencement completion : string) (pending : list Document.t)
  : IntentRegistrationNew.State :=
  {| IntentRegistrationNew.submittedIntentId := None;
     IntentRegistrationNew.formData := form commencement completion;
     IntentRegistrationNew.submitting := false;
     IntentRegistrationNew.currentIntent := None;
     IntentRegistrationNew.pendingDocuments := pending;
     IntentRegistrationNew.documents := [] |}.

Definition suspendDialog (u : UserProfile.t) (reason : string) : UserManagement.State :=
  {| UserManagement.users := [root; officer; clerk; citizen];
     UserManagement.loading := false;
     UserManagement.suspendDialogOpen := true;
     UserManagement.userToSuspend := Some u;
     UserManagement.suspensionReason := reason |}.

Definition fileList : DocumentManagement.State :=
  {| DocumentManagement.files := [plan; survey]; DocumentManagement.loading := false |}.

Definition assessed : Assessment.t :=
  {| Assessment.assessment_notes := None;
     Assessment.feedback_provided := Some "Boundary map missing";
     Assessment.assessment_status := "completed";
     Assessment.assessment_outcome := None |}.

Definition app (id : Id) (status : string) (updated : Z) : Application.t :=
  {| Application.id := id; Application.user_id := 1%nat;
     Application.title := Some "Quarry permit"; Application.status := status;
     Application.updated_at := updated;
     Application.application_number := Some "APP-17";
     Application.initial_assessments := [assessed] |}.

Definition bill (id : Id) (status : string) (updated : Z) : Invoice.t :=
  {| Invoice.id := id; Invoice.user_id := 1%nat;
     Invoice.invoice_number := "INV-3"; Invoice.payment_status := status;
     Invoice.amount := 1500; Invoice.due_date := 1690000000000;
     Invoice.updated_at := updated |}.

Definition note (id : Id) (read : bool) (created : Z) : Notification.t :=
  {| Notification.id := id; Notification.user_id := 1%nat;
     Notification.title := "Reminder"; Notification.message := "Inspection due";
     Notification.type := "info"; Notification.created_at := created;
     Notification.is_read := read |}.

(** Two applications, two invoices and three notifications of alice, with
    seven different times. *)
Definition busy (o : nat -> bool) : World :=
  {| intent_registrations := []; documents := []; profiles := [];
     permit_applications := [app 1%nat "draft" 3000; app 2%nat "approved" 7000];
     invoices := [bill 1%nat "pending" 1000; bill 2%nat "paid" 6000];
     notifications := [note 1%nat false 5000; note 2%nat true 2000; note 3%nat false 4000];
     blobs := [];
     now := 1700000000000;
     outage := o;
     history := [] |}.

Definition dashboard (o : nat -> bool) : Session PublicDashboard.State :=
  {| world := busy o; toasts := []; console := [];
     component := PublicDashboard.initialState |}.



(** A pending invoice that falls due at 1700000000500. *)
Definition falling_due : Session PublicDashboard.State :=
  {| world :=
       {| intent_registrations := []; documents := []; profiles := [];
          permit_applications := [];
          invoices :=
            [ {| Invoice.id := 5%nat; Invoice.user_id := 1%nat;
                 Invoice.invoice_number := "INV-5"; Invoice.payment_status := "pending";
                 Invoice.amount := 200; Invoice.due_date := 1700000000500;
                 Invoice.updated_at := 1000 |} ];
          notifications := [];
          blobs := [];
          now := 1700000000000;
          outage := always_up;
          history := [] |};
     toasts := []; console := [];
     component := PublicDashboard.initialState |}.

End Sample.

(* ================================================================== *)
(** * Proofs *)
(* ================================================================== *)

Local Open Scope list_scope.

(** Unfolds the plumbing of the handlers so that a run can be followed
    request by request. *)
Ltac run :=
  unfold after, notified, bind, ret, throw, try_catch, try_catch_finally, call, toast,
         console_error, get_component, modify_component, Date_now in *;
  cbn.

(** ** White space *)

Lemma trimStart_empty (s : string) :
  whitespace_only s = true -> Js.trimStart s = "".
Proof.
  unfold whitespace_only.
  induction s as [|c s IH]; cbn; [reflexivity|].
  destruct (Js.is_space c); cbn; [exact IH | discriminate].
Qed.

Lemma trimEnd_nonempty (s : string) :
  whitespace_only s = false -> Js.trimEnd s <> "".
Proof.
  unfold whitespace_only.
  induction s as [|c s IH]; cbn; [discriminate|].
  intros H. destruct (Js.trimEnd s) eqn:E.
  - destruct (Js.is_space c) eqn:Ec; cbn in H; [|discriminate].
    exfalso. apply IH; [exact H | reflexivity].
  - discriminate.
Qed.

Lemma trimStart_keeps_ink (s : string) :
  whitespace_only s = false -> whitespace_only (Js.trimStart s) = false.
Proof.
  unfold whitespace_only.
  induction s as [|c s IH]; cbn; [discriminate|].
  destruct (Js.is_space c) eqn:Ec; cbn; intros H.
  - apply IH, H.
  - rewrite Ec. reflexivity.
Qed.

(** [!reason.trim()] holds exactly for the strings made of white space. *)
Lemma trim_falsy (s : string) :
  negb (Js.truthy (Js.trim s)) = whitespace_only s.
Proof.
  unfold Js.trim. destruct (whitespace_only s) eqn:E.
  - rewrite (trimStart_empty s E). reflexivity.
  - pose proof (trimEnd_nonempty _ (trimStart_keeps_ink s E)) as H.
    destruct (Js.trimEnd (Js.trimStart s)); [congruence | reflexivity].
Qed.

(** ** The user list is gated on the acting profile *)

(** C10. For an acting profile that is neither admin nor super_admin (or
    for no profile at all), [fetchUsers] sends nothing to the record store:
    the backend, its request history included, is untouched; the user list
    is what it was, hence still empty on a freshly mounted component; the
    only thing displayed is the access-denied notification. *)
Theorem fetchUsers_denied_reads_nothing
  (profile : option UserProfile.t) (s : Session UserManagement.State) :
  (forall p, profile = Some p ->
     UserProfile.user_type p <> admin /\ UserProfile.user_type p <> super_admin) ->
  fst (UserManagement.fetchUsers profile s) = Done tt
  /\ world (after (UserManagement.fetchUsers profile) s) = world s
  /\ toasts (after (UserManagement.fetchUsers profile) s)
     = toasts s ++ [UserManagement.accessDenied]
  /\ console (after (UserManagement.fetchUsers profile) s) = console s
  /\ UserManagement.users (component (after (UserManagement.fetchUsers profile) s))
     = UserManagement.users (component s)
  /\ (UserManagement.users (component s) = [] ->
      UserManagement.users (component (after (UserManagement.fetchUsers profile) s)) = []).
Proof.
  intros H.
  assert (G : UserManagement.notAdministrator profile = true).
  { destruct profile as [p|]; [|reflexivity].
    destruct (H p eq_refl) as [Ha Hs]. unfold UserManagement.notAdministrator.
    destruct (UserProfile.user_type p); try reflexivity; congruence. }
  unfold UserManagement.fetchUsers. run. rewrite G. cbn.
  repeat split; auto.
Qed.

Lemma fetchUsers_denied_reads_nothing_witness :
  world (after (UserManagement.fetchUsers (Some Sample.clerk))
               (Sample.session Sample.always_up UserManagement.initialState))
  = Sample.backend Sample.always_up
  /\ UserManagement.users
       (component (after (UserManagement.fetchUsers (Some Sample.clerk))
                         (Sample.session Sample.always_up UserManagement.initialState)))
     = [].
Proof.
  assert (H : forall p, Some Sample.clerk = Some p ->
                UserProfile.user_type p <> admin /\ UserProfile.user_type p <> super_admin).
  { intros p E. injection E as <-. cbn. split; discriminate. }
  destruct (fetchUsers_denied_reads_nothing (Some Sample.clerk)
              (Sample.session Sample.always_up UserManagement.initialState) H)
    as (_ & Hw & _ & _ & _ & Hu).
  split; [exact Hw | apply Hu; reflexivity].
Defined.

(** ** Suspension *)

(** C5. With a super_admin in the dialog, [handleSuspendUser] stops at the
    first guard whatever the account's current suspension flag and whatever
    the reason typed: it only displays the refusal.  The backend is
    untouched, so no write is sent and every profile row keeps its four
    suspension columns. *)
Theorem handleSuspendUser_super_admin_protected
  (profile : option UserProfile.t) (s : Session UserManagement.State)
  (u : UserProfile.t) :
  UserManagement.userToSuspend (component s) = Some u ->
  UserProfile.user_type u = super_admin ->
  UserManagement.handleSuspendUser profile s
  = (Done tt, notified UserManagement.cannotSuspendSuperAdmin s)
  /\ history (world (after (UserManagement.handleSuspendUser profile) s))
     = history (world s)
  /\ profiles (world (after (UserManagement.handleSuspendUser profile) s))
     = profiles (world s).
Proof.
  intros Hu Ht.
  assert (E : UserManagement.handleSuspendUser profile s
              = (Done tt, notified UserManagement.cannotSuspendSuperAdmin s)).
  { unfold UserManagement.handleSuspendUser. run. rewrite Hu, Ht. reflexivity. }
  unfold after. rewrite E. cbn. auto.
Qed.

Lemma handleSuspendUser_super_admin_protected_witness :
  profiles (world (after (UserManagement.handleSuspendUser (Some Sample.officer))
                         (Sample.session Sample.always_up
                            (Sample.suspendDialog Sample.root "policy breach"))))
  = [Sample.root; Sample.officer; Sample.clerk; Sample.citizen].
Proof.
  exact (proj2 (proj2 (handleSuspendUser_super_admin_protected
                         (Some Sample.officer)
                         (Sample.session Sample.always_up
                            (Sample.suspendDialog Sample.root "policy breach"))
                         Sample.root eq_refl eq_refl))).
Defined.

Lemma set_history_same (w : World) : Backend.set_history (history w) w = w.
Proof. destruct w; reflexivity. Qed.

Lemma writes_extended (w w' : World) (evs : list Event) :
  history w' = history w ++ evs ->
  writes w' = writes w ++ filter is_write (map request evs).
Proof.
  intros H. unfold writes. rewrite H, map_app, filter_app. reflexivity.
Qed.

Lemma reads_are_no_writes (evs : list Event) :
  Forall (fun e => is_write (request e) = false) evs ->
  filter is_write (map request evs) = [].
Proof.
  induction 1 as [|e evs He _ IH]; cbn; [reflexivity|].
  rewrite He. exact IH.
Qed.

(** [fetchUsers] never throws and only ever reads. *)
Lemma fetchUsers_reads_only (profile : option UserProfile.t)
      (s : Session UserManagement.State) :
  exists evs,
    fst (UserManagement.fetchUsers profile s) = Done tt
    /\ world (after (UserManagement.fetchUsers profile) s)
       = Backend.set_history (history (world s) ++ evs) (world s)
    /\ Forall (fun e => is_write (request e) = false) evs.
Proof.
  unfold UserManagement.fetchUsers. run.
  destruct (UserManagement.notAdministrator profile); cbn.
  - exists []. rewrite app_nil_r, set_history_same. auto.
  - unfold Backend.select_profiles.
    destruct (Backend.down (world s)); cbn;
      (eexists [_]; split; [reflexivity | split; [reflexivity | repeat constructor]]).
Qed.

(** Past its two guards, [handleSuspendUser] sends one update, which the
    store applies as a whole or not at all, and then at most reads. *)
Lemma handleSuspendUser_past_guards
  (profile : option UserProfile.t) (s : Session UserManagement.State)
  (u : UserProfile.t) :
  UserManagement.userToSuspend (component s) = Some u ->
  UserProfile.user_type u <> super_admin ->
  UserManagement.notSuspended u
    && whitespace_only (UserManagement.suspensionReason (component s)) = false ->
  let body := UserManagement.suspensionPatch profile (UserManagement.notSuspended u)
                (now (world s)) (UserManagement.suspensionReason (component s)) in
  exists evs,
    Forall (fun e => is_write (request e) = false) evs
    /\ world (after (UserManagement.handleSuspendUser profile) s)
       = Backend.set_history
           (history (world s) ++ updateEvent (world s) (UserProfile.id u) body :: evs)
           (if Backend.down (world s) then world s
            else Backend.set_profiles
                   (patched (UserProfile.id u) body (profiles (world s))) (world s)).
Proof.
  intros Hu Ht Hg body.
  assert (Hs : UserType_eqb (UserProfile.user_type u) super_admin = false)
    by (destruct (UserProfile.user_type u); try reflexivity; congruence).
  unfold UserManagement.handleSuspendUser, after.
  unfold bind at 1. unfold get_component at 1. rewrite Hu, Hs.
  rewrite trim_falsy, Hg.
  unfold updateEvent, Backend.update_profile. run. fold body.
  destruct (Backend.down (world s)) eqn:Hd; cbn.
  - exists []. split; [constructor|]. reflexivity.
  - match goal with
    | |- context [UserManagement.fetchUsers profile ?s1] =>
        destruct (fetchUsers_reads_only profile s1) as (evs & Hr & Hw & Hreads);
        unfold after in Hw;
        destruct (UserManagement.fetchUsers profile s1) as [r s2]
    end.
    cbn in Hr, Hw. subst r. cbn. exists evs. split; [exact Hreads|].
    rewrite Hw. cbn. rewrite <- app_assoc. reflexivity.
Qed.

Lemma patched_row (id : Id) (body : SuspensionPatch) (rows : list UserProfile.t)
      (r' : UserProfile.t) :
  In r' (patched id body rows) -> UserProfile.id r' = id ->
  exists r, In r rows /\ r' = Backend.apply_patch body r.
Proof.
  unfold patched. intros Hin Hid.
  apply in_map_iff in Hin. destruct Hin as (r & Hr & Hin).
  exists r. split; [exact Hin|].
  destruct (UserProfile.id r =? id)%nat eqn:E; [congruence|].
  apply Nat.eqb_neq in E. subst r'. contradiction.
Qed.

(** C6, as the dialog implements it.  For an account that is not a
    super_admin and is not suspended (so the dialog is asked to suspend
    it): a reason that is empty or only white space is refused with the
    "Reason Required" notice and the session is otherwise untouched, the
    backend having received nothing, whoever is acting; any other reason,
    the acting administrator's profile being loaded, makes the handler
    send exactly one write, the update whose body sets the flag and the
    three audit columns together, and once the store accepts it every row
    of that account is suspended with a time, the acting administrator's
    id and the reason typed. *)
Theorem handleSuspendUser_reason_rule
  (profile : option UserProfile.t) (s : Session UserManagement.State) (u : UserProfile.t) :
  UserManagement.userToSuspend (component s) = Some u ->
  UserProfile.user_type u <> super_admin ->
  UserManagement.notSuspended u = true ->
  let reason := UserManagement.suspensionReason (component s) in
  let s' := after (UserManagement.handleSuspendUser profile) s in
  (whitespace_only reason = true ->
     UserManagement.handleSuspendUser profile s
     = (Done tt,
        notified {| title := "Reason Required";
                    description := "Please provide a reason for suspension";
                    variant := Some "destructive" |} s)
     /\ history (world s') = history (world s)
     /\ profiles (world s') = profiles (world s))
  /\
  (forall p, profile = Some p ->
     whitespace_only reason = false ->
     let body := suspendBody (now (world s)) (UserProfile.user_id p) reason in
     writes (world s') = writes (world s) ++ [UpdateProfile (UserProfile.id u) body]
     /\ (Backend.down (world s) = false ->
         profiles (world s') = patched (UserProfile.id u) body (profiles (world s))
         /\ forall r, In r (profiles (world s')) -> UserProfile.id r = UserProfile.id u ->
              UserProfile.is_suspended r = Some true
              /\ UserProfile.suspended_at r = Some (now (world s))
              /\ UserProfile.suspended_by r = Some (UserProfile.user_id p)
              /\ UserProfile.suspension_reason r = Some reason)).
Proof.
  intros Hu Ht Hn reason s'. split.
  - intros Hr.
    assert (Hs : UserType_eqb (UserProfile.user_type u) super_admin = false)
      by (destruct (UserProfile.user_type u); try reflexivity; congruence).
    assert (E : UserManagement.handleSuspendUser profile s
                = (Done tt, notified UserManagement.reasonRequired s)).
    { unfold UserManagement.handleSuspendUser.
      unfold bind at 1. unfold get_component at 1. rewrite Hu, Hs.
      rewrite trim_falsy, Hn. fold reason. rewrite Hr. reflexivity. }
    subst s'. unfold after. rewrite E. cbn. auto.
  - intros p -> Hr body.
    assert (Hg : UserManagement.notSuspended u
                 && whitespace_only (UserManagement.suspensionReason (component s)) = false)
      by (fold reason; rewrite Hr; apply andb_false_r).
    destruct (handleSuspendUser_past_guards (Some p) s u Hu Ht Hg) as (evs & Hreads & Hw).
    rewrite Hn in Hw. cbn in Hw. fold reason in Hw. fold body in Hw. fold s' in Hw.
    split.
    + rewrite (writes_extended (world s) (world s')
                 (updateEvent (world s) (UserProfile.id u) body :: evs)).
      * cbn. rewrite reads_are_no_writes by exact Hreads. reflexivity.
      * rewrite Hw. reflexivity.
    + intros Hd. rewrite Hd in Hw.
      assert (Hp : profiles (world s') = patched (UserProfile.id u) body (profiles (world s)))
        by (rewrite Hw; reflexivity).
      split; [exact Hp|].
      intros r Hin Hid. rewrite Hp in Hin.
      destruct (patched_row _ _ _ _ Hin Hid) as (r0 & _ & ->).
      cbn. auto.
Qed.

Lemma handleSuspendUser_reason_rule_witness :
  writes (world (after (UserManagement.handleSuspendUser (Some Sample.officer))
                       (Sample.session Sample.always_up
                          (Sample.suspendDialog Sample.citizen "forged licence"))))
  = [UpdateProfile 4%nat (suspendBody 1700000000000 102%nat "forged licence")]
  /\ history (world (after (UserManagement.handleSuspendUser None)
                           (Sample.session Sample.always_up
                              (Sample.suspendDialog Sample.citizen "  "))))
     = [].
Proof.
  split.
  - refine (proj1 (proj2 (handleSuspendUser_reason_rule (Some Sample.officer)
                     (Sample.session Sample.always_up
                        (Sample.suspendDialog Sample.citizen "forged licence"))
                     Sample.citizen eq_refl _ eq_refl) Sample.officer eq_refl eq_refl)).
    cbn. discriminate.
  - refine (proj1 (proj2 (proj1 (handleSuspendUser_reason_rule None
                     (Sample.session Sample.always_up
                        (Sample.suspendDialog Sample.citizen "  "))
                     Sample.citizen eq_refl _ eq_refl) eq_refl))).
    cbn. discriminate.
Defined.

(** C6 as worded fails in two ways, the reason being non-empty both times.
    When no profile is loaded in the auth context, [profile?.user_id] is
    undefined and drops out of the update: the account ends suspended with
    a time and the reason but with [suspended_by] still null.  And when
    the store rejects the update nothing is set: the account is left as
    it was and the failure is displayed. *)
Lemma handleSuspendUser_reason_rule_counterexample :
  (map (fun r => (UserProfile.is_suspended r, UserProfile.suspended_at r,
                  UserProfile.suspended_by r, UserProfile.suspension_reason r))
       (filter (fun r => (UserProfile.id r =? 4)%nat)
               (profiles (world (after (UserManagement.handleSuspendUser None)
                                       (Sample.session Sample.always_up
                                          (Sample.suspendDialog Sample.citizen
                                             "forged licence"))))))
   = [(Some true, Some 1700000000000, None, Some "forged licence")])
  /\
  (profiles (world (after (UserManagement.handleSuspendUser (Some Sample.officer))
                          (Sample.session Sample.always_down
                             (Sample.suspendDialog Sample.citizen "forged licence"))))
   = [Sample.root; Sample.officer; Sample.clerk; Sample.citizen]
   /\ map title (toasts (after (UserManagement.handleSuspendUser (Some Sample.officer))
                               (Sample.session Sample.always_down
                                  (Sample.suspendDialog Sample.citizen "forged licence"))))
      = ["Error"]).
Proof. vm_compute. repeat split. Qed.

Lemma handleSuspendUser_stopped
  (profile : option UserProfile.t) (s : Session UserManagement.State) :
  (forall u, UserManagement.userToSuspend (component s) = Some u ->
     UserProfile.user_type u = super_admin
     \/ UserManagement.notSuspended u
        && whitespace_only (UserManagement.suspensionReason (component s)) = true) ->
  world (after (UserManagement.handleSuspendUser profile) s) = world s.
Proof.
  intros H. unfold UserManagement.handleSuspendUser, after.
  unfold bind at 1. unfold get_component at 1.
  destruct (UserManagement.userToSuspend (component s)) as [u|]; [|reflexivity].
  destruct (UserType_eqb (UserProfile.user_type u) super_admin) eqn:Hs; [reflexivity|].
  destruct (H u eq_refl) as [Ht|Hg].
  - rewrite Ht in Hs. discriminate.
  - rewrite trim_falsy, Hg. reflexivity.
Qed.

Lemma patched_consistent (id : Id) (body : SuspensionPatch) (rows : list UserProfile.t) :
  (patch_is_suspended body = true -> exists t, patch_suspended_at body = Value t) ->
  Forall suspension_consistent rows ->
  Forall suspension_consistent (patched id body rows).
Proof.
  intros Hb Hrows. unfold patched. apply Forall_map.
  eapply Forall_impl; [|exact Hrows].
  intros r Hr. destruct (UserProfile.id r =? id)%nat; [|exact Hr].
  unfold suspension_consistent. cbn. intros E.
  injection E as E. destruct (Hb E) as (t & ->). cbn. discriminate.
Qed.

(** C7, as the dialog implements it.  When a guard stops the handler the
    backend is left as it was.  Otherwise, the acting administrator's
    profile being loaded, exactly one write is sent: when suspending, the
    update setting [is_suspended] to true with the current time, the
    administrator's id and the reason; when reactivating, the update
    setting it to false and clearing the three audit columns.  The store
    applies that update to the rows of the account as a whole, or, when it
    rejects it, leaves the table alone.  Whoever is acting, no run can
    take a table in which every suspended row has a suspension time to one
    in which some row lacks it, and a reactivation is the one write that
    clears all three audit columns. *)
Theorem handleSuspendUser_writes_all_four
  (profile : option UserProfile.t) (s : Session UserManagement.State) :
  let reason := UserManagement.suspensionReason (component s) in
  let s' := after (UserManagement.handleSuspendUser profile) s in
  ((forall u, UserManagement.userToSuspend (component s) = Some u ->
      UserProfile.user_type u = super_admin
      \/ UserManagement.notSuspended u && whitespace_only reason = true) ->
   world s' = world s)
  /\
  (forall p u,
     profile = Some p ->
     UserManagement.userToSuspend (component s) = Some u ->
     UserProfile.user_type u <> super_admin ->
     UserManagement.notSuspended u && whitespace_only reason = false ->
     let body := if UserManagement.notSuspended u
                 then suspendBody (now (world s)) (UserProfile.user_id p) reason
                 else reactivateBody in
     writes (world s') = writes (world s) ++ [UpdateProfile (UserProfile.id u) body]
     /\ profiles (world s')
        = (if Backend.down (world s) then profiles (world s)
           else patched (UserProfile.id u) body (profiles (world s)))
     /\ forall r, In r (patched (UserProfile.id u) body (profiles (world s))) ->
          UserProfile.id r = UserProfile.id u ->
          if UserManagement.notSuspended u
          then UserProfile.is_suspended r = Some true
               /\ UserProfile.suspended_at r = Some (now (world s))
               /\ UserProfile.suspended_by r = Some (UserProfile.user_id p)
               /\ UserProfile.suspension_reason r = Some reason
          else UserProfile.is_suspended r = Some false
               /\ UserProfile.suspended_at r = None
               /\ UserProfile.suspended_by r = None
               /\ UserProfile.suspension_reason r = None)
  /\
  (Forall suspension_consistent (profiles (world s)) ->
   Forall suspension_consistent (profiles (world s')))
  /\
  (forall u,
     UserManagement.userToSuspend (component s) = Some u ->
     UserProfile.user_type u <> super_admin ->
     UserManagement.notSuspended u = false ->
     writes (world s') = writes (world s) ++ [UpdateProfile (UserProfile.id u) reactivateBody]).
Proof.
  intros reason s'. split; [|split; [|split]].
  4:{ intros u Hu Ht Hn.
      assert (Hg : UserManagement.notSuspended u
                   && whitespace_only (UserManagement.suspensionReason (component s)) = false)
        by (rewrite Hn; reflexivity).
      destruct (handleSuspendUser_past_guards profile s u Hu Ht Hg) as (evs & Hreads & Hw).
      fold s' in Hw. rewrite Hn in Hw.
      rewrite (writes_extended (world s) (world s')
                 (updateEvent (world s) (UserProfile.id u) reactivateBody :: evs)).
      - cbn. rewrite reads_are_no_writes by exact Hreads. reflexivity.
      - rewrite Hw. reflexivity. }
  - intros H. apply handleSuspendUser_stopped. exact H.
  - intros p u -> Hu Ht Hg body.
    destruct (handleSuspendUser_past_guards (Some p) s u Hu Ht Hg) as (evs & Hreads & Hw).
    fold reason in Hw. fold s' in Hw.
    assert (Eb : UserManagement.suspensionPatch (Some p) (UserManagement.notSuspended u)
                   (now (world s)) reason = body)
      by (subst body; destruct (UserManagement.notSuspended u); reflexivity).
    rewrite Eb in Hw. split; [|split].
    + rewrite (writes_extended (world s) (world s')
                 (updateEvent (world s) (UserProfile.id u) body :: evs)).
      * cbn. rewrite reads_are_no_writes by exact Hreads.
        subst body. destruct (UserManagement.notSuspended u); reflexivity.
      * rewrite Hw. reflexivity.
    + rewrite Hw. destruct (Backend.down (world s)); reflexivity.
    + intros r Hin Hid. destruct (patched_row _ _ _ _ Hin Hid) as (r0 & _ & ->).
      subst body. destruct (UserManagement.notSuspended u); cbn; auto.
  - intros Hc. subst s' reason.
    destruct (UserManagement.userToSuspend (component s)) as [u|] eqn:Hu.
    2:{ rewrite (handleSuspendUser_stopped profile s); [exact Hc|].
        intros u E. rewrite Hu in E. discriminate. }
    destruct (UserType_eqb (UserProfile.user_type u) super_admin) eqn:Hs.
    { rewrite (handleSuspendUser_stopped profile s); [exact Hc|].
      intros u0 E. rewrite Hu in E. injection E as <-. left.
      destruct (UserProfile.user_type u); try discriminate; reflexivity. }
    destruct (UserManagement.notSuspended u
              && whitespace_only (UserManagement.suspensionReason (component s))) eqn:Hg.
    { rewrite (handleSuspendUser_stopped profile s); [exact Hc|].
      intros u0 E. rewrite Hu in E. injection E as <-. right. exact Hg. }
    assert (Ht : UserProfile.user_type u <> super_admin)
      by (intros E; rewrite E in Hs; discriminate).
    destruct (handleSuspendUser_past_guards profile s u Hu Ht Hg) as (evs & _ & Hw).
    rewrite Hw.
    destruct (Backend.down (world s)); cbn; [exact Hc|].
    apply patched_consistent; [|exact Hc].
    cbn. intros E. rewrite E. eauto.
Qed.

Lemma handleSuspendUser_writes_all_four_witness :
  writes (world (after (UserManagement.handleSuspendUser (Some Sample.officer))
                       (Sample.session Sample.always_up
                          (Sample.suspendDialog
                             (Sample.profile 4%nat public (Some true)) ""))))
  = [UpdateProfile 4%nat reactivateBody]
  /\ Forall suspension_consistent
       (profiles (world (after (UserManagement.handleSuspendUser (Some Sample.officer))
                               (Sample.session Sample.always_up
                                  (Sample.suspendDialog Sample.clerk "absent")))))
  /\ world (after (UserManagement.handleSuspendUser (Some Sample.officer))
                  (Sample.session Sample.always_up
                     (Sample.suspendDialog Sample.root "absent")))
     = Sample.backend Sample.always_up.
Proof.
  split; [|split].
  - assert (Ht : UserProfile.user_type (Sample.profile 4%nat public (Some true))
                 <> super_admin) by (cbn; discriminate).
    exact (proj1 (proj1 (proj2 (handleSuspendUser_writes_all_four (Some Sample.officer)
                     (Sample.session Sample.always_up
                        (Sample.suspendDialog (Sample.profile 4%nat public (Some true)) "")))
                   ) Sample.officer (Sample.profile 4%nat public (Some true))
                     eq_refl eq_refl Ht eq_refl)).
  - apply (proj1 (proj2 (proj2 (handleSuspendUser_writes_all_four (Some Sample.officer)
                     (Sample.session Sample.always_up
                        (Sample.suspendDialog Sample.clerk "absent")))))).
    cbn. repeat constructor; unfold suspension_consistent; cbn; discriminate.
  - apply (proj1 (handleSuspendUser_writes_all_four (Some Sample.officer)
                     (Sample.session Sample.always_up
                        (Sample.suspendDialog Sample.root "absent")))).
    intros u E. injection E as <-. left. reflexivity.
Defined.

(** C7 as worded fails when no profile is loaded in the auth context:
    [profile?.user_id] is undefined and drops out of the body, so the
    suspending write names three of the four columns and leaves
    [suspended_by] as it was. *)
Lemma handleSuspendUser_writes_all_four_counterexample :
  writes (world (after (UserManagement.handleSuspendUser None)
                       (Sample.session Sample.always_up
                          (Sample.suspendDialog Sample.citizen "forged licence"))))
  = [UpdateProfile 4%nat
       {| patch_is_suspended := true;
          patch_suspended_at := Value 1700000000000;
          patch_suspended_by := Undefined;
          patch_suspension_reason := Value "forged licence" |}]
  /\ map UserProfile.suspended_by
         (profiles (world (after (UserManagement.handleSuspendUser None)
                                 (Sample.session Sample.always_up
                                    (Sample.suspendDialog
                                       (Sample.profile 4%nat public None)
                                       "forged licence")))))
     = [None; None; None; None].
Proof. vm_compute. split; reflexivity. Qed.

(** ** Deleting a file *)

Lemma fetchDocuments_reads_only (user : option User.t)
      (s : Session DocumentManagement.State) :
  exists evs,
    fst (DocumentManagement.fetchDocuments user s) = Done tt
    /\ world (after (DocumentManagement.fetchDocuments user) s)
       = Backend.set_history (history (world s) ++ evs) (world s)
    /\ Forall (fun e => is_write (request e) = false) evs.
Proof.
  unfold DocumentManagement.fetchDocuments.
  destruct user as [u|]; run.
  - unfold Backend.select_documents.
    destruct (Backend.down (world s)); cbn;
      (eexists [_]; split; [reflexivity | split; [reflexivity | repeat constructor]]).
  - exists []. rewrite app_nil_r, set_history_same. auto.
Qed.

Lemma filter_removes_key (key : string) (keys : list string) :
  ~ In key (filter (fun k => negb (existsb (String.eqb k) [key])) keys).
Proof.
  intros H. apply filter_In in H. destruct H as [_ H].
  cbn in H. rewrite String.eqb_refl in H. discriminate.
Qed.

(** C9. [handleDelete] asks the object store to remove the blob before
    anything else.  If that removal is rejected the run ends there: the
    removal is the only request sent, no record deletion is attempted, the
    documents table and the bucket are as before and the failure is
    displayed.  If it is accepted, the record deletion is the next request
    and the only other write, and by the time it is sent the bucket no
    longer holds the blob. *)
Theorem handleDelete_blob_first
  (user : option User.t) (fileId : Id) (filePath : string)
  (s : Session DocumentManagement.State) :
  let w := world s in
  let s' := after (DocumentManagement.handleDelete user fileId filePath) s in
  fst (DocumentManagement.handleDelete user fileId filePath s) = Done tt
  /\ (Backend.down w = true ->
        world s' = Backend.record (StorageRemove [filePath]) false w
        /\ writes (world s') = writes w ++ [StorageRemove [filePath]]
        /\ documents (world s') = documents w
        /\ blobs (world s') = blobs w
        /\ toasts s' = toasts s ++ [DocumentManagement.deletionFailed])
  /\ (Backend.down w = false ->
        writes (world s') = writes w ++ [StorageRemove [filePath]; DeleteDocument fileId]
        /\ exists removal deletion evs,
             history (world s') = history w ++ removal :: deletion :: evs
             /\ request removal = StorageRemove [filePath]
             /\ accepted removal = true
             /\ request deletion = DeleteDocument fileId
             /\ ~ In filePath (blobs_after deletion)
             /\ Forall (fun e => is_write (request e) = false) evs).
Proof.
  intros w s'. subst w s'.
  unfold DocumentManagement.handleDelete.
  unfold Backend.storage_remove, Backend.delete_document. run.
  destruct (Backend.down (world s)) eqn:Hd; cbn.
  - split; [reflexivity|]. split; [|discriminate]. intros _.
    repeat split.
    unfold writes. cbn. rewrite map_app, filter_app. reflexivity.
  - match goal with
    | |- context [outage (world s) ?n] => destruct (outage (world s) n) eqn:Hd'
    end; cbn.
    + split; [reflexivity|]. split; [discriminate|]. intros _. split.
      * unfold writes. cbn. rewrite <- app_assoc, map_app, filter_app. reflexivity.
      * eexists _, _, []. split; [rewrite <- app_assoc; reflexivity|].
        cbn. repeat split; auto using filter_removes_key.
    + match goal with
      | |- context [DocumentManagement.fetchDocuments user ?s1] =>
          destruct (fetchDocuments_reads_only user s1) as (evs & Hr & Hw & Hreads);
          unfold after in Hw;
          destruct (DocumentManagement.fetchDocuments user s1) as [r s2]
      end.
      cbn in Hr, Hw. subst r. cbn.
      split; [reflexivity|]. split; [discriminate|]. intros _.
      rewrite Hw. cbn. rewrite <- !app_assoc. cbn. split.
      * pose proof (reads_are_no_writes evs Hreads) as E.
        unfold writes. cbn. rewrite map_app, filter_app. cbn.
        rewrite E. reflexivity.
      * eexists _, _, evs. split; [reflexivity|].
        cbn. repeat split; auto using filter_removes_key.
Qed.

Lemma handleDelete_blob_first_witness :
  documents (world (after (DocumentManagement.handleDelete (Some Sample.alice) 4%nat "1/plan.pdf")
                          (Sample.session Sample.always_down Sample.fileList)))
  = [Sample.plan; Sample.survey]
  /\ writes (world (after (DocumentManagement.handleDelete (Some Sample.alice) 4%nat "1/plan.pdf")
                          (Sample.session Sample.always_up Sample.fileList)))
     = [StorageRemove ["1/plan.pdf"]; DeleteDocument 4%nat].
Proof.
  split.
  - exact (proj1 (proj2 (proj2 (proj1 (proj2 (handleDelete_blob_first (Some Sample.alice)
             4%nat "1/plan.pdf" (Sample.session Sample.always_down Sample.fileList)))
             eq_refl)))).
  - exact (proj1 (proj2 (proj2 (handleDelete_blob_first (Some Sample.alice)
             4%nat "1/plan.pdf" (Sample.session Sample.always_up Sample.fileList)))
             eq_refl)).
Defined.

(** ** The documents hook, phase by phase *)

Lemma set_documents_same (w : World) : Backend.set_documents (documents w) w = w.
Proof. destruct w; reflexivity. Qed.

(** Linking sends one insert per draft, in order, and nothing else; it
    never throws; the rows it returns are the rows the store added, each a
    copy of one of the drafts under a key above every key in use; the
    bucket is not touched.  When none of the inserts is rejected there is
    one row per draft, in the order of the drafts. *)
Lemma linkDraftsToIntent_runs (drafts : list Document.t) (intentId : Id) :
  forall s : Session IntentRegistrationNew.State,
  exists rows evs logs,
    IntentRegistrationNew.useDocuments_linkDraftsToIntent drafts intentId s
    = (Done rows,
       {| world := Backend.set_history (history (world s) ++ evs)
                     (Backend.set_documents (documents (world s) ++ rows) (world s));
          toasts := toasts s;
          console := console s ++ logs;
          component := component s |})
    /\ map request evs
       = map (fun d => InsertDocument (IntentRegistrationNew.linkedCopy d intentId)) drafts
    /\ Forall (fun e => blobs_after e = blobs (world s)
                        /\ exists k, documents_after e = documents (world s) ++ firstn k rows)
              evs
    /\ Forall (fun r => (list_max (map Document.id (documents (world s))) < Document.id r)%nat)
              rows
    /\ ((forall i, (i < List.length drafts)%nat ->
           outage (world s) (List.length (history (world s)) + i) = false) ->
        map Document.fields rows
        = map (fun d => IntentRegistrationNew.linkedCopy d intentId) drafts
        /\ logs = []
        /\ Forall (fun e => accepted e = true) evs
        /\ Forall2 (fun e r => exists k,
                       documents_after e = documents (world s) ++ firstn k rows
                       /\ In r (firstn k rows)) evs rows).
Proof.
  induction drafts as [|d rest IH]; intros s.
  - exists [], [], []. cbn. unfold ret.
    rewrite !app_nil_r, set_documents_same, set_history_same.
    destruct s; cbn. repeat split; constructor.
  - cbn [IntentRegistrationNew.useDocuments_linkDraftsToIntent].
    unfold bind at 1, call at 1, Backend.insert_document.
    destruct (Backend.down (world s)) eqn:Hd.
    + unfold bind at 1, console_error at 1.
      match goal with
      | |- context [IntentRegistrationNew.useDocuments_linkDraftsToIntent rest intentId ?s1] =>
          destruct (IH s1) as (rows & evs & logs & Hrun & Hreq & Hsnap & Hfresh & Hok)
      end.
      rewrite Hrun. cbn in *.
      eexists rows, (_ :: evs), (_ :: logs). split; [|split; [|split; [|split]]].
      * rewrite <- !app_assoc. reflexivity.
      * cbn. rewrite Hreq. reflexivity.
      * constructor; [cbn; split; [reflexivity | exists 0%nat; cbn; now rewrite app_nil_r]|].
        exact Hsnap.
      * exact Hfresh.
      * intros Hup. exfalso. specialize (Hup 0%nat (Nat.lt_0_succ _)).
        unfold Backend.down in Hd. rewrite Nat.add_0_r in Hup. congruence.
    + unfold bind at 1.
      match goal with
      | |- context [IntentRegistrationNew.useDocuments_linkDraftsToIntent rest intentId ?s1] =>
          destruct (IH s1) as (rows & evs & logs & Hrun & Hreq & Hsnap & Hfresh & Hok)
      end.
      rewrite Hrun. cbn in *.
      eexists (_ :: rows), (_ :: evs), logs. split; [|split; [|split; [|split]]].
      * unfold ret. rewrite <- !app_assoc. reflexivity.
      * cbn. rewrite Hreq. reflexivity.
      * constructor.
        -- cbn. split; [reflexivity | exists 1%nat; reflexivity].
        -- eapply Forall_impl; [|exact Hsnap]. cbn.
           intros e (Hb & k & Hk). split; [exact Hb|].
           exists (S k). rewrite Hk, <- app_assoc. reflexivity.
      * constructor; [cbn; unfold Backend.fresh; lia|].
        eapply Forall_impl; [|exact Hfresh]. cbn. intros r Hr.
        rewrite map_app, list_max_app in Hr. lia.
      * intros Hup.
        destruct Hok as (Hf & Hl & Ha & Hpair).
        { intros i Hi. rewrite length_app. cbn.
          specialize (Hup (S i) (proj1 (Nat.succ_lt_mono _ _) Hi)).
          rewrite <- Hup. f_equal. lia. }
        split; [cbn; rewrite Hf; reflexivity|]. split; [exact Hl|].
        split; [constructor; [reflexivity | exact Ha]|].
        constructor.
        -- exists 1%nat. cbn. split; [reflexivity | left; reflexivity].
        -- eapply Forall2_impl; [|exact Hpair]. cbn.
           intros e r (k & Hk & Hr). exists (S k). cbn.
           rewrite Hk, <- app_assoc. split; [reflexivity | right; exact Hr].
Qed.

Lemma survivors_step (d : Document.t) (rest : list Document.t)
      (docs docs' : list Document.t) :
  survivors rest (filter (fun r => negb (Document.id r =? Document.id d)%nat) docs) docs' ->
  survivors (d :: rest) docs docs'.
Proof.
  intros [Hincl Hkeep]. split.
  - intros r Hr. apply Hincl in Hr. apply filter_In in Hr. tauto.
  - intros r Hin Hnot. apply Hkeep.
    + apply filter_In. split; [exact Hin|].
      apply negb_true_iff, Nat.eqb_neq. intros E. apply Hnot. left. now symmetry.
    + intros H. apply Hnot. right. exact H.
Qed.

Lemma survivors_skip (d : Document.t) (rest : list Document.t)
      (docs docs' : list Document.t) :
  survivors rest docs docs' -> survivors (d :: rest) docs docs'.
Proof.
  intros [Hincl Hkeep]. split; [exact Hincl|].
  intros r Hin Hnot. apply Hkeep; [exact Hin|].
  intros H. apply Hnot. right. exact H.
Qed.

Lemma survivors_refl (l docs : list Document.t) : survivors l docs docs.
Proof. split; [apply incl_refl | auto]. Qed.

Lemma without_step (d : Document.t) (rest docs : list Document.t) :
  without rest (filter (fun r => negb (Document.id r =? Document.id d)%nat) docs)
  = without (d :: rest) docs.
Proof.
  unfold without. induction docs as [|r docs IH]; cbn; [reflexivity|].
  destruct (Document.id r =? Document.id d)%nat; cbn; rewrite IH; reflexivity.
Qed.

(** The clean-up sends one record deletion per draft, in order, and
    nothing else; it never throws, whatever the store answers; it only ever
    removes rows keyed like one of the drafts and never touches the bucket.
    When no deletion is rejected exactly the rows keyed like a draft are
    gone. *)
Lemma deleteDrafts_runs (drafts : list Document.t) :
  forall s : Session IntentRegistrationNew.State,
  exists evs logs docs',
    Promise_all
      (map (fun d => IntentRegistrationNew.useDocuments_deleteDocumentRecordOnly
                       (Document.id d)) drafts) s
    = (Done tt,
       {| world := Backend.set_history (history (world s) ++ evs)
                     (Backend.set_documents docs' (world s));
          toasts := toasts s;
          console := console s ++ logs;
          component := component s |})
    /\ map request evs = map (fun d => DeleteDocument (Document.id d)) drafts
    /\ Forall (fun e => blobs_after e = blobs (world s)
                        /\ survivors drafts (documents (world s)) (documents_after e)) evs
    /\ survivors drafts (documents (world s)) docs'
    /\ ((forall i, (i < List.length drafts)%nat ->
           outage (world s) (List.length (history (world s)) + i) = false) ->
        docs' = without drafts (documents (world s)) /\ logs = [])
    /\ ((exists e, In e evs /\ accepted e = false) -> In deletionLog logs).
Proof.
  induction drafts as [|d rest IH]; intros s.
  - exists [], [], (documents (world s)). cbn. unfold ret.
    rewrite !app_nil_r, set_documents_same, set_history_same.
    destruct s; cbn. repeat split; try constructor; auto using incl_refl.
    + unfold without. cbn. clear. induction (documents world0); cbn; congruence.
    + intros (e & [] & _).
  - cbn [map Promise_all].
    unfold IntentRegistrationNew.useDocuments_deleteDocumentRecordOnly at 1.
    unfold bind at 1, call at 1, Backend.delete_document.
    destruct (Backend.down (world s)) eqn:Hd.
    + unfold console_error at 1.
      match goal with
      | |- context [Promise_all _ ?s1] =>
          destruct (IH s1) as (evs & logs & docs' & Hrun & Hreq & Hsnap & Hsurv & Hok & Hlog)
      end.
      rewrite Hrun. cbn in *.
      eexists (_ :: evs), (_ :: logs), docs'. split; [|split; [|split; [|split; [|split]]]].
      * rewrite <- !app_assoc. reflexivity.
      * cbn. rewrite Hreq. reflexivity.
      * constructor.
        -- cbn. split; [reflexivity | apply survivors_refl].
        -- eapply Forall_impl; [|exact Hsnap]. cbn.
           intros e (Hb & Hs). split; [exact Hb | apply survivors_skip, Hs].
      * apply survivors_skip, Hsurv.
      * intros Hup. exfalso. specialize (Hup 0%nat (Nat.lt_0_succ _)).
        unfold Backend.down in Hd. rewrite Nat.add_0_r in Hup. congruence.
      * intros _. left. reflexivity.
    + unfold ret at 1.
      match goal with
      | |- context [Promise_all _ ?s1] =>
          destruct (IH s1) as (evs & logs & docs' & Hrun & Hreq & Hsnap & Hsurv & Hok & Hlog)
      end.
      rewrite Hrun. cbn in *.
      eexists (_ :: evs), logs, docs'. split; [|split; [|split; [|split; [|split]]]].
      * rewrite <- !app_assoc. reflexivity.
      * cbn. rewrite Hreq. reflexivity.
      * constructor.
        -- cbn. split; [reflexivity | apply survivors_step, survivors_refl].
        -- eapply Forall_impl; [|exact Hsnap]. cbn.
           intros e (Hb & Hs). split; [exact Hb | apply survivors_step, Hs].
      * apply survivors_step, Hsurv.
      * intros Hup.
        destruct Hok as (Hf & Hl).
        { intros i Hi. rewrite length_app. cbn.
          specialize (Hup (S i) (proj1 (Nat.succ_lt_mono _ _) Hi)).
          rewrite <- Hup. f_equal. lia. }
        split; [|exact Hl]. rewrite Hf. apply without_step.
      * intros (e & [<- | Hin] & Hrej); [discriminate|].
        apply Hlog. exists e. auto.
Qed.

(** Refreshing only reads: it never throws, displays nothing and leaves
    every table and the bucket as they are. *)
Lemma refreshDocuments_runs (user : option User.t)
      (s : Session IntentRegistrationNew.State) :
  exists evs logs c',
    IntentRegistrationNew.useDocuments_refreshDocuments user s
    = (Done tt,
       {| world := Backend.set_history (history (world s) ++ evs) (world s);
          toasts := toasts s;
          console := console s ++ logs;
          component := c' |})
    /\ Forall (fun e => is_write (request e) = false
                        /\ documents_after e = documents (world s)
                        /\ blobs_after e = blobs (world s)) evs
    /\ IntentRegistrationNew.pendingDocuments c'
       = IntentRegistrationNew.pendingDocuments (component s).
Proof.
  unfold IntentRegistrationNew.useDocuments_refreshDocuments.
  destruct user as [u|].
  - unfold Backend.select_documents. run.
    destruct (Backend.down (world s)); cbn.
    + eexists [_], [_], _. split; [reflexivity|]. split; [|reflexivity].
      repeat constructor.
    + eexists [_], [], _. rewrite app_nil_r. split; [reflexivity|].
      split; [|reflexivity]. repeat constructor.
  - exists [], [], (component s). unfold ret.
    rewrite !app_nil_r, set_history_same. destruct s. cbn. repeat constructor.
Qed.

Lemma filter_true_list {A} (l : list A) : filter (fun _ => true) l = l.
Proof. induction l; cbn; congruence. Qed.

(** ** A submission that reaches the store *)

#[local] Arguments IntentRegistrationNew.useDocuments_refreshDocuments : simpl never.

(** The run of [submit] once both guards are passed and the store has
    accepted the intent: the phases above, one after the other. *)
Lemma submit_accepted (engine : Js.Engine) (u : User.t) (s : Session IntentRegistrationNew.State) :
  let c := component s in
  let w := world s in
  let pending := IntentRegistrationNew.pendingDocuments c in
  let data := insertedIntent u s in
  Js.date_ge (Js.Date_parse engine (IntentRegistrationNew.commencement_date
                               (IntentRegistrationNew.formData c)))
             (Js.Date_parse engine (IntentRegistrationNew.completion_date
                               (IntentRegistrationNew.formData c))) = false ->
  Backend.down w = false ->
  exists rows evsL evsD evsR docs' logs c',
    IntentRegistrationNew.submit engine (Some u) s
    = (Done tt,
       {| world := Backend.set_history
                     (history w ++ intentEvent u s :: evsL ++ evsD ++ evsR)
                     (Backend.set_documents docs'
                        (Backend.set_intent_registrations
                           (intent_registrations w ++ [data]) w));
          toasts := toasts s
                    ++ (if (0 <? List.length pending)%nat
                        then [IntentRegistrationNew.documentsLinked (List.length rows)]
                        else [])
                    ++ [IntentRegistrationNew.submitted];
          console := console s ++ logs;
          component := c' |})
    /\ map request evsL
       = map (fun d => InsertDocument (IntentRegistrationNew.linkedCopy d (Intent.id data)))
             pending
    /\ Forall (fun e => blobs_after e = blobs w
                        /\ exists k, documents_after e = documents w ++ firstn k rows) evsL
    /\ Forall (fun r => (list_max (map Document.id (documents w)) < Document.id r)%nat) rows
    /\ map request evsD = map (fun d => DeleteDocument (Document.id d)) pending
    /\ Forall (fun e => blobs_after e = blobs w
                        /\ survivors pending (documents w ++ rows) (documents_after e)) evsD
    /\ survivors pending (documents w ++ rows) docs'
    /\ Forall (fun e => is_write (request e) = false
                        /\ documents_after e = docs'
                        /\ blobs_after e = blobs w) evsR
    /\ ((forall i, (i < List.length pending)%nat ->
           outage w (S (List.length (history w)) + i) = false) ->
        map Document.fields rows
        = map (fun d => IntentRegistrationNew.linkedCopy d (Intent.id data)) pending
        /\ Forall (fun e => accepted e = true) evsL
        /\ Forall2 (fun e r => exists k,
                       documents_after e = documents w ++ firstn k rows
                       /\ In r (firstn k rows)) evsL rows
        /\ ((forall i, (i < List.length pending)%nat ->
               outage w (S (List.length (history w)) + List.length pending + i) = false) ->
            docs' = without pending (documents w ++ rows)))
    /\ ((exists e, In e evsD /\ accepted e = false) -> In deletionLog logs).
Proof.
  intros c w pending data Hdates Hup.
  unfold IntentRegistrationNew.submit, IntentRegistrationNew.handleSubmit.
  unfold bind at 1, get_component at 1. cbv beta iota. fold c. rewrite Hdates.
  fold pending.
  destruct (0 <? List.length pending)%nat eqn:Hn;
    unfold Backend.insert_intent; run; fold w c; rewrite Hup; cbn; fold pending.
  - (* some drafts are pending *)
    match goal with
    | |- context [IntentRegistrationNew.useDocuments_linkDraftsToIntent pending ?i ?s1] =>
        destruct (linkDraftsToIntent_runs pending i s1)
          as (rows & evsL & logsL & HrunL & HreqL & HsnapL & Hfresh & HokL)
    end.
    rewrite HrunL. cbn in HreqL, HsnapL, Hfresh, HokL |- *.
    match goal with
    | |- context [@Promise_all ?C ?ps ?s2] => pose proof (deleteDrafts_runs pending s2) as HD
    end.
    destruct HD as (evsD & logsD & docs' & HrunD & HreqD & HsnapD & Hsurv & HokD & HlogD).
    rewrite HrunD. cbn in HreqD, HsnapD, Hsurv, HokD |- *.
    match goal with
    | |- context [IntentRegistrationNew.useDocuments_refreshDocuments (Some u) ?s3] =>
        pose proof (refreshDocuments_runs (Some u) s3) as HR
    end.
    destruct HR as (evsR & logsR & c' & HrunR & HsnapR & _).
    rewrite HrunR. cbn in HsnapR |- *.
    exists rows, evsL, evsD, evsR, docs', (logsL ++ logsD ++ logsR). eexists.
    assert (El : List.length evsL = List.length pending)
      by (rewrite <- (length_map request evsL), HreqL; apply length_map).
    split; [|split; [|split; [|split; [|split; [|split; [|split; [|split; [|split]]]]]]]].
    + unfold intentEvent, data, insertedIntent, Backend.record, Backend.set_history,
        Backend.set_documents, Backend.set_intent_registrations.
      cbn. fold w c. rewrite Hup. rewrite <- !app_assoc. cbn. reflexivity.
    + exact HreqL.
    + exact HsnapL.
    + exact Hfresh.
    + exact HreqD.
    + exact HsnapD.
    + exact Hsurv.
    + exact HsnapR.
    + intros HupL.
      destruct HokL as (Hf & Hl & Ha & Hpair).
      { intros i Hi. rewrite length_app. cbn. rewrite <- (HupL i Hi). f_equal. lia. }
      split; [exact Hf|]. split; [exact Ha|]. split; [exact Hpair|].
      intros HupD.
      destruct HokD as (Hd & Hl').
      { intros i Hi. rewrite !length_app. cbn. rewrite <- (HupD i Hi). f_equal. lia. }
      exact Hd.
    + intros Hrej. apply in_or_app. right. apply in_or_app. left. apply HlogD, Hrej.
  - (* nothing is pending *)
    apply Nat.ltb_ge in Hn.
    assert (Hp : pending = []) by (destruct pending; [reflexivity | cbn in Hn; lia]).
    exists [], [], [], [], (documents w), []. eexists.
    rewrite Hp. cbn. rewrite !app_nil_r.
    split.
    { unfold intentEvent, data, insertedIntent, Backend.record, Backend.set_history,
        Backend.set_documents, Backend.set_intent_registrations.
      cbn. fold w c. rewrite Hup. reflexivity. }
    repeat split; try constructor; auto using incl_refl.
    + intros _. unfold without. cbn. symmetry. apply filter_true_list.
    + intros (e & [] & _).
Qed.

(** ** The date rule of the intent form *)







(** ** Linking the drafts of an accepted submission *)

Lemma map_eq_Forall2 {A B C} (f : A -> C) (g : B -> C) (l : list A) :
  forall l' : list B, map f l = map g l' -> Forall2 (fun a b => f a = g b) l l'.
Proof.
  induction l as [|a l IH]; intros [|b l'] H; try discriminate; constructor.
  - cbn in H. congruence.
  - apply IH. cbn in H. congruence.
Qed.

Lemma key_in_use (docs : list Document.t) (d : Document.t) :
  In d docs -> (Document.id d <= list_max (map Document.id docs))%nat.
Proof.
  intros H.
  assert (F : Forall (fun k => (k <= list_max (map Document.id docs))%nat)
                     (map Document.id docs))
    by (apply list_max_le; reflexivity).
  rewrite Forall_forall in F. apply F, in_map, H.
Qed.

Lemma fresh_not_pending (pending docs : list Document.t) (r : Document.t) :
  incl pending docs ->
  (list_max (map Document.id docs) < Document.id r)%nat ->
  ~ In (Document.id r) (map Document.id pending).
Proof.
  intros Hincl Hfresh Hin. apply in_map_iff in Hin. destruct Hin as (d & Hid & Hd).
  pose proof (key_in_use docs d (Hincl d Hd)). lia.
Qed.

Lemma accepted_range (w : World) (n : nat) :
  (forall i, (i <= n)%nat -> outage w (List.length (history w) + i) = false) ->
  Backend.down w = false
  /\ forall i, (i < n)%nat -> outage w (S (List.length (history w)) + i) = false.
Proof.
  intros H. split.
  - unfold Backend.down. rewrite <- (H 0%nat (Nat.le_0_l _)). f_equal. lia.
  - intros i Hi. rewrite <- (H (S i)) by lia. f_equal. lia.
Qed.

(** C3, as the form implements it.  Take a logged-in user whose dates pass
    the check, N pending drafts, and a store that accepts the intent and
    the N inserts that follow.  Then N records are created, one per draft
    and in the drafts' order, each carrying its draft's storage key,
    filename, size and mime type with the new intent as parent (and they
    are still in the documents table when the handler returns, the drafts
    being live records).  What the user is shown is, for N of at least
    one, the notice "N document(s) linked to this intent.", N printed in
    decimal, followed by the success notice, and for N zero the success
    notice alone. *)
Theorem linked_documents_reported (engine : Js.Engine)
  (u : User.t) (s : Session IntentRegistrationNew.State) :
  let c := component s in
  let w := world s in
  let pending := IntentRegistrationNew.pendingDocuments c in
  let N := List.length pending in
  let parent := Intent.id (insertedIntent u s) in
  let s' := after (IntentRegistrationNew.submit engine (Some u)) s in
  Js.date_ge (Js.Date_parse engine (IntentRegistrationNew.commencement_date
                                      (IntentRegistrationNew.formData c)))
             (Js.Date_parse engine (IntentRegistrationNew.completion_date
                                      (IntentRegistrationNew.formData c))) = false ->
  (forall i, (i <= N)%nat -> outage w (List.length (history w) + i) = false) ->
  exists rows,
    List.length rows = N
    /\ Forall2 (fun d r =>
                  Document.file_path (Document.fields r) = Document.file_path (Document.fields d)
                  /\ Document.filename (Document.fields r) = Document.filename (Document.fields d)
                  /\ Document.file_size (Document.fields r) = Document.file_size (Document.fields d)
                  /\ Document.mime_type (Document.fields r) = Document.mime_type (Document.fields d)
                  /\ Document.intent_registration_id (Document.fields r) = Some parent)
               pending rows
    /\ (exists evsL rest,
          history (world s') = history w ++ intentEvent u s :: evsL ++ rest
          /\ map request evsL = map (fun r => InsertDocument (Document.fields r)) rows
          /\ Forall (fun e => accepted e = true) evsL)
    /\ (incl pending (documents w) -> Forall (fun r => In r (documents (world s'))) rows)
    /\ In (insertedIntent u s) (intent_registrations (world s'))
    /\ toasts s'
       = toasts s
         ++ (if (0 <? N)%nat
             then [ {| title := "Documents Linked";
                       description := (Js.of_nat N ++ " document(s) linked to this intent.")%string;
                       variant := None |} ]
             else [])
         ++ [ {| title := "Intent Registration Submitted";
                 description := "Your registration of intent has been submitted successfully. You can now upload supporting documents.";
                 variant := None |} ]
    /\ NilEmpty.uint_of_string (Js.of_nat N) = Some (Nat.to_uint N).
Proof.
  intros c w pending N parent s' Hdates Hup.
  destruct (accepted_range w N Hup) as (Hup0 & HupL).
  destruct (submit_accepted engine u s Hdates Hup0)
    as (rows & evsL & evsD & evsR & docs' & logs & c' & E & HreqL & _ & Hfresh & _ & _
        & Hsurv & _ & Hok & _).
  fold c w pending in E, HreqL, Hfresh, Hsurv, Hok.
  destruct (Hok HupL) as (Hfields & Hacc & _).
  assert (Hlen : List.length rows = N).
  { rewrite <- (length_map Document.fields rows), Hfields. apply length_map. }
  exists rows. subst s'. unfold after. rewrite E. cbn.
  split; [exact Hlen|]. split; [|split; [|split; [|split; [|split]]]].
  - apply map_eq_Forall2 in Hfields.
    apply Forall2_flip in Hfields.
    eapply Forall2_impl; [|exact Hfields].
    cbn. intros d r Hr. rewrite Hr. cbn. auto.
  - exists evsL, (evsD ++ evsR). split; [reflexivity|]. split; [|exact Hacc].
    rewrite HreqL, <- (map_map Document.fields InsertDocument rows), Hfields, map_map.
    reflexivity.
  - intros Hlive. rewrite Forall_forall. intros r Hr.
    destruct Hsurv as (_ & Hkeep). apply Hkeep.
    + apply in_or_app. right. exact Hr.
    + rewrite Forall_forall in Hfresh.
      apply (fresh_not_pending pending (documents w) r Hlive (Hfresh r Hr)).
  - apply in_or_app. right. left. reflexivity.
  - rewrite Hlen. fold N. destruct (0 <? N)%nat; reflexivity.
  - apply NilEmpty.usu.
Qed.

Lemma linked_documents_reported_witness :
  exists rows : list Document.t,
    List.length rows = 2%nat
    /\ map description
           (toasts (after (IntentRegistrationNew.submit Sample.strict (Some Sample.alice))
                          (Sample.session Sample.always_up
                             (Sample.intentForm "2025-03-01" "2025-03-02"
                                [Sample.plan; Sample.survey]))))
       = ["2 document(s) linked to this intent.";
          "Your registration of intent has been submitted successfully. You can now upload supporting documents."].
Proof.
  destruct (linked_documents_reported Sample.strict Sample.alice
              (Sample.session Sample.always_up
                 (Sample.intentForm "2025-03-01" "2025-03-02" [Sample.plan; Sample.survey]))
              eq_refl (fun i _ => eq_refl))
    as (rows & Hlen & _ & _ & _ & _ & Ht & _).
  exists rows. split; [exact Hlen|]. rewrite Ht. reflexivity.
Defined.

(** C3 as worded fails in two ways.  When no draft is pending the
    submission succeeds and no linked-document count is reported at all,
    the success notice being the only thing displayed.  And when the
    store rejects one of the link inserts, the submission still succeeds
    and the count reported is that of the records created: with two
    pending drafts and the second insert rejected the user is told that 1
    document was linked. *)
Lemma linked_documents_reported_counterexample :
  (IntentRegistrationNew.pendingDocuments
     (Sample.intentForm "2025-03-01" "2025-03-02" []) = []
   /\ map title
          (toasts (after (IntentRegistrationNew.submit Sample.strict (Some Sample.alice))
                         (Sample.session Sample.always_up
                            (Sample.intentForm "2025-03-01" "2025-03-02" []))))
      = ["Intent Registration Submitted"])
  /\
  (List.length (IntentRegistrationNew.pendingDocuments
                  (Sample.intentForm "2025-03-01" "2025-03-02" [Sample.plan; Sample.survey]))
   = 2%nat
   /\ map accepted
          (history (world (after (IntentRegistrationNew.submit Sample.strict
                                    (Some Sample.alice))
                                 (Sample.session (Sample.down_at 2)
                                    (Sample.intentForm "2025-03-01" "2025-03-02"
                                       [Sample.plan; Sample.survey])))))
      = [true; true; false; true; true; true]
   /\ map description
          (toasts (after (IntentRegistrationNew.submit Sample.strict (Some Sample.alice))
                         (Sample.session (Sample.down_at 2)
                            (Sample.intentForm "2025-03-01" "2025-03-02"
                               [Sample.plan; Sample.survey]))))
      = ["1 document(s) linked to this intent.";
         "Your registration of intent has been submitted successfully. You can now upload supporting documents."]).
Proof. vm_compute. repeat split. Qed.

(** ** A clean-up deletion that fails *)

Lemma during_extension {C} (s s' : Session C) (evs : list Event) :
  history (world s') = history (world s) ++ evs -> during s s' = evs.
Proof.
  intros H. unfold during. rewrite H, skipn_app, skipn_all, Nat.sub_diag. reflexivity.
Qed.

Lemma request_in_map {A} (f : A -> Request) (l : list A) (evs : list Event) (e : Event) :
  map request evs = map f l -> In e evs -> exists a, In a l /\ request e = f a.
Proof.
  intros H Hin. apply (in_map request) in Hin. rewrite H in Hin.
  apply in_map_iff in Hin. destruct Hin as (a & Ha & Hl). exists a. auto.
Qed.

(** C4.  Take a logged-in user whose dates pass the check and a store that
    accepts the intent and the link inserts.  If, among the requests of
    this submission, a record deletion is rejected, the handler still
    returns normally: the failure is written to the console, and what the
    user is shown is the notice "N document(s) linked to this intent.", N
    being the number of drafts printed in decimal, followed by the success
    notice, and no "Submission Failed" notice; the intent record stays
    inserted. *)
Theorem cleanup_failure_not_surfaced (engine : Js.Engine)
  (u : User.t) (s : Session IntentRegistrationNew.State) :
  let c := component s in
  let w := world s in
  let pending := IntentRegistrationNew.pendingDocuments c in
  let N := List.length pending in
  let s' := after (IntentRegistrationNew.submit engine (Some u)) s in
  Js.date_ge (Js.Date_parse engine (IntentRegistrationNew.commencement_date
                               (IntentRegistrationNew.formData c)))
             (Js.Date_parse engine (IntentRegistrationNew.completion_date
                               (IntentRegistrationNew.formData c))) = false ->
  (forall i, (i <= N)%nat -> outage w (List.length (history w) + i) = false) ->
  (exists e id, In e (during s s') /\ request e = DeleteDocument id /\ accepted e = false) ->
  fst (IntentRegistrationNew.submit engine (Some u) s) = Done tt
  /\ toasts s'
     = toasts s
       ++ [ {| title := "Documents Linked";
               description := (Js.of_nat N ++ " document(s) linked to this intent.")%string;
               variant := None |};
            {| title := "Intent Registration Submitted";
               description := "Your registration of intent has been submitted successfully. You can now upload supporting documents.";
               variant := None |} ]
  /\ NilEmpty.uint_of_string (Js.of_nat N) = Some (Nat.to_uint N)
  /\ ~ In "Submission Failed" (map title (skipn (List.length (toasts s)) (toasts s')))
  /\ In deletionLog (console s')
  /\ In (insertedIntent u s) (intent_registrations (world s')).
Proof.
  intros c w pending N s' Hdates Hup Hfail.
  destruct (accepted_range w N Hup) as (Hup0 & HupL).
  destruct (submit_accepted engine u s Hdates Hup0)
    as (rows & evsL & evsD & evsR & docs' & logs & c' & E & HreqL & _ & _ & HreqD & _
        & _ & HsnapR & Hok & Hlog).
  fold c w pending in E, HreqL, HreqD, HsnapR, Hok.
  destruct (Hok HupL) as (Hfields & _ & _).
  assert (Hlen : List.length rows = N).
  { rewrite <- (length_map Document.fields rows), Hfields. apply length_map. }
  assert (Hd : during s s' = intentEvent u s :: evsL ++ evsD ++ evsR).
  { apply during_extension. subst s'. unfold after. rewrite E. reflexivity. }
  destruct Hfail as (e & id & Hin & Hreq & Hrej). rewrite Hd in Hin.
  assert (HinD : In e evsD).
  { destruct Hin as [<- | Hin]; [discriminate Hreq|].
    apply in_app_or in Hin. destruct Hin as [Hin|Hin].
    - destruct (request_in_map _ _ _ _ HreqL Hin) as (d & _ & Hd'). congruence.
    - apply in_app_or in Hin. destruct Hin as [Hin|Hin]; [exact Hin|].
      rewrite Forall_forall in HsnapR. destruct (HsnapR e Hin) as (Hread & _).
      rewrite Hreq in Hread. discriminate. }
  assert (Hpos : (0 <? N)%nat = true).
  { apply Nat.ltb_lt. destruct (request_in_map _ _ _ _ HreqD HinD) as (d & Hdin & _).
    subst N. destruct pending; [contradiction | cbn; lia]. }
  clear Hd Hin.
  subst N. rewrite Hpos, Hlen in E.
  subst s'. unfold after. rewrite E. cbn [fst snd world toasts console].
  split; [reflexivity|]. split; [reflexivity|]. split; [apply NilEmpty.usu|].
  split; [|split].
  - rewrite skipn_app, skipn_all, Nat.sub_diag. cbn.
    intros [H|[H|[]]]; discriminate H.
  - apply in_or_app. right. apply Hlog. exists e. auto.
  - cbn. apply in_or_app. right. left. reflexivity.
Qed.

Lemma cleanup_failure_not_surfaced_witness :
  map description
      (toasts (after (IntentRegistrationNew.submit Sample.strict (Some Sample.alice))
                     (Sample.session (Sample.down_at 3)
                        (Sample.intentForm "2025-03-01" "2025-03-02"
                           [Sample.plan; Sample.survey]))))
  = ["2 document(s) linked to this intent.";
     "Your registration of intent has been submitted successfully. You can now upload supporting documents."]
  /\ In deletionLog
        (console (after (IntentRegistrationNew.submit Sample.strict (Some Sample.alice))
                        (Sample.session (Sample.down_at 3)
                           (Sample.intentForm "2025-03-01" "2025-03-02"
                              [Sample.plan; Sample.survey])))).
Proof.
  assert (Hup : forall i, (i <= 2)%nat ->
            outage (Sample.backend (Sample.down_at 3)) (0 + i) = false).
  { intros [|[|[|i]]] Hi; try reflexivity. lia. }
  assert (Hfail : exists e id,
            In e (during (Sample.session (Sample.down_at 3)
                            (Sample.intentForm "2025-03-01" "2025-03-02"
                               [Sample.plan; Sample.survey]))
                         (after (IntentRegistrationNew.submit Sample.strict (Some Sample.alice))
                                (Sample.session (Sample.down_at 3)
                                   (Sample.intentForm "2025-03-01" "2025-03-02"
                                      [Sample.plan; Sample.survey]))))
            /\ request e = DeleteDocument id /\ accepted e = false).
  { eexists _, 4%nat. split; [|split].
    - vm_compute. right. right. right. left. reflexivity.
    - reflexivity.
    - reflexivity. }
  destruct (cleanup_failure_not_surfaced Sample.strict Sample.alice
              (Sample.session (Sample.down_at 3)
                 (Sample.intentForm "2025-03-01" "2025-03-02" [Sample.plan; Sample.survey]))
              eq_refl Hup Hfail) as (_ & Ht & _ & _ & Hl & _).
  split; [rewrite Ht; reflexivity | exact Hl].
Defined.

(** The clean-up is only as quiet as the hook makes it: [handleSubmit] has
    no handler of its own around the deletions, so with a hook that passes
    a rejected deletion on, the same run ends in the submission-failed
    notice although the intent and both linked copies are stored. *)
Example cleanup_failure_surfaces_through_rethrowing_hook :
  toasts (after (IntentRegistrationNew.handleSubmit Sample.strict
                   (rethrowingHook (Some Sample.alice)) (Some Sample.alice))
                (Sample.session (Sample.down_at 3)
                   (Sample.intentForm "2025-03-01" "2025-03-02"
                      [Sample.plan; Sample.survey])))
  = [IntentRegistrationNew.submissionFailed]
  /\ List.length
       (intent_registrations
          (world (after (IntentRegistrationNew.handleSubmit Sample.strict
                           (rethrowingHook (Some Sample.alice)) (Some Sample.alice))
                        (Sample.session (Sample.down_at 3)
                           (Sample.intentForm "2025-03-01" "2025-03-02"
                              [Sample.plan; Sample.survey])))))
     = 1%nat.
Proof. vm_compute. split; reflexivity. Qed.

(** ** References to a blob while its draft is linked *)

Lemma refs_app (key : string) (a b : list Document.t) :
  refs key (a ++ b) = (refs key a + refs key b)%nat.
Proof. unfold refs. rewrite filter_app, length_app. reflexivity. Qed.

Lemma refs_In (key : string) (docs : list Document.t) (d : Document.t) :
  In d docs -> Document.file_path (Document.fields d) = key -> (1 <= refs key docs)%nat.
Proof.
  intros Hin Hkey. unfold refs.
  assert (H : In d (filter (fun x => String.eqb (Document.file_path (Document.fields x)) key)
                           docs)).
  { apply filter_In. split; [exact Hin|]. rewrite Hkey. apply String.eqb_refl. }
  destruct (filter _ docs); [contradiction | cbn; lia].
Qed.

Lemma Forall2_lookup_r {A B} (P : A -> B -> Prop) (l : list A) (l' : list B) (b : B) :
  Forall2 P l l' -> In b l' -> exists a, In a l /\ P a b.
Proof.
  induction 1 as [|a0 b0 l l' H0 _ IH]; intros Hin; [contradiction|].
  destruct Hin as [<- | Hin].
  - exists a0. split; [left; reflexivity | exact H0].
  - destruct (IH Hin) as (a & Ha & Hp). exists a. split; [right; exact Ha | exact Hp].
Qed.

(** The copy of a pending draft outlives the deletion of the drafts. *)
Lemma copy_survives (pending docs rows table : list Document.t) (parent : Id)
      (d : Document.t) :
  incl pending docs ->
  Forall (fun r => (list_max (map Document.id docs) < Document.id r)%nat) rows ->
  map Document.fields rows
  = map (fun d => IntentRegistrationNew.linkedCopy d parent) pending ->
  survivors pending (docs ++ rows) table ->
  In d pending ->
  (1 <= refs (Document.file_path (Document.fields d)) table)%nat.
Proof.
  intros Hlive Hfresh Hfields (_ & Hkeep) Hd.
  assert (Hc : In (IntentRegistrationNew.linkedCopy d parent) (map Document.fields rows))
    by (rewrite Hfields; apply (in_map (fun x => IntentRegistrationNew.linkedCopy x parent)), Hd).
  apply in_map_iff in Hc. destruct Hc as (r & Hr & Hin).
  apply (refs_In _ table r).
  - apply Hkeep; [apply in_or_app; right; exact Hin|].
    rewrite Forall_forall in Hfresh.
    apply (fresh_not_pending pending docs r Hlive (Hfresh r Hin)).
  - rewrite Hr. reflexivity.
Qed.

Lemma refs_by_fields (key : string) (l l' : list Document.t) :
  map Document.file_path (map Document.fields l)
  = map Document.file_path (map Document.fields l') ->
  refs key l = refs key l'.
Proof.
  revert l'. induction l as [|a l IH]; intros [|b l'] H; try discriminate; [reflexivity|].
  cbn in H. injection H as Hab Hl.
  unfold refs in *. cbn. rewrite Hab.
  destruct (String.eqb (Document.file_path (Document.fields b)) key); cbn;
    rewrite (IH l' Hl); reflexivity.
Qed.

Lemma refs_none (key : string) (l : list Document.t) :
  (forall x, In x l -> Document.file_path (Document.fields x) <> key) -> refs key l = 0%nat.
Proof.
  unfold refs. induction l as [|a l IH]; intros H; [reflexivity|]. cbn.
  destruct (String.eqb (Document.file_path (Document.fields a)) key) eqn:E.
  - apply String.eqb_eq in E. exfalso. apply (H a); [left; reflexivity | exact E].
  - apply IH. intros x Hx. apply H. right. exact Hx.
Qed.

Lemma refs_unique (l : list Document.t) (d : Document.t) :
  NoDup (map (fun x => Document.file_path (Document.fields x)) l) ->
  In d l ->
  refs (Document.file_path (Document.fields d)) l = 1%nat.
Proof.
  induction l as [|a l IH]; intros Hnd Hin; [contradiction|].
  cbn in Hnd. apply NoDup_cons_iff in Hnd. destruct Hnd as (Hna & Hnd).
  change (a :: l) with ([a] ++ l). rewrite refs_app.
  destruct Hin as [<- | Hin].
  - rewrite (refs_none _ l).
    + unfold refs. cbn. rewrite String.eqb_refl. reflexivity.
    + intros x Hx E. apply Hna. rewrite <- E.
      apply (in_map (fun x => Document.file_path (Document.fields x))), Hx.
  - rewrite (IH Hnd Hin). rewrite (refs_none _ [a]); [reflexivity|].
    intros x [<- | []] E. apply Hna. rewrite E.
    apply (in_map (fun x => Document.file_path (Document.fields x))), Hin.
Qed.

Lemma refs_one_is (key : string) (docs : list Document.t) (d x : Document.t) :
  refs key docs = 1%nat ->
  In d docs -> Document.file_path (Document.fields d) = key ->
  In x docs -> Document.file_path (Document.fields x) = key ->
  x = d.
Proof.
  unfold refs. intros H1 Hd Hkd Hx Hkx.
  assert (Fd : In d (filter (fun y => String.eqb (Document.file_path (Document.fields y)) key)
                            docs))
    by (apply filter_In; split; [exact Hd | rewrite Hkd; apply String.eqb_refl]).
  assert (Fx : In x (filter (fun y => String.eqb (Document.file_path (Document.fields y)) key)
                            docs))
    by (apply filter_In; split; [exact Hx | rewrite Hkx; apply String.eqb_refl]).
  destruct (filter _ docs) as [|y [|z l]]; cbn in H1; try discriminate.
  destruct Fd as [<- | []]. destruct Fx as [<- | []]. reflexivity.
Qed.

Lemma without_fresh (pending docs rows : list Document.t) :
  incl pending docs ->
  Forall (fun r => (list_max (map Document.id docs) < Document.id r)%nat) rows ->
  without pending rows = rows.
Proof.
  intros Hlive Hfresh. unfold without.
  induction Hfresh as [|r rows Hr _ IH]; [reflexivity|]. cbn.
  destruct (existsb (Nat.eqb (Document.id r)) (map Document.id pending)) eqn:E.
  - exfalso. apply existsb_exists in E. destruct E as (k & Hk & Hkr).
    apply Nat.eqb_eq in Hkr. subst k.
    exact (fresh_not_pending pending docs r Hlive Hr Hk).
  - cbn. rewrite IH. reflexivity.
Qed.

Lemma without_app (pending a b : list Document.t) :
  without pending (a ++ b) = without pending a ++ without pending b.
Proof. unfold without. apply filter_app. Qed.

(** When the deletions are accepted as well, linking ends with exactly one
    record per draft's blob, provided each draft was the only record for
    its storage key and no two drafts share one. *)
Lemma linking_ends_with_one_reference (engine : Js.Engine)
  (u : User.t) (s : Session IntentRegistrationNew.State) :
  let c := component s in
  let w := world s in
  let pending := IntentRegistrationNew.pendingDocuments c in
  let N := List.length pending in
  let s' := after (IntentRegistrationNew.submit engine (Some u)) s in
  Js.date_ge (Js.Date_parse engine (IntentRegistrationNew.commencement_date
                               (IntentRegistrationNew.formData c)))
             (Js.Date_parse engine (IntentRegistrationNew.completion_date
                               (IntentRegistrationNew.formData c))) = false ->
  (forall i, (i <= N + N)%nat -> outage w (List.length (history w) + i) = false) ->
  incl pending (documents w) ->
  NoDup (map (fun d => Document.file_path (Document.fields d)) pending) ->
  (forall d, In d pending ->
     refs (Document.file_path (Document.fields d)) (documents w) = 1%nat) ->
  forall d, In d pending ->
    refs (Document.file_path (Document.fields d)) (documents (world s')) = 1%nat.
Proof.
  intros c w pending N s' Hdates Hup Hlive Hnd Hone d Hin.
  assert (Hup1 : forall i, (i <= N)%nat -> outage w (List.length (history w) + i) = false)
    by (intros i Hi; apply Hup; lia).
  destruct (accepted_range w N Hup1) as (Hup0 & HupL).
  destruct (submit_accepted engine u s Hdates Hup0)
    as (rows & evsL & evsD & evsR & docs' & logs & c' & E & _ & _ & Hfresh & _ & _ & _ & _
        & Hok & _).
  fold c w pending in E, Hfresh, Hok.
  destruct (Hok HupL) as (Hfields & _ & _ & HokD).
  assert (Hdocs : docs' = without pending (documents w ++ rows)).
  { apply HokD. intros i Hi. fold N. rewrite <- (Hup (S (N + i))) by (subst N; lia).
    f_equal. lia. }
  assert (Hw : documents (world s') = docs')
    by (subst s'; unfold after; rewrite E; reflexivity).
  rewrite Hw, Hdocs, without_app.
  rewrite (without_fresh pending (documents w) rows Hlive Hfresh).
  rewrite refs_app, refs_none.
  - cbn. rewrite (refs_by_fields _ rows pending).
    + apply refs_unique; assumption.
    + rewrite Hfields, !map_map. reflexivity.
  - intros x Hx Hkx. unfold without in Hx. apply filter_In in Hx. destruct Hx as (Hxd & Hxn).
    assert (Ex : x = d)
      by (apply (refs_one_is _ (documents w) d x (Hone d Hin) (Hlive d Hin) eq_refl Hxd Hkx)).
    subst x. apply negb_true_iff in Hxn.
    assert (Ht : existsb (Nat.eqb (Document.id d)) (map Document.id pending) = true).
    { apply existsb_exists. exists (Document.id d). split; [|apply Nat.eqb_refl].
      apply in_map, Hin. }
    congruence.
Qed.

(** C2, as the form and the hook implement it.  Take a logged-in user whose
    dates pass the check, pending drafts that are live records, and a store
    that accepts the intent and the link inserts.  The requests of the
    submission are then, in this order: the intent insert, one insert of a
    linked copy per draft, one record deletion per draft, and reads; so each
    copy is created before any draft is deleted.  No request touches the
    bucket.  After every one of these requests, and when the handler
    returns, every draft's storage key is referenced by at least one live
    record.  It is not referenced by exactly one throughout: right after
    its copy is created the draft and the copy both reference it.  It is
    referenced by exactly one when the handler returns if the deletions
    were accepted too, each draft was the only record for its key and no
    two drafts share a key. *)
Theorem linking_never_orphans (engine : Js.Engine) (u : User.t) (s : Session IntentRegistrationNew.State) :
  let c := component s in
  let w := world s in
  let pending := IntentRegistrationNew.pendingDocuments c in
  let N := List.length pending in
  let parent := Intent.id (insertedIntent u s) in
  let s' := after (IntentRegistrationNew.submit engine (Some u)) s in
  Js.date_ge (Js.Date_parse engine (IntentRegistrationNew.commencement_date
                               (IntentRegistrationNew.formData c)))
             (Js.Date_parse engine (IntentRegistrationNew.completion_date
                               (IntentRegistrationNew.formData c))) = false ->
  (forall i, (i <= N)%nat -> outage w (List.length (history w) + i) = false) ->
  incl pending (documents w) ->
  exists evsL evsD evsR,
    during s s' = intentEvent u s :: evsL ++ evsD ++ evsR
    /\ map request evsL
       = map (fun d => InsertDocument (IntentRegistrationNew.linkedCopy d parent)) pending
    /\ Forall (fun e => accepted e = true) evsL
    /\ map request evsD = map (fun d => DeleteDocument (Document.id d)) pending
    /\ Forall (fun e => is_write (request e) = false) evsR
    /\ Forall (fun e =>
                 blobs_after e = blobs w
                 /\ forall d, In d pending ->
                      (1 <= refs (Document.file_path (Document.fields d))
                                 (documents_after e))%nat)
              (during s s')
    /\ blobs (world s') = blobs w
    /\ (forall d, In d pending ->
          (1 <= refs (Document.file_path (Document.fields d)) (documents (world s')))%nat)
    /\ (forall d, In d pending ->
          exists e, In e evsL
                    /\ (2 <= refs (Document.file_path (Document.fields d))
                                  (documents_after e))%nat)
    /\ ((forall i, (i <= N + N)%nat -> outage w (List.length (history w) + i) = false) ->
        NoDup (map (fun d => Document.file_path (Document.fields d)) pending) ->
        (forall d, In d pending ->
           refs (Document.file_path (Document.fields d)) (documents w) = 1%nat) ->
        forall d, In d pending ->
          refs (Document.file_path (Document.fields d)) (documents (world s')) = 1%nat).
Proof.
  intros c w pending N parent s' Hdates Hup Hlive.
  destruct (accepted_range w N Hup) as (Hup0 & HupL).
  destruct (submit_accepted engine u s Hdates Hup0)
    as (rows & evsL & evsD & evsR & docs' & logs & c' & E & HreqL & HsnapL & Hfresh & HreqD
        & HsnapD & Hsurv & HsnapR & Hok & _).
  fold c w pending in E, HreqL, HsnapL, Hfresh, HreqD, HsnapD, Hsurv, HsnapR, Hok.
  destruct (Hok HupL) as (Hfields & Hacc & Hpair & _).
  fold parent in Hfields, HreqL.
  assert (Hd : during s s' = intentEvent u s :: evsL ++ evsD ++ evsR).
  { apply during_extension. subst s'. unfold after. rewrite E. reflexivity. }
  assert (Hdraft : forall d, In d pending ->
            (1 <= refs (Document.file_path (Document.fields d)) (documents w))%nat).
  { intros d Hin. apply (refs_In _ _ d); [apply Hlive, Hin | reflexivity]. }
  exists evsL, evsD, evsR.
  split; [exact Hd|]. split; [exact HreqL|]. split; [exact Hacc|].
  split; [exact HreqD|]. split.
  { eapply Forall_impl; [|exact HsnapR]. cbn. tauto. }
  split; [|split; [|split; [|split]]].
  - rewrite Hd. constructor; [split; [reflexivity | exact Hdraft]|].
    apply Forall_app. split; [|apply Forall_app; split].
    + eapply Forall_impl; [|exact HsnapL]. cbn.
      intros e (Hb & k & Hk). split; [exact Hb|].
      intros d Hin. rewrite Hk, refs_app. specialize (Hdraft d Hin). lia.
    + eapply Forall_impl; [|exact HsnapD]. cbn.
      intros e (Hb & Hs). split; [exact Hb|].
      intros d Hin.
      apply (copy_survives pending (documents w) rows _ parent d Hlive Hfresh Hfields Hs Hin).
    + eapply Forall_impl; [|exact HsnapR]. cbn.
      intros e (_ & Hdocs & Hb). split; [exact Hb|].
      intros d Hin. rewrite Hdocs.
      apply (copy_survives pending (documents w) rows _ parent d Hlive Hfresh Hfields Hsurv Hin).
  - subst s'. unfold after. rewrite E. reflexivity.
  - intros d Hin. subst s'. unfold after. rewrite E. cbn.
    apply (copy_survives pending (documents w) rows _ parent d Hlive Hfresh Hfields Hsurv Hin).
  - intros d Hin.
    assert (Hc : In (IntentRegistrationNew.linkedCopy d parent) (map Document.fields rows))
      by (rewrite Hfields;
          apply (in_map (fun x => IntentRegistrationNew.linkedCopy x parent)), Hin).
    apply in_map_iff in Hc. destruct Hc as (r & Hr & Hrin).
    destruct (Forall2_lookup_r _ _ _ r Hpair Hrin) as (e & He & k & Hk & Hrk).
    exists e. split; [exact He|].
    rewrite Hk, refs_app.
    pose proof (Hdraft d Hin) as H1.
    assert (H2 : (1 <= refs (Document.file_path (Document.fields d)) (firstn k rows))%nat).
    { apply (refs_In _ _ r Hrk). rewrite Hr. reflexivity. }
    lia.
  - intros Hall Hnd Hone.
    exact (linking_ends_with_one_reference engine u s Hdates Hall Hlive Hnd Hone).
Qed.

Lemma linking_never_orphans_witness :
  blobs (world (after (IntentRegistrationNew.submit Sample.strict (Some Sample.alice))
                      (Sample.session Sample.always_up
                         (Sample.intentForm "2025-03-01" "2025-03-02"
                            [Sample.plan; Sample.survey]))))
  = ["1/plan.pdf"; "1/survey.pdf"]
  /\ (1 <= refs "1/plan.pdf"
             (documents (world (after (IntentRegistrationNew.submit Sample.strict (Some Sample.alice))
                                      (Sample.session Sample.always_up
                                         (Sample.intentForm "2025-03-01" "2025-03-02"
                                            [Sample.plan; Sample.survey]))))))%nat.
Proof.
  destruct (linking_never_orphans Sample.strict Sample.alice
              (Sample.session Sample.always_up
                 (Sample.intentForm "2025-03-01" "2025-03-02" [Sample.plan; Sample.survey]))
              eq_refl (fun i _ => eq_refl) (fun d H => H))
    as (evsL & evsD & evsR & _ & _ & _ & _ & _ & _ & Hb & Hone & _ & _).
  split; [exact Hb|].
  exact (Hone Sample.plan (or_introl eq_refl)).
Defined.

(** C2 as worded fails on every submission that links a draft.  With the
    plan as the only pending draft and a store that accepts everything, the
    number of live records that reference the plan's storage key after each
    request of the submission is 1, 2, 1, 1: once the linked copy is
    created, and until the draft is deleted, two records are persisted for
    the one blob. *)
Lemma linking_never_orphans_counterexample :
  map (fun e => (request e, refs "1/plan.pdf" (documents_after e)))
      (history (world (after (IntentRegistrationNew.submit Sample.strict (Some Sample.alice))
                             (Sample.session Sample.always_up
                                (Sample.intentForm "2025-03-01" "2025-03-02"
                                   [Sample.plan])))))
  = [ (InsertIntent (IntentRegistrationNew.intentPayload Sample.alice
                       (Sample.form "2025-03-01" "2025-03-02")), 1%nat);
      (InsertDocument (IntentRegistrationNew.linkedCopy Sample.plan 1%nat), 2%nat);
      (DeleteDocument 4%nat, 1%nat);
      (SelectDocuments 1%nat, 1%nat) ].
Proof. vm_compute. reflexivity. Qed.

(** What the claims above leave out: when the store rejects the insert of
    a linked copy, the hook reports it on the console and returns, and
    [handleSubmit] goes on to delete every pending draft, the unlinked one
    included; the plan's blob then has no record left. *)
Example draft_deleted_after_failed_link :
  map (fun e => (accepted e, refs "1/plan.pdf" (documents_after e)))
      (history (world (after (IntentRegistrationNew.submit Sample.strict (Some Sample.alice))
                             (Sample.session (Sample.down_at 1)
                                (Sample.intentForm "2025-03-01" "2025-03-02"
                                   [Sample.plan])))))
  = [ (true, 1%nat); (false, 1%nat); (true, 0%nat); (true, 0%nat) ]
  /\ toasts (after (IntentRegistrationNew.submit Sample.strict (Some Sample.alice))
                   (Sample.session (Sample.down_at 1)
                      (Sample.intentForm "2025-03-01" "2025-03-02" [Sample.plan])))
     = [IntentRegistrationNew.documentsLinked 0; IntentRegistrationNew.submitted].
Proof. vm_compute. split; reflexivity. Qed.

(** ** The activity feed *)

Lemma insert_by_perm {A} (cmp : A -> A -> Z) (x : A) (l : list A) :
  Permutation (Js.insert_by cmp x l) (x :: l).
Proof.
  induction l as [|y l IH]; cbn; [reflexivity|].
  destruct (0 <? cmp x y); [|reflexivity].
  rewrite IH. apply perm_swap.
Qed.

Lemma sort_perm {A} (cmp : A -> A -> Z) (l : list A) :
  Permutation (Js.sort cmp l) l.
Proof.
  unfold Js.sort. induction l as [|x l IH]; cbn; [reflexivity|].
  rewrite insert_by_perm. apply perm_skip, IH.
Qed.





(** [fetchRecentActivities] sends its three reads one after the other,
    whatever each answers, never throws, and stores the six first of the
    sorted merge. *)
Lemma fetchRecentActivities_runs (user : User.t) (s : Session PublicDashboard.State) :
  exists e1 e2 e3,
    PublicDashboard.fetchRecentActivities user s
    = (Done tt,
       {| world := Backend.set_history (history (world s) ++ [e1; e2; e3]) (world s);
          toasts := toasts s;
          console := console s;
          component :=
            PublicDashboard.setRecentActivities
              (Js.slice0 6 (Js.sort PublicDashboard.newestFirst (merged user (world s))))
              (component s) |})
    /\ request e1 = SelectApplications (User.id user)
    /\ request e2 = SelectInvoices (User.id user)
    /\ request e3 = SelectNotifications (User.id user).
Proof.
  unfold PublicDashboard.fetchRecentActivities, merged, applicationsPart, invoicesPart,
    notificationsPart.
  unfold Backend.select_applications, Backend.select_invoices, Backend.select_notifications,
    Backend.down.
  run.
  destruct (outage (world s) (List.length (history (world s)))) eqn:E1; cbn;
    rewrite length_app; cbn;
    destruct (outage (world s) (List.length (history (world s)) + 1)) eqn:E2; cbn;
    rewrite !length_app; cbn; rewrite <- Nat.add_assoc; cbn;
    destruct (outage (world s) (List.length (history (world s)) + 2)) eqn:E3; cbn;
    (eexists _, _, _; split;
     [ unfold Backend.record, Backend.set_history; cbn;
       rewrite <- ?app_assoc; cbn; reflexivity
     | repeat split ]).
Qed.

(** Where the items of the feed come from. *)
Lemma feed_from_sources (user : User.t) (s : Session PublicDashboard.State)
      (a : RecentActivity.t) :
  In a (feed user s) -> In a (merged user (world s)).
Proof.
  destruct (fetchRecentActivities_runs user s) as (e1 & e2 & e3 & E & _).
  unfold feed, after. rewrite E. cbn. intros H.
  unfold Js.slice0 in H.
  apply (Permutation_in _ (sort_perm PublicDashboard.newestFirst (merged user (world s)))).
  rewrite <- (firstn_skipn 6). apply in_or_app. left. exact H.
Qed.

Lemma merged_origin (user : User.t) (w : World) (a : RecentActivity.t) :
  In a (merged user w) ->
  (exists row, In row (Backend.recent_applications (User.id user) w)
               /\ a = PublicDashboard.ofApplication row)
  \/ (exists row, In row (Backend.recent_invoices (User.id user) w)
                  /\ a = PublicDashboard.ofInvoice (now w) row)
  \/ (exists row, In row (Backend.recent_notifications (User.id user) w)
                  /\ a = PublicDashboard.ofNotification row).
Proof.
  unfold merged, applicationsPart, invoicesPart, notificationsPart. intros H.
  apply in_app_or in H. destruct H as [H|H]; [|apply in_app_or in H; destruct H as [H|H]].
  - destruct (outage w _); [contradiction|].
    apply in_map_iff in H. destruct H as (row & <- & Hrow). left. eauto.
  - destruct (outage w _); [contradiction|].
    apply in_map_iff in H. destruct H as (row & <- & Hrow). right. left. eauto.
  - destruct (outage w _); [contradiction|].
    apply in_map_iff in H. destruct H as (row & <- & Hrow). right. right. eauto.
Qed.

Lemma recent_In {A} (n : nat) (key : A -> Z) (p : A -> bool) (l : list A) (x : A) :
  In x (firstn n (Backend.order_desc key (filter p l))) -> In x l /\ p x = true.
Proof.
  intros H. apply filter_In.
  apply (Permutation_in _ (sort_perm (fun a b => key b - key a) (filter p l))).
  fold (Backend.order_desc key (filter p l)).
  rewrite <- (firstn_skipn n). apply in_or_app. left. exact H.
Qed.









(** The scenario of C8, run: of seven items at seven different times the
    feed keeps the six newest, newest first, and with the invoice source
    down it keeps the five items of the other two sources. *)
Example activity_feed_sample :
  map RecentActivity.timestamp (feed Sample.alice (Sample.dashboard Sample.always_up))
  = [7000; 6000; 5000; 4000; 3000; 2000]
  /\ map (fun a => (RecentActivity.type a, RecentActivity.timestamp a))
         (feed Sample.alice (Sample.dashboard (Sample.down_at 1)))
     = [(application, 7000); (notification, 5000); (notification, 4000);
        (application, 3000); (notification, 2000)].
Proof. vm_compute. split; reflexivity. Qed.

(* ================================================================== *)
(** * Further properties of the handlers and views *)
(* ================================================================== *)

(** ** Lists, sorting, text *)

Lemma filter_partition {A} (f : A -> bool) (l : list A) :
  Permutation (filter f l ++ filter (fun x => negb (f x)) l) l.
Proof.
  induction l as [|a l IH]; cbn; [constructor|].
  destruct (f a); cbn.
  - apply perm_skip, IH.
  - symmetry. apply Permutation_cons_app. symmetry. exact IH.
Qed.

Lemma insert_by_key_sorted {A} (key : A -> Z) (x : A) (l : list A) :
  StronglySorted (fun a b => key b <= key a) l ->
  StronglySorted (fun a b => key b <= key a)
                 (Js.insert_by (fun a b => key b - key a) x l).
Proof.
  induction 1 as [|y l Hl IH Hy]; cbn; [repeat constructor|].
  destruct (0 <? key y - key x) eqn:E.
  - apply Z.ltb_lt in E. constructor; [exact IH|].
    rewrite Forall_forall. intros z Hz.
    apply (Permutation_in _ (insert_by_perm _ x l)) in Hz.
    destruct Hz as [<- | Hz]; [lia|].
    rewrite Forall_forall in Hy. apply Hy, Hz.
  - apply Z.ltb_ge in E. constructor; [constructor; assumption|].
    constructor; [lia|].
    eapply Forall_impl; [|exact Hy]. cbn. intros z Hz. lia.
Qed.

Lemma order_desc_sorted {A} (key : A -> Z) (l : list A) :
  StronglySorted (fun a b => key b <= key a) (Backend.order_desc key l).
Proof.
  unfold Backend.order_desc, Js.sort.
  induction l as [|x l IH]; cbn; [constructor|].
  apply insert_by_key_sorted, IH.
Qed.

Lemma order_desc_perm {A} (key : A -> Z) (l : list A) :
  Permutation (Backend.order_desc key l) l.
Proof. apply sort_perm. Qed.

Lemma lower_idempotent (c : ascii) : JsText.lower (JsText.lower c) = JsText.lower c.
Proof. destruct c as [[] [] [] [] [] [] [] []]; reflexivity. Qed.

Lemma toLowerCase_idempotent (s : string) :
  JsText.toLowerCase (JsText.toLowerCase s) = JsText.toLowerCase s.
Proof.
  induction s as [|c s IH]; cbn; [reflexivity|].
  rewrite lower_idempotent, IH. reflexivity.
Qed.

Lemma toLowerCase_truthy (s : string) :
  Js.truthy (JsText.toLowerCase s) = Js.truthy s.
Proof. destruct s; reflexivity. Qed.

Lemma toLowerCase_app (a b : string) :
  JsText.toLowerCase (a ++ b)%string
  = (JsText.toLowerCase a ++ JsText.toLowerCase b)%string.
Proof. induction a as [|c a IH]; cbn; [reflexivity|]. rewrite IH. reflexivity. Qed.

Lemma prefix_empty (s : string) : String.prefix "" s = true.
Proof. destruct s; reflexivity. Qed.

Lemma includes_empty (s : string) : JsText.includes s "" = true.
Proof. destruct s; reflexivity. Qed.

Lemma prefix_app (t b : string) : String.prefix t (t ++ b)%string = true.
Proof.
  induction t as [|c t IH]; cbn; [apply prefix_empty|].
  destruct (Ascii.ascii_dec c c) as [_|N]; [exact IH | contradiction].
Qed.

Lemma includes_prefix (t b : string) : JsText.includes (t ++ b)%string t = true.
Proof.
  destruct t as [|c t]; [apply includes_empty|].
  cbn [JsText.includes append].
  change (String c (t ++ b)%string) with (String c t ++ b)%string.
  rewrite prefix_app. reflexivity.
Qed.

Lemma includes_after (a s t : string) :
  JsText.includes s t = true -> JsText.includes (a ++ s)%string t = true.
Proof.
  intros H. induction a as [|c a IH]; cbn; [exact H|].
  rewrite IH. apply orb_true_r.
Qed.

(** ** Reading the user list as an administrator *)

(** The run of [fetchUsers] for an administrator, in both outcomes of its
    one read. *)
Lemma fetchUsers_administrator_run
  (p : UserProfile.t) (s : Session UserManagement.State) :
  UserProfile.user_type p = admin \/ UserProfile.user_type p = super_admin ->
  UserManagement.fetchUsers (Some p) s
  = (Done tt,
     if Backend.down (world s)
     then {| world := Backend.record SelectProfiles false (world s);
             toasts := toasts s ++ [UserManagement.fetchFailed];
             console := console s
                        ++ [("Error fetching users:" ++ " " ++ Backend.rejected)%string];
             component := UserManagement.setLoading false (component s) |}
     else {| world := Backend.record SelectProfiles true (world s);
             toasts := toasts s;
             console := console s;
             component :=
               UserManagement.setLoading false
                 (UserManagement.setUsers
                    (Backend.order_desc UserProfile.created_at (profiles (world s)))
                    (component s)) |}).
Proof.
  intros Hadmin.
  assert (G : UserManagement.notAdministrator (Some p) = false)
    by (cbn; destruct Hadmin as [-> | ->]; reflexivity).
  unfold UserManagement.fetchUsers. rewrite G.
  unfold Backend.select_profiles. run.
  destruct (Backend.down (world s)); reflexivity.
Qed.

(** X1.  For an acting administrator [fetchUsers] sends one request, the
    read of the profiles, and nothing else.  If it is accepted the list
    becomes the profiles of the store, all of them, newest first, and
    nothing is displayed; if it is rejected the list is left as it was,
    the failure is logged and displayed.  Either way the loading flag ends
    false. *)
Theorem fetchUsers_for_administrator
  (p : UserProfile.t) (s : Session UserManagement.State) :
  UserProfile.user_type p = admin \/ UserProfile.user_type p = super_admin ->
  let s' := after (UserManagement.fetchUsers (Some p)) s in
  fst (UserManagement.fetchUsers (Some p) s) = Done tt
  /\ (exists e, history (world s') = history (world s) ++ [e]
                /\ request e = SelectProfiles
                /\ accepted e = negb (Backend.down (world s)))
  /\ UserManagement.loading (component s') = false
  /\ writes (world s') = writes (world s)
  /\ profiles (world s') = profiles (world s)
  /\ (Backend.down (world s) = false ->
        UserManagement.users (component s')
        = Backend.order_desc UserProfile.created_at (profiles (world s))
        /\ Permutation (UserManagement.users (component s')) (profiles (world s))
        /\ StronglySorted
             (fun a b => UserProfile.created_at b <= UserProfile.created_at a)
             (UserManagement.users (component s'))
        /\ toasts s' = toasts s /\ console s' = console s)
  /\ (Backend.down (world s) = true ->
        UserManagement.users (component s') = UserManagement.users (component s)
        /\ toasts s' = toasts s ++ [UserManagement.fetchFailed]
        /\ console s'
           = console s ++ [("Error fetching users:" ++ " " ++ Backend.rejected)%string]).
Proof.
  intros Hadmin s'. subst s'. unfold after.
  rewrite (fetchUsers_administrator_run p s Hadmin).
  destruct (Backend.down (world s)) eqn:Hd; cbn [fst snd world toasts console component].
  - split; [reflexivity|]. split; [eexists; repeat split|]. split; [reflexivity|]. split.
    + unfold writes. cbn. rewrite map_app, filter_app. cbn. apply app_nil_r.
    + split; [reflexivity|]. split; [discriminate|]. intros _. repeat split.
  - split; [reflexivity|]. split; [eexists; repeat split|]. split; [reflexivity|]. split.
    + unfold writes. cbn. rewrite map_app, filter_app. cbn. apply app_nil_r.
    + split; [reflexivity|]. split; [|discriminate]. intros _.
      cbn [UserManagement.users UserManagement.setLoading UserManagement.setUsers].
      split; [reflexivity|]. split; [apply order_desc_perm|].
      split; [apply order_desc_sorted|]. split; reflexivity.
Qed.

Lemma fetchUsers_for_administrator_witness :
  UserManagement.users
    (component (after (UserManagement.fetchUsers (Some Sample.officer))
                      (Sample.session Sample.always_up UserManagement.initialState)))
  = Backend.order_desc UserProfile.created_at
      [Sample.root; Sample.officer; Sample.clerk; Sample.citizen]
  /\ UserManagement.users
       (component (after (UserManagement.fetchUsers (Some Sample.officer))
                         (Sample.session Sample.always_down UserManagement.initialState)))
     = []
  /\ map request
         (history (world (after (UserManagement.fetchUsers (Some Sample.officer))
                                (Sample.session Sample.always_up
                                   UserManagement.initialState))))
     = [SelectProfiles].
Proof.
  destruct (fetchUsers_for_administrator Sample.officer
              (Sample.session Sample.always_up UserManagement.initialState)
              (or_introl eq_refl)) as (_ & (e & He & Hreq & _) & _ & _ & _ & Hup & _).
  destruct (fetchUsers_for_administrator Sample.officer
              (Sample.session Sample.always_down UserManagement.initialState)
              (or_introl eq_refl)) as (_ & _ & _ & _ & _ & _ & Hdown).
  split; [exact (proj1 (Hup eq_refl))|]. split; [exact (proj1 (Hdown eq_refl))|].
  rewrite He. cbn. rewrite Hreq. reflexivity.
Defined.

#[local] Arguments Backend.order_desc : simpl never.

Lemma order_desc_In {A} (key : A -> Z) (l : list A) (x : A) :
  In x (Backend.order_desc key l) <-> In x l.
Proof.
  split; intros H.
  - apply (Permutation_in _ (order_desc_perm key l)), H.
  - apply (Permutation_in _ (Permutation_sym (order_desc_perm key l))), H.
Qed.

(** ** The suspension dialog around its handler *)

Lemma fetchUsers_keeps_dialog (profile : option UserProfile.t)
      (s : Session UserManagement.State) :
  let c' := component (after (UserManagement.fetchUsers profile) s) in
  fst (UserManagement.fetchUsers profile s) = Done tt
  /\ UserManagement.suspendDialogOpen c' = UserManagement.suspendDialogOpen (component s)
  /\ UserManagement.userToSuspend c' = UserManagement.userToSuspend (component s)
  /\ UserManagement.suspensionReason c' = UserManagement.suspensionReason (component s).
Proof.
  unfold UserManagement.fetchUsers, Backend.select_profiles. run.
  destruct (UserManagement.notAdministrator profile); cbn; [auto|].
  destruct (Backend.down (world s)); cbn; auto.
Qed.

(** The run of [handleSuspendUser] past its guards, request by request. *)
Lemma handleSuspendUser_run
  (profile : option UserProfile.t) (s : Session UserManagement.State)
  (u : UserProfile.t) :
  UserManagement.userToSuspend (component s) = Some u ->
  UserProfile.user_type u <> super_admin ->
  UserManagement.notSuspended u
    && whitespace_only (UserManagement.suspensionReason (component s)) = false ->
  let body := UserManagement.suspensionPatch profile (UserManagement.notSuspended u)
                (now (world s)) (UserManagement.suspensionReason (component s)) in
  let s1 := {| world := Backend.record (UpdateProfile (UserProfile.id u) body) true
                          (Backend.set_profiles
                             (patched (UserProfile.id u) body (profiles (world s)))
                             (world s));
               toasts := toasts s; console := console s; component := component s |} in
  let s2 := after (UserManagement.fetchUsers profile) s1 in
  UserManagement.handleSuspendUser profile s
  = (Done tt,
     if Backend.down (world s)
     then {| world := Backend.record (UpdateProfile (UserProfile.id u) body) false (world s);
             toasts := toasts s ++ [UserManagement.updateFailed];
             console := console s
                        ++ [("Error updating user:" ++ " " ++ Backend.rejected)%string];
             component := UserManagement.setUserToSuspend None
                            (UserManagement.setSuspendDialogOpen false (component s)) |}
     else {| world := world s2;
             toasts := toasts s2
                       ++ [UserManagement.statusChanged (UserManagement.notSuspended u)];
             console := console s2;
             component := UserManagement.setUserToSuspend None
                            (UserManagement.setSuspendDialogOpen false
                               (UserManagement.setSuspensionReason ""
                                  (component s2))) |}).
Proof.
  intros Hu Ht Hg body s1 s2.
  assert (Hs : UserType_eqb (UserProfile.user_type u) super_admin = false)
    by (destruct (UserProfile.user_type u); try reflexivity; congruence).
  unfold UserManagement.handleSuspendUser.
  unfold bind at 1. unfold get_component at 1. rewrite Hu, Hs.
  rewrite trim_falsy, Hg.
  unfold Backend.update_profile. run. fold body.
  destruct (Backend.down (world s)) eqn:Hd; cbn; [reflexivity|].
  fold (patched (UserProfile.id u) body (profiles (world s))). fold s1.
  pose proof (fetchUsers_keeps_dialog profile s1) as (Hdone & _).
  subst s2. unfold after.
  destruct (UserManagement.fetchUsers profile s1) as [r s2]. cbn in Hdone. subst r.
  reflexivity.
Qed.

Lemma handleSuspendUser_stopped_untouched
  (profile : option UserProfile.t) (s : Session UserManagement.State) :
  (forall u, UserManagement.userToSuspend (component s) = Some u ->
     UserProfile.user_type u = super_admin
     \/ UserManagement.notSuspended u
        && whitespace_only (UserManagement.suspensionReason (component s)) = true) ->
  component (after (UserManagement.handleSuspendUser profile) s) = component s
  /\ console (after (UserManagement.handleSuspendUser profile) s) = console s.
Proof.
  intros H.
  split; unfold UserManagement.handleSuspendUser, after;
    unfold bind at 1; unfold get_component at 1;
    (destruct (UserManagement.userToSuspend (component s)) as [u|]; [|reflexivity]);
    (destruct (UserType_eqb (UserProfile.user_type u) super_admin) eqn:Hs; [reflexivity|]);
    (destruct (H u eq_refl) as [Ht|Hg];
     [ rewrite Ht in Hs; discriminate | rewrite trim_falsy, Hg; reflexivity ]).
Qed.

(** X2.  What [handleSuspendUser] does to the dialog.  When a guard stops
    it (nobody selected, a super_admin, a missing reason) the component
    state is untouched: the dialog stays open on the same account with the
    text typed.  Once the update has been sent the dialog is closed and no
    account is selected, whether the store accepted the update or not; the
    reason typed is cleared only when it accepted, and is kept after a
    failure, which is displayed. *)
Theorem handleSuspendUser_dialog_state
  (profile : option UserProfile.t) (s : Session UserManagement.State) :
  let c := component s in
  let c' := component (after (UserManagement.handleSuspendUser profile) s) in
  ((forall u, UserManagement.userToSuspend c = Some u ->
      UserProfile.user_type u = super_admin
      \/ UserManagement.notSuspended u
         && whitespace_only (UserManagement.suspensionReason c) = true) ->
   c' = c)
  /\
  (forall u,
     UserManagement.userToSuspend c = Some u ->
     UserProfile.user_type u <> super_admin ->
     UserManagement.notSuspended u
       && whitespace_only (UserManagement.suspensionReason c) = false ->
     UserManagement.suspendDialogOpen c' = false
     /\ UserManagement.userToSuspend c' = None
     /\ UserManagement.suspensionReason c'
        = (if Backend.down (world s) then UserManagement.suspensionReason c else "")
     /\ (Backend.down (world s) = true ->
         toasts (after (UserManagement.handleSuspendUser profile) s)
         = toasts s ++ [UserManagement.updateFailed]
         /\ UserManagement.users c' = UserManagement.users c)).
Proof.
  intros c c'. split.
  - intros H. apply (handleSuspendUser_stopped_untouched profile s H).
  - intros u Hu Ht Hg. subst c'. unfold after.
    rewrite (handleSuspendUser_run profile s u Hu Ht Hg).
    destruct (Backend.down (world s)) eqn:Hd; cbn.
    + repeat split.
    + repeat split; discriminate.
Qed.

Lemma handleSuspendUser_dialog_state_witness :
  UserManagement.suspensionReason
    (component (after (UserManagement.handleSuspendUser (Some Sample.officer))
                      (Sample.session Sample.always_down
                         (Sample.suspendDialog Sample.citizen "forged licence"))))
  = "forged licence"
  /\ UserManagement.suspendDialogOpen
       (component (after (UserManagement.handleSuspendUser (Some Sample.officer))
                         (Sample.session Sample.always_down
                            (Sample.suspendDialog Sample.citizen "forged licence"))))
     = false
  /\ component (after (UserManagement.handleSuspendUser (Some Sample.officer))
                      (Sample.session Sample.always_up
                         (Sample.suspendDialog Sample.citizen "   ")))
     = Sample.suspendDialog Sample.citizen "   ".
Proof.
  assert (Ht : UserProfile.user_type Sample.citizen <> super_admin) by (cbn; discriminate).
  pose proof (proj2 (handleSuspendUser_dialog_state (Some Sample.officer)
                (Sample.session Sample.always_down
                   (Sample.suspendDialog Sample.citizen "forged licence")))
              Sample.citizen eq_refl Ht eq_refl) as (Hopen & _ & Hreason & _).
  split; [exact Hreason|]. split; [exact Hopen|].
  apply (proj1 (handleSuspendUser_dialog_state (Some Sample.officer)
                (Sample.session Sample.always_up
                   (Sample.suspendDialog Sample.citizen "   ")))).
  intros u E. injection E as <-. right. reflexivity.
Defined.

(** X3.  A suspension shows in the list.  When an administrator's update is
    accepted and so is the read that follows it, the list the component
    holds is the store's profiles after the update, newest first, and every
    listed row of the account carries the new flag, with the time, the
    administrator and the reason when it was a suspension; the success
    notice is the one thing displayed. *)
Theorem suspension_shows_in_list
  (p : UserProfile.t) (s : Session UserManagement.State) (u : UserProfile.t) :
  let c := component s in
  let w := world s in
  let s' := after (UserManagement.handleSuspendUser (Some p)) s in
  UserProfile.user_type p = admin \/ UserProfile.user_type p = super_admin ->
  UserManagement.userToSuspend c = Some u ->
  UserProfile.user_type u <> super_admin ->
  UserManagement.notSuspended u
    && whitespace_only (UserManagement.suspensionReason c) = false ->
  outage w (List.length (history w)) = false ->
  outage w (S (List.length (history w))) = false ->
  Permutation (UserManagement.users (component s')) (profiles (world s'))
  /\ StronglySorted (fun a b => UserProfile.created_at b <= UserProfile.created_at a)
                    (UserManagement.users (component s'))
  /\ (forall r, In r (UserManagement.users (component s')) ->
        UserProfile.id r = UserProfile.id u ->
        UserProfile.is_suspended r = Some (UserManagement.notSuspended u)
        /\ (UserManagement.notSuspended u = true ->
            UserProfile.suspended_at r = Some (now w)
            /\ UserProfile.suspended_by r = Some (UserProfile.user_id p)
            /\ UserProfile.suspension_reason r = Some (UserManagement.suspensionReason c))
        /\ (UserManagement.notSuspended u = false ->
            UserProfile.suspended_at r = None
            /\ UserProfile.suspended_by r = None
            /\ UserProfile.suspension_reason r = None))
  /\ toasts s' = toasts s ++ [UserManagement.statusChanged (UserManagement.notSuspended u)].
Proof.
  intros c w s' Hadmin Hu Ht Hg Hup0 Hup1.
  subst s'. unfold after. rewrite (handleSuspendUser_run (Some p) s u Hu Ht Hg).
  unfold after. rewrite (fetchUsers_administrator_run p _ Hadmin).
  unfold Backend.down. cbn [world history Backend.record Backend.set_history
                            Backend.set_profiles outage].
  fold w c. rewrite length_app. cbn [List.length]. rewrite Nat.add_1_r, Hup0, Hup1.
  cbn [snd world toasts console component profiles Backend.record Backend.set_history
       Backend.set_profiles UserManagement.users UserManagement.setLoading
       UserManagement.setUsers UserManagement.setSuspensionReason
       UserManagement.setSuspendDialogOpen UserManagement.setUserToSuspend].
  split; [apply order_desc_perm|]. split; [apply order_desc_sorted|]. split.
  - intros r Hr Hid. apply order_desc_In in Hr.
    destruct (patched_row _ _ _ _ Hr Hid) as (r0 & _ & ->).
    destruct (UserManagement.notSuspended u); cbn.
    + split; [reflexivity|]. split; [auto | discriminate].
    + split; [reflexivity|]. split; [discriminate | auto].
  - reflexivity.
Qed.

Lemma suspension_shows_in_list_witness :
  toasts (after (UserManagement.handleSuspendUser (Some Sample.officer))
                (Sample.session Sample.always_up
                   (Sample.suspendDialog Sample.citizen "forged licence")))
  = [UserManagement.statusChanged true].
Proof.
  assert (Ht : UserProfile.user_type Sample.citizen <> super_admin) by (cbn; discriminate).
  exact (proj2 (proj2 (proj2 (suspension_shows_in_list Sample.officer
           (Sample.session Sample.always_up
              (Sample.suspendDialog Sample.citizen "forged licence"))
           Sample.citizen (or_introl eq_refl) eq_refl Ht eq_refl eq_refl eq_refl)))).
Defined.

(** X4.  The Confirm button and the handler's guard.  Whenever the button
    is disabled for a selected account that is not a super_admin, the
    handler would refuse as well; but not the other way round: with a
    reason made of white space only the button is enabled and the click
    ends in the reason-required notice, nothing being sent. *)
Theorem confirm_button_and_guard
  (profile : option UserProfile.t) (s : Session UserManagement.State)
  (u : UserProfile.t) :
  UserManagement.userToSuspend (component s) = Some u ->
  UserProfile.user_type u <> super_admin ->
  (SuspendDialog.confirmDisabled (component s) = true ->
   UserManagement.handleSuspendUser profile s
   = (Done tt, notified UserManagement.reasonRequired s))
  /\ (UserManagement.notSuspended u = true ->
      whitespace_only (UserManagement.suspensionReason (component s)) = true ->
      UserManagement.suspensionReason (component s) <> "" ->
      SuspendDialog.confirmDisabled (component s) = false
      /\ UserManagement.handleSuspendUser profile s
         = (Done tt, notified UserManagement.reasonRequired s)).
Proof.
  intros Hu Ht.
  assert (Hs : UserType_eqb (UserProfile.user_type u) super_admin = false)
    by (destruct (UserProfile.user_type u); try reflexivity; congruence).
  assert (Hrefuse : UserManagement.notSuspended u = true ->
            whitespace_only (UserManagement.suspensionReason (component s)) = true ->
            UserManagement.handleSuspendUser profile s
            = (Done tt, notified UserManagement.reasonRequired s)).
  { intros Hn Hw. unfold UserManagement.handleSuspendUser.
    unfold bind at 1. unfold get_component at 1. rewrite Hu, Hs.
    rewrite trim_falsy, Hn, Hw. reflexivity. }
  split.
  - unfold SuspendDialog.confirmDisabled. rewrite Hu. intros H.
    apply andb_true_iff in H. destruct H as (Hn & He).
    apply Hrefuse; [exact Hn|].
    destruct (UserManagement.suspensionReason (component s)); [reflexivity | discriminate].
  - intros Hn Hw Hne. split; [|apply Hrefuse; assumption].
    unfold SuspendDialog.confirmDisabled. rewrite Hu, Hn.
    destruct (UserManagement.suspensionReason (component s)); [congruence | reflexivity].
Qed.

Lemma confirm_button_and_guard_witness :
  SuspendDialog.confirmDisabled (Sample.suspendDialog Sample.citizen "  ") = false
  /\ UserManagement.handleSuspendUser (Some Sample.officer)
       (Sample.session Sample.always_up (Sample.suspendDialog Sample.citizen "  "))
     = (Done tt,
        notified UserManagement.reasonRequired
          (Sample.session Sample.always_up (Sample.suspendDialog Sample.citizen "  "))).
Proof.
  assert (Ht : UserProfile.user_type Sample.citizen <> super_admin) by (cbn; discriminate).
  assert (Hne : UserManagement.suspensionReason
                  (component (Sample.session Sample.always_up
                                (Sample.suspendDialog Sample.citizen "  "))) <> "")
    by (cbn; discriminate).
  exact (proj2 (confirm_button_and_guard (Some Sample.officer)
           (Sample.session Sample.always_up (Sample.suspendDialog Sample.citizen "  "))
           Sample.citizen eq_refl Ht) eq_refl eq_refl Hne).
Defined.

(** ** The filters of the user list *)

Lemma filter_id {A} (l : list A) : filter (fun _ => true) l = l.
Proof. induction l as [|a l IH]; cbn; [reflexivity | now rewrite IH]. Qed.

Lemma filter_none {A} (f : A -> bool) (l : list A) :
  (forall x, In x l -> f x = false) -> filter f l = [].
Proof.
  induction l as [|a l IH]; cbn; intros H; [reflexivity|].
  rewrite (H a (or_introl eq_refl)). apply IH. intros x Hx. apply H. now right.
Qed.

Lemma filter_all {A} (f : A -> bool) (l : list A) :
  (forall x, In x l -> f x = true) -> filter f l = l.
Proof.
  induction l as [|a l IH]; cbn; intros H; [reflexivity|].
  rewrite (H a (or_introl eq_refl)). f_equal. apply IH. intros x Hx. apply H. now right.
Qed.

Lemma string_app_assoc (a b c : string) :
  (a ++ b ++ c)%string = ((a ++ b) ++ c)%string.
Proof. induction a as [|x a IH]; cbn; [reflexivity | now rewrite IH]. Qed.

Lemma includes_inside (a x b t : string) :
  JsText.toLowerCase x = JsText.toLowerCase t ->
  JsText.includes (JsText.toLowerCase (a ++ x ++ b)%string) (JsText.toLowerCase t) = true.
Proof.
  intros E. rewrite !toLowerCase_app, E.
  apply includes_after, includes_prefix.
Qed.

Lemma matchesSearch_lower (t : string) (u : UserProfile.t) :
  UserFilters.matchesSearch (JsText.toLowerCase t) u = UserFilters.matchesSearch t u.
Proof. unfold UserFilters.matchesSearch. now rewrite toLowerCase_idempotent. Qed.

(** X5.  The status filter of the user list splits it: for any search and
    type filter, the accounts shown under "active" and those shown under
    "suspended" are together exactly the accounts shown under "all", none
    in both and none lost; every other value of the filter shows the same
    as "all"; and no filter setting shows an account that is not in the
    list read from the store. *)
Theorem filterUsers_status_partition
  (users : list UserProfile.t) (searchTerm userTypeFilter : string) :
  let shown := UserFilters.filterUsers users searchTerm userTypeFilter in
  Permutation (shown "active" ++ shown "suspended") (shown "all")
  /\ (forall u, In u (shown "active") -> ~ In u (shown "suspended"))
  /\ (forall statusFilter, statusFilter <> "active" -> statusFilter <> "suspended" ->
        shown statusFilter = shown "all")
  /\ (forall statusFilter u, In u (shown statusFilter) -> In u users).
Proof.
  intros shown. subst shown. unfold UserFilters.filterUsers. cbn [String.eqb].
  set (l1 := if Js.truthy searchTerm then _ else _).
  set (l2 := if negb (userTypeFilter =? "all")%string then _ else _).
  assert (H2 : incl l2 users).
  { intros u Hu. subst l2 l1.
    destruct (negb _); [apply filter_In in Hu; destruct Hu as (Hu & _)|];
      (destruct (Js.truthy searchTerm); [apply filter_In in Hu; tauto | exact Hu]). }
  split; [|split; [|split]].
  - cbn. apply filter_partition.
  - cbn. intros u Ha Hs. apply filter_In in Ha, Hs.
    destruct Ha as (_ & Ha), Hs as (_ & Hs). rewrite Ha in Hs. discriminate.
  - intros st Ha Hs.
    apply String.eqb_neq in Ha, Hs. rewrite Ha, Hs. reflexivity.
  - intros st u Hu. apply H2.
    destruct (st =? "active")%string; [apply filter_In in Hu; tauto|].
    destruct (st =? "suspended")%string; [apply filter_In in Hu; tauto | exact Hu].
Qed.

Lemma filterUsers_status_partition_witness :
  UserFilters.filterUsers [Sample.citizen; Sample.profile 9%nat staff (Some true)]
                          "" "all" "blocked"
  = UserFilters.filterUsers [Sample.citizen; Sample.profile 9%nat staff (Some true)]
                            "" "all" "all".
Proof.
  apply (proj1 (proj2 (proj2 (filterUsers_status_partition
           [Sample.citizen; Sample.profile 9%nat staff (Some true)] "" "all")))
           "blocked"); discriminate.
Defined.

(** X6.  The search box ignores the case of what is typed and of what is
    stored.  Lowering the term changes nothing in what is shown; an
    account whose email holds a piece equal to the term up to case is
    shown (type and status filters left on "all"); and with an empty term
    and both filters on "all" the whole list is shown. *)
Theorem filterUsers_search_ignores_case
  (users : list UserProfile.t) (searchTerm : string) :
  (forall userTypeFilter statusFilter,
     UserFilters.filterUsers users (JsText.toLowerCase searchTerm) userTypeFilter statusFilter
     = UserFilters.filterUsers users searchTerm userTypeFilter statusFilter)
  /\ (forall u a x b,
        In u users ->
        UserProfile.email u = (a ++ x ++ b)%string ->
        JsText.toLowerCase x = JsText.toLowerCase searchTerm ->
        In u (UserFilters.filterUsers users searchTerm "all" "all"))
  /\ UserFilters.filterUsers users "" "all" "all" = users.
Proof.
  split; [|split].
  - intros ty st. unfold UserFilters.filterUsers.
    rewrite toLowerCase_truthy.
    rewrite (filter_ext _ _ (matchesSearch_lower searchTerm)). reflexivity.
  - intros u a x b Hu He Hx. unfold UserFilters.filterUsers. cbn.
    destruct (Js.truthy searchTerm); [|exact Hu].
    apply filter_In. split; [exact Hu|].
    unfold UserFilters.matchesSearch. rewrite He, (includes_inside a x b _ Hx).
    reflexivity.
  - reflexivity.
Qed.

Lemma filterUsers_search_ignores_case_witness :
  In Sample.citizen (UserFilters.filterUsers [Sample.officer; Sample.citizen] "EXAMPLE" "all" "all").
Proof.
  apply (proj1 (proj2 (filterUsers_search_ignores_case
                         [Sample.officer; Sample.citizen] "EXAMPLE"))
           Sample.citizen "user@" "example" ".org");
    [right; left; reflexivity | reflexivity | reflexivity].
Defined.

(** X7.  A missing name is searched as the word null.  The name searched
    is built with a template literal, so an account whose first or last
    name is null is shown for every term that reads "null" up to case,
    whatever its email. *)
Theorem filterUsers_missing_name_matches_null
  (users : list UserProfile.t) (searchTerm : string) (u : UserProfile.t) :
  In u users ->
  UserProfile.first_name u = None \/ UserProfile.last_name u = None ->
  JsText.toLowerCase searchTerm = "null" ->
  In u (UserFilters.filterUsers users searchTerm "all" "all").
Proof.
  intros Hu Hn Ht. unfold UserFilters.filterUsers. cbn.
  destruct (Js.truthy searchTerm); [|exact Hu].
  apply filter_In. split; [exact Hu|].
  unfold UserFilters.matchesSearch. rewrite Ht. apply orb_true_iff. right.
  destruct Hn as [-> | ->]; cbn [JsText.show].
  - change ("null" ++ " " ++ JsText.show (UserProfile.last_name u))%string
      with ("" ++ "null" ++ (" " ++ JsText.show (UserProfile.last_name u)))%string.
    apply (includes_inside "" "null" _ "null"). reflexivity.
  - replace (JsText.show (UserProfile.first_name u) ++ " " ++ "null")%string
      with ((JsText.show (UserProfile.first_name u) ++ " ") ++ "null" ++ "")%string.
    + apply (includes_inside _ "null" "" "null"). reflexivity.
    + now rewrite <- string_app_assoc.
Qed.

Lemma filterUsers_missing_name_matches_null_witness :
  In Sample.clerk (UserFilters.filterUsers [Sample.clerk] "Null" "all" "all").
Proof.
  apply (filterUsers_missing_name_matches_null [Sample.clerk] "Null" Sample.clerk);
    [left; reflexivity | left; reflexivity | reflexivity].
Defined.

(** X8.  The three tabs.  The Public and the Staff tab never show the same
    account, and the count of the All tab is theirs plus the number of
    admin and super_admin accounts, which appear under All only.  With the
    type filter on "public" the Public tab shows all that is shown and the
    Staff tab is empty. *)
Theorem tabs_split_the_shown_users (filteredUsers : list UserProfile.t) :
  (forall u, In u (UserFilters.publicUsers filteredUsers) ->
             ~ In u (UserFilters.staffUsers filteredUsers))
  /\ List.length filteredUsers
     = (List.length (UserFilters.publicUsers filteredUsers)
        + List.length (UserFilters.staffUsers filteredUsers)
        + List.length (filter (fun u => UserType_eqb (UserProfile.user_type u) admin
                                        || UserType_eqb (UserProfile.user_type u) super_admin)
                              filteredUsers))%nat
  /\ (forall users searchTerm statusFilter,
        filteredUsers = UserFilters.filterUsers users searchTerm "public" statusFilter ->
        UserFilters.publicUsers filteredUsers = filteredUsers
        /\ UserFilters.staffUsers filteredUsers = []).
Proof.
  split; [|split].
  - intros u Hp Hs. unfold UserFilters.publicUsers, UserFilters.staffUsers in *.
    apply filter_In in Hp, Hs. destruct Hp as (_ & Hp), Hs as (_ & Hs).
    destruct (UserProfile.user_type u); discriminate.
  - unfold UserFilters.publicUsers, UserFilters.staffUsers.
    induction filteredUsers as [|u l IH]; [reflexivity|].
    cbn [filter List.length]. rewrite IH.
    destruct (UserProfile.user_type u); cbn; lia.
  - intros users t st ->.
    assert (H : forall u, In u (UserFilters.filterUsers users t "public" st) ->
                          UserProfile.user_type u = public).
    { intros u Hu. unfold UserFilters.filterUsers in Hu. cbn [String.eqb Ascii.eqb Bool.eqb negb] in Hu.
      assert (Hin : In u (filter (fun user => (UserFilters.UserType_name (UserProfile.user_type user) =? "public")%string)
                                 (if Js.truthy t then filter (UserFilters.matchesSearch t) users else users))).
      { destruct (st =? "active")%string; [apply filter_In in Hu; tauto|].
        destruct (st =? "suspended")%string; [apply filter_In in Hu; tauto | exact Hu]. }
      apply filter_In in Hin. destruct Hin as (_ & Hin).
      destruct (UserProfile.user_type u); [reflexivity | discriminate ..]. }
    split.
    + apply filter_all. intros u Hu. rewrite (H u Hu). reflexivity.
    + apply filter_none. intros u Hu. rewrite (H u Hu). reflexivity.
Qed.

Lemma tabs_split_the_shown_users_witness :
  UserFilters.publicUsers
    (UserFilters.filterUsers [Sample.root; Sample.clerk; Sample.citizen] "" "public" "all")
  = UserFilters.filterUsers [Sample.root; Sample.clerk; Sample.citizen] "" "public" "all"
  /\ UserFilters.staffUsers
       (UserFilters.filterUsers [Sample.root; Sample.clerk; Sample.citizen] "" "public" "all")
     = [].
Proof.
  exact (proj2 (proj2 (tabs_split_the_shown_users
           (UserFilters.filterUsers [Sample.root; Sample.clerk; Sample.citizen] "" "public" "all")))
           [Sample.root; Sample.clerk; Sample.citizen] "" "all" eq_refl).
Defined.

(** ** Deleting a document, to the end *)

(** X9.  A deletion that stops half way.  When the object store removes
    the blob and the record store then rejects the deletion of the record,
    [handleDelete] leaves the record in the table although its blob is
    gone: the list on screen is not refreshed, the other blobs are kept,
    and the failure is logged and displayed. *)
Theorem handleDelete_leaves_record_without_blob
  (user : option User.t) (fileId : Id) (filePath : string)
  (s : Session DocumentManagement.State) :
  let w := world s in
  let s' := after (DocumentManagement.handleDelete user fileId filePath) s in
  outage w (List.length (history w)) = false ->
  outage w (S (List.length (history w))) = true ->
  documents (world s') = documents w
  /\ ~ In filePath (blobs (world s'))
  /\ (forall key, key <> filePath -> In key (blobs w) -> In key (blobs (world s')))
  /\ List.map request (skipn (List.length (history w)) (history (world s')))
     = [StorageRemove [filePath]; DeleteDocument fileId]
  /\ component s' = component s
  /\ toasts s' = toasts s ++ [DocumentManagement.deletionFailed]
  /\ console s' = console s ++ [("Error deleting file:" ++ " " ++ Backend.rejected)%string].
Proof.
  intros w s' H0 H1. subst s'.
  unfold DocumentManagement.handleDelete.
  unfold Backend.storage_remove, Backend.delete_document. run.
  unfold Backend.down. fold w. rewrite H0. cbn.
  rewrite length_app. cbn. rewrite Nat.add_1_r. fold w. rewrite H1. cbn.
  split; [reflexivity|]. split; [apply filter_removes_key|]. split.
  - intros key Hk Hin. apply filter_In. split; [exact Hin|].
    cbn. apply String.eqb_neq in Hk. rewrite Hk. reflexivity.
  - split; [|auto].
    rewrite <- app_assoc. rewrite skipn_app, skipn_all, Nat.sub_diag. reflexivity.
Qed.

Lemma handleDelete_leaves_record_without_blob_witness :
  documents (world (after (DocumentManagement.handleDelete (Some Sample.alice) 4%nat "1/plan.pdf")
                          (Sample.session (Sample.down_at 1) Sample.fileList)))
  = [Sample.plan; Sample.survey]
  /\ ~ In "1/plan.pdf"
        (blobs (world (after (DocumentManagement.handleDelete (Some Sample.alice) 4%nat "1/plan.pdf")
                             (Sample.session (Sample.down_at 1) Sample.fileList)))).
Proof.
  pose proof (handleDelete_leaves_record_without_blob (Some Sample.alice) 4%nat "1/plan.pdf"
                (Sample.session (Sample.down_at 1) Sample.fileList) eq_refl eq_refl)
    as (Hd & Hb & _).
  split; [exact Hd | exact Hb].
Defined.

(** X10.  A deletion that goes through.  When the removal of the blob and
    the deletion of the record are accepted, the table has lost exactly
    the rows with that id and the bucket exactly that key, and the success
    notice is displayed last.  If the read that follows is accepted too,
    the list on screen is the signed-in user's remaining documents, newest
    first, without the deleted one; if that read is rejected the list is
    the old one, and the load failure is displayed before the success. *)
Theorem handleDelete_round_trip
  (u : User.t) (fileId : Id) (filePath : string)
  (s : Session DocumentManagement.State) :
  let w := world s in
  let s' := after (DocumentManagement.handleDelete (Some u) fileId filePath) s in
  let mine := fun d => (Document.user_id (Document.fields d) =? User.id u)%nat in
  outage w (List.length (history w)) = false ->
  outage w (S (List.length (history w))) = false ->
  (forall d, In d (documents (world s')) <-> In d (documents w) /\ Document.id d <> fileId)
  /\ (forall key, In key (blobs (world s')) <-> In key (blobs w) /\ key <> filePath)
  /\ DocumentManagement.loading (component s') = false
  /\ (outage w (S (S (List.length (history w)))) = false ->
      DocumentManagement.files (component s')
      = Backend.order_desc Document.uploaded_at (filter mine (documents (world s')))
      /\ (forall d, In d (DocumentManagement.files (component s')) <->
                    In d (documents w) /\ mine d = true /\ Document.id d <> fileId)
      /\ toasts s' = toasts s ++ [DocumentManagement.fileDeleted])
  /\ (outage w (S (S (List.length (history w)))) = true ->
      DocumentManagement.files (component s') = DocumentManagement.files (component s)
      /\ toasts s' = toasts s ++ [DocumentManagement.loadFailed; DocumentManagement.fileDeleted]).
Proof.
  intros w s' mine H0 H1. subst s'.
  assert (Hdocs : forall d,
            In d (filter (fun d => negb (Document.id d =? fileId)%nat) (documents w))
            <-> In d (documents w) /\ Document.id d <> fileId).
  { intros d. rewrite filter_In, negb_true_iff, Nat.eqb_neq. reflexivity. }
  assert (Hblobs : forall key,
            In key (filter (fun k => negb (existsb (String.eqb k) [filePath])) (blobs w))
            <-> In key (blobs w) /\ key <> filePath).
  { intros key. rewrite filter_In. cbn. rewrite orb_false_r, negb_true_iff, String.eqb_neq.
    reflexivity. }
  unfold DocumentManagement.handleDelete, DocumentManagement.fetchDocuments.
  unfold Backend.storage_remove, Backend.delete_document, Backend.select_documents. run.
  unfold Backend.down. fold w. rewrite H0. cbn.
  rewrite length_app. cbn. rewrite Nat.add_1_r. fold w. rewrite H1. cbn.
  rewrite !length_app. cbn. rewrite !Nat.add_1_r. fold w.
  destruct (outage w (S (S (List.length (history w))))) eqn:H2; cbn.
  - split; [exact Hdocs|]. split; [exact Hblobs|]. split; [reflexivity|].
    split; [discriminate|]. intros _. split; [reflexivity|].
    rewrite <- app_assoc. reflexivity.
  - split; [exact Hdocs|]. split; [exact Hblobs|]. split; [reflexivity|].
    split; [|discriminate]. intros _. split; [reflexivity|]. split; [|reflexivity].
    intros d. rewrite order_desc_In, filter_In, Hdocs. fold (mine d). tauto.
Qed.

Lemma handleDelete_round_trip_witness :
  DocumentManagement.files
    (component (after (DocumentManagement.handleDelete (Some Sample.alice) 4%nat "1/plan.pdf")
                      (Sample.session Sample.always_up Sample.fileList)))
  = [Sample.survey].
Proof.
  pose proof (handleDelete_round_trip Sample.alice 4%nat "1/plan.pdf"
                (Sample.session Sample.always_up Sample.fileList) eq_refl eq_refl)
    as (_ & _ & _ & Hok & _).
  destruct (Hok eq_refl) as (Hfiles & _).
  rewrite Hfiles. reflexivity.
Defined.

(** ** The side bar of the document browser *)






(** ** The form around a submission *)

(** X12.  The form state after [handleSubmit] when no draft is pending.
    Whatever the documents hook is, it is not called.  A submission refused
    at a guard leaves the component and the backend untouched.  A
    submission the store rejects keeps the form as filled in, so that it
    can be sent again, and ends with the submitting flag down.  A
    submission the store accepts records the new intent and its id, shows
    the success notice alone, empties the six fields and ends with the
    submitting flag down; the new row is the last of the table and its
    status is pending. *)
Theorem handleSubmit_form_state (engine : Js.Engine)
  (hook : IntentRegistrationNew.DocumentsHook) (user : option User.t)
  (s : Session IntentRegistrationNew.State) :
  let c := component s in
  let w := world s in
  let s' := after (IntentRegistrationNew.handleSubmit engine hook user) s in
  let c' := component s' in
  let refused :=
    Js.date_ge (Js.Date_parse engine (IntentRegistrationNew.commencement_date
                                 (IntentRegistrationNew.formData c)))
               (Js.Date_parse engine (IntentRegistrationNew.completion_date
                                 (IntentRegistrationNew.formData c))) in
  IntentRegistrationNew.pendingDocuments c = [] ->
  (forall hook', IntentRegistrationNew.handleSubmit engine hook' user s
                 = IntentRegistrationNew.handleSubmit engine hook user s)
  /\ (user = None \/ refused = true -> c' = c /\ world s' = w)
  /\ (forall u, user = Some u -> refused = false ->
        IntentRegistrationNew.submitting c' = false
        /\ IntentRegistrationNew.pendingDocuments c' = []
        /\ (Backend.down w = true ->
            c' = IntentRegistrationNew.setSubmitting false c
            /\ intent_registrations (world s') = intent_registrations w
            /\ toasts s' = toasts s ++ [IntentRegistrationNew.submissionFailed])
        /\ (Backend.down w = false ->
            IntentRegistrationNew.formData c' = IntentRegistrationNew.emptyForm
            /\ IntentRegistrationNew.submittedIntentId c'
               = Some (Intent.id (insertedIntent u s))
            /\ IntentRegistrationNew.currentIntent c' = Some (insertedIntent u s)
            /\ intent_registrations (world s') = intent_registrations w ++ [insertedIntent u s]
            /\ Intent.status (Intent.fields (insertedIntent u s)) = "pending"
            /\ ~ In (Intent.id (insertedIntent u s)) (map Intent.id (intent_registrations w))
            /\ toasts s' = toasts s ++ [IntentRegistrationNew.submitted]
            /\ console s' = console s)).
Proof.
  intros c w s' c' refused Hp. subst s' c'.
  assert (Hrun : forall h,
            IntentRegistrationNew.handleSubmit engine h user s
            = match user with
              | None => (Done tt, notified IntentRegistrationNew.authenticationRequired s)
              | Some u =>
                  if refused then (Done tt, notified IntentRegistrationNew.invalidDates s)
                  else if Backend.down w
                  then (Done tt,
                        {| world := Backend.set_history (history w ++ [intentEvent u s]) w;
                           toasts := toasts s ++ [IntentRegistrationNew.submissionFailed];
                           console := console s
                             ++ ["Error submitting intent registration: " ++ Backend.rejected]%string;
                           component := IntentRegistrationNew.setSubmitting false c |})
                  else (Done tt,
                        {| world := Backend.record
                                      (InsertIntent (IntentRegistrationNew.intentPayload u
                                                       (IntentRegistrationNew.formData c)))
                                      true
                                      (Backend.set_intent_registrations
                                         (intent_registrations w ++ [insertedIntent u s]) w);
                           toasts := toasts s ++ [IntentRegistrationNew.submitted];
                           console := console s;
                           component :=
                             IntentRegistrationNew.setSubmitting false
                               (IntentRegistrationNew.setFormData IntentRegistrationNew.emptyForm
                                  (IntentRegistrationNew.setCurrentIntent
                                     (Some (insertedIntent u s))
                                     (IntentRegistrationNew.setSubmittedIntentId
                                        (Some (Intent.id (insertedIntent u s)))
                                        (IntentRegistrationNew.setSubmitting true c)))) |})
              end).
  { intros h. unfold IntentRegistrationNew.handleSubmit.
    unfold bind at 1, get_component at 1. cbv beta iota.
    destruct user as [u|]; [|reflexivity].
    fold c. fold refused. destruct refused; [reflexivity|].
    rewrite Hp. unfold Backend.insert_intent, intentEvent, insertedIntent. run.
    fold w c. destruct (Backend.down w); reflexivity. }
  split; [intros h'; now rewrite !Hrun|].
  unfold after. rewrite (Hrun hook). split.
  - intros [-> | Hr]; [split; reflexivity|].
    destruct user; [rewrite Hr|]; split; reflexivity.
  - intros u -> Hr. rewrite Hr.
    destruct (Backend.down w) eqn:Hd; cbn.
    + split; [reflexivity|]. split; [exact Hp|]. split; [auto | discriminate].
    + split; [reflexivity|]. split; [exact Hp|]. split; [discriminate|]. intros _.
      repeat split.
      intros Hin.
      pose proof (proj1 (list_max_le (map Intent.id (intent_registrations w))
                           (list_max (map Intent.id (intent_registrations w))))
                        (Nat.le_refl _)) as Hall.
      rewrite Forall_forall in Hall. apply Hall in Hin.
      unfold Backend.fresh in Hin. fold w in Hin. lia.
Qed.

Lemma handleSubmit_form_state_witness :
  IntentRegistrationNew.formData
    (component (after (IntentRegistrationNew.handleSubmit Sample.strict
                         (IntentRegistrationNew.useDocuments (Some Sample.alice))
                         (Some Sample.alice))
                      (Sample.session Sample.always_up
                         (Sample.intentForm "2024-01-01" "2024-06-30" []))))
  = IntentRegistrationNew.emptyForm
  /\ IntentRegistrationNew.formData
       (component (after (IntentRegistrationNew.handleSubmit Sample.strict
                            (IntentRegistrationNew.useDocuments (Some Sample.alice))
                            (Some Sample.alice))
                         (Sample.session Sample.always_down
                            (Sample.intentForm "2024-01-01" "2024-06-30" []))))
     = Sample.form "2024-01-01" "2024-06-30".
Proof.
  split.
  - pose proof (handleSubmit_form_state Sample.strict
                  (IntentRegistrationNew.useDocuments (Some Sample.alice)) (Some Sample.alice)
                  (Sample.session Sample.always_up
                     (Sample.intentForm "2024-01-01" "2024-06-30" [])) eq_refl)
      as (_ & _ & H).
    destruct (H Sample.alice eq_refl eq_refl) as (_ & _ & _ & Hup).
    exact (proj1 (Hup eq_refl)).
  - pose proof (handleSubmit_form_state Sample.strict
                  (IntentRegistrationNew.useDocuments (Some Sample.alice)) (Some Sample.alice)
                  (Sample.session Sample.always_down
                     (Sample.intentForm "2024-01-01" "2024-06-30" [])) eq_refl)
      as (_ & _ & H).
    destruct (H Sample.alice eq_refl eq_refl) as (_ & _ & Hdown & _).
    rewrite (proj1 (Hdown eq_refl)). reflexivity.
Defined.

(** ** The activity feed on screen *)

(** X13.  The button of an activity card.  For every item of the feed: an
    application shows "Continue Draft" when it is a draft and "Respond to
    Feedback" when it requires clarification, both leading to the permits
    tab, and no button in any other status; an invoice shows "View
    Invoice", leading to the invoices tab, exactly when its payment is
    pending; a notification never shows a button.  No item of the feed is
    of the document type. *)
Theorem feed_action_buttons (user : User.t) (s : Session PublicDashboard.State)
        (a : RecentActivity.t) :
  In a (feed user s) ->
  match RecentActivity.type a with
  | application =>
      ActivityCard.actionButton a
      = if String.eqb (RecentActivity.status a) "draft"
        then Some ("Continue Draft", "permits")
        else if String.eqb (RecentActivity.status a) "requires_clarification"
        then Some ("Respond to Feedback", "permits")
        else None
  | invoice =>
      ActivityCard.actionButton a
      = if String.eqb (RecentActivity.status a) "pending"
        then Some ("View Invoice", "invoices")
        else None
  | notification => ActivityCard.actionButton a = None
  | document => False
  end.
Proof.
  intros H. apply feed_from_sources, merged_origin in H.
  destruct H as [(row & _ & ->) | [(row & _ & ->) | (row & _ & ->)]];
    unfold ActivityCard.actionButton; cbn.
  - destruct (String.eqb (Application.status row) "draft"); [reflexivity|].
    destruct (String.eqb (Application.status row) "requires_clarification"); reflexivity.
  - destruct (String.eqb (Invoice.payment_status row) "pending"); reflexivity.
  - reflexivity.
Qed.

Lemma feed_action_buttons_witness :
  ActivityCard.actionButton (PublicDashboard.ofApplication (Sample.app 1%nat "draft" 3000))
  = Some ("Continue Draft", "permits").
Proof.
  apply (feed_action_buttons Sample.alice (Sample.dashboard Sample.always_up)
           (PublicDashboard.ofApplication (Sample.app 1%nat "draft" 3000))).
  vm_compute. tauto.
Defined.

(** X14.  The feed shows the signed-in user's own rows only.  Every item
    of the feed stems from a row of the store that belongs to the user: an
    application of theirs that has at least one initial assessment (the
    inner join leaves the others out), an invoice of theirs, or a
    notification of theirs; the item carries that row's id and time. *)
Theorem feed_shows_own_rows (user : User.t) (s : Session PublicDashboard.State)
        (a : RecentActivity.t) :
  let w := world s in
  In a (feed user s) ->
  (RecentActivity.type a = application
   /\ exists row, In row (permit_applications w)
        /\ Application.user_id row = User.id user
        /\ Application.initial_assessments row <> []
        /\ RecentActivity.id a = Application.id row
        /\ RecentActivity.timestamp a = Application.updated_at row
        /\ RecentActivity.status a = Application.status row)
  \/ (RecentActivity.type a = invoice
      /\ exists row, In row (invoices w)
           /\ Invoice.user_id row = User.id user
           /\ RecentActivity.id a = Invoice.id row
           /\ RecentActivity.timestamp a = Invoice.updated_at row
           /\ RecentActivity.status a = Invoice.payment_status row)
  \/ (RecentActivity.type a = notification
      /\ exists row, In row (notifications w)
           /\ Notification.user_id row = User.id user
           /\ RecentActivity.id a = Notification.id row
           /\ RecentActivity.timestamp a = Notification.created_at row).
Proof.
  intros w H. apply feed_from_sources, merged_origin in H. fold w in H.
  destruct H as [(row & Hrow & ->) | [(row & Hrow & ->) | (row & Hrow & ->)]].
  - left. split; [reflexivity|]. exists row.
    apply recent_In in Hrow. destruct Hrow as (Hin & Hp).
    apply andb_true_iff in Hp. destruct Hp as (Hu & Hn).
    apply Nat.eqb_eq in Hu. apply negb_true_iff, Nat.eqb_neq in Hn.
    repeat split; auto. intros E. rewrite E in Hn. apply Hn. reflexivity.
  - right. left. split; [reflexivity|]. exists row.
    apply recent_In in Hrow. destruct Hrow as (Hin & Hu). apply Nat.eqb_eq in Hu.
    repeat split; auto.
  - right. right. split; [reflexivity|]. exists row.
    apply recent_In in Hrow. destruct Hrow as (Hin & Hu). apply Nat.eqb_eq in Hu.
    repeat split; auto.
Qed.

Lemma feed_shows_own_rows_witness :
  exists a, In a (feed Sample.alice (Sample.dashboard Sample.always_up))
            /\ RecentActivity.type a = application
            /\ RecentActivity.id a = 2%nat.
Proof.
  exists (PublicDashboard.ofApplication (Sample.app 2%nat "approved" 7000)).
  assert (Hin : In (PublicDashboard.ofApplication (Sample.app 2%nat "approved" 7000))
                   (feed Sample.alice (Sample.dashboard Sample.always_up)))
    by (vm_compute; tauto).
  split; [exact Hin|].
  destruct (feed_shows_own_rows Sample.alice (Sample.dashboard Sample.always_up) _ Hin)
    as [(Ht & _) | [(Ht & _) | (Ht & _)]]; [|discriminate Ht ..].
  split; [exact Ht | reflexivity].
Defined.

Lemma insert_by_related {A} (R : A -> A -> Prop) (cmp : A -> A -> Z) :
  (forall x y a b, R x y -> R a b -> cmp x a = cmp y b) ->
  forall x y l l', R x y -> Forall2 R l l' ->
    Forall2 R (Js.insert_by cmp x l) (Js.insert_by cmp y l').
Proof.
  intros Hcmp x y l l' Hxy H. induction H as [|a b l l' Hab Hl IH]; cbn.
  - constructor; [exact Hxy | constructor].
  - rewrite (Hcmp x y a b Hxy Hab).
    destruct (0 <? cmp y b); constructor; try assumption.
    constructor; assumption.
Qed.

Lemma sort_related {A} (R : A -> A -> Prop) (cmp : A -> A -> Z) :
  (forall x y a b, R x y -> R a b -> cmp x a = cmp y b) ->
  forall l l', Forall2 R l l' -> Forall2 R (Js.sort cmp l) (Js.sort cmp l').
Proof.
  intros Hcmp l l' H. unfold Js.sort.
  induction H as [|a b l l' Hab Hl IH]; cbn; [constructor|].
  apply insert_by_related; assumption.
Qed.

Lemma firstn_related {A} (R : A -> A -> Prop) (n : nat) (l l' : list A) :
  Forall2 R l l' -> Forall2 R (firstn n l) (firstn n l').
Proof.
  intros H. revert n. induction H as [|a b l l' Hab Hl IH]; intros [|n]; cbn;
    constructor; auto.
Qed.

Lemma same_but_overdue_refl (a : RecentActivity.t) : same_but_overdue a a.
Proof. unfold same_but_overdue. repeat split. left. reflexivity. Qed.

Lemma ofInvoice_later (today d : Z) (i : Invoice.t) :
  0 <= d ->
  same_but_overdue (PublicDashboard.ofInvoice today i)
                   (PublicDashboard.ofInvoice (today + d) i).
Proof.
  intros Hd. unfold same_but_overdue, PublicDashboard.ofInvoice. cbn.
  repeat (split; [reflexivity|]).
  destruct (String.eqb (Invoice.payment_status i) "pending") eqn:Ep.
  - apply String.eqb_eq in Ep.
    destruct (Invoice.due_date i <? today + d) eqn:E2; cbn.
    + right. auto.
    + left. apply Z.ltb_ge in E2.
      destruct (Z.ltb_spec (Invoice.due_date i) today); [lia | reflexivity].
  - left. rewrite !andb_false_r. reflexivity.
Qed.

(** The feed when the three reads are answered. *)
Lemma feed_all_answered (user : User.t) (s : Session PublicDashboard.State) :
  (forall n, outage (world s) n = false) ->
  feed user s
  = Js.slice0 6
      (Js.sort PublicDashboard.newestFirst
         (map PublicDashboard.ofApplication
              (Backend.recent_applications (User.id user) (world s))
          ++ map (PublicDashboard.ofInvoice (now (world s)))
                 (Backend.recent_invoices (User.id user) (world s))
          ++ map PublicDashboard.ofNotification
                 (Backend.recent_notifications (User.id user) (world s)))).
Proof.
  intros Hup. destruct (fetchRecentActivities_runs user s) as (e1 & e2 & e3 & E & _).
  unfold feed, after. rewrite E. cbn [snd component PublicDashboard.recentActivities
                                      PublicDashboard.setRecentActivities].
  unfold merged, applicationsPart, invoicesPart, notificationsPart.
  rewrite !Hup. reflexivity.
Qed.

(** X15.  Refreshing the feed changes nothing in the store, and a later
    refresh shows the same items.  A run of [fetchRecentActivities] sends
    three reads and nothing else: every table, the bucket, the notices and
    the log are as before.  When the store answers every request, a second
    run any time later yields the same items in the same order, equal in
    everything but possibly the title: the title of a pending invoice
    becomes "Overdue Payment" once its due date has passed.  When no
    pending invoice of the user fell due in between, the two feeds are
    equal. *)
Theorem fetchRecentActivities_repeatable (user : User.t) (s : Session PublicDashboard.State) :
  let w := world s in
  let s' := after (PublicDashboard.fetchRecentActivities user) s in
  (exists e1 e2 e3,
     world s' = Backend.set_history (history w ++ [e1; e2; e3]) w
     /\ map request [e1; e2; e3]
        = [SelectApplications (User.id user); SelectInvoices (User.id user);
           SelectNotifications (User.id user)])
  /\ writes (world s') = writes w
  /\ toasts s' = toasts s
  /\ console s' = console s
  /\ (forall d, 0 <= d -> (forall n, outage w n = false) ->
        Forall2 same_but_overdue (feed user s) (feed user (later d s'))
        /\ ((forall i, In i (invoicesOf user w) ->
               Invoice.payment_status i = "pending" ->
               (Invoice.due_date i <? now w + d) = (Invoice.due_date i <? now w)) ->
            feed user (later d s') = feed user s)).
Proof.
  intros w s'. subst s'.
  destruct (fetchRecentActivities_runs user s) as (e1 & e2 & e3 & E & R1 & R2 & R3).
  unfold after. rewrite E. cbn [snd world toasts console].
  split; [exists e1, e2, e3; split; [reflexivity | cbn; now rewrite R1, R2, R3]|].
  split.
  { unfold writes. cbn. rewrite map_app, filter_app. cbn. rewrite R1, R2, R3. cbn.
    apply app_nil_r. }
  split; [reflexivity|]. split; [reflexivity|].
  intros d Hd Hup.
  rewrite (feed_all_answered user s Hup).
  rewrite feed_all_answered by (intros n; cbn; apply Hup).
  unfold later, Backend.recent_applications, Backend.recent_invoices,
    Backend.recent_notifications.
  cbn [world now permit_applications invoices notifications Backend.set_history].
  fold w. fold (Backend.recent_applications (User.id user) w).
  fold (Backend.recent_invoices (User.id user) w).
  fold (Backend.recent_notifications (User.id user) w).
  split.
  - unfold Js.slice0. apply firstn_related, sort_related.
    + intros x y a b Hxy Hab. unfold PublicDashboard.newestFirst.
      destruct Hxy as (_ & _ & _ & _ & -> & _), Hab as (_ & _ & _ & _ & -> & _).
      reflexivity.
    + repeat apply Forall2_app.
      * induction (Backend.recent_applications (User.id user) w); cbn; constructor;
          [apply same_but_overdue_refl | assumption].
      * induction (Backend.recent_invoices (User.id user) w); cbn; constructor;
          [apply ofInvoice_later, Hd | assumption].
      * induction (Backend.recent_notifications (User.id user) w); cbn; constructor;
          [apply same_but_overdue_refl | assumption].
  - intros Hsame. f_equal. f_equal. f_equal. f_equal.
    apply map_ext_in. intros i Hi.
    apply recent_In in Hi. destruct Hi as (Hin & Hu).
    unfold PublicDashboard.ofInvoice.
    destruct (String.eqb (Invoice.payment_status i) "pending") eqn:Ep.
    + apply String.eqb_eq in Ep.
      rewrite (Hsame i); [reflexivity | apply filter_In; split; assumption | exact Ep].
    + rewrite !andb_false_r. reflexivity.
Qed.

Lemma fetchRecentActivities_repeatable_witness :
  Forall2 same_but_overdue
          (feed Sample.alice Sample.falling_due)
          (feed Sample.alice
                (later 1000 (after (PublicDashboard.fetchRecentActivities Sample.alice)
                                   Sample.falling_due)))
  /\ map RecentActivity.title (feed Sample.alice Sample.falling_due) = ["Invoice pending"]
  /\ map RecentActivity.title
         (feed Sample.alice
               (later 1000 (after (PublicDashboard.fetchRecentActivities Sample.alice)
                                  Sample.falling_due)))
     = ["Overdue Payment"]
  /\ feed Sample.alice
          (later 100 (after (PublicDashboard.fetchRecentActivities Sample.alice)
                            Sample.falling_due))
     = feed Sample.alice Sample.falling_due.
Proof.
  pose proof (fetchRecentActivities_repeatable Sample.alice Sample.falling_due)
    as (_ & _ & _ & _ & H).
  split; [|split; [|split]].
  - apply (H 1000); [lia | intros n; reflexivity].
  - reflexivity.
  - reflexivity.
  - apply (H 100); [lia | intros n; reflexivity|].
    intros i [<- | []] _. reflexivity.
Defined.

(** ** The counters of the dashboard *)

Lemma totalPending_from (invoices : list (option Z)) (start : Z) :
  fold_left (fun sum amount => sum + match amount with Some a => a | None => 0 end)
            invoices start
  = start + fold_right Z.add 0 (map (fun amount => match amount with
                                                   | Some a => a
                                                   | None => 0
                                                   end) invoices).
Proof.
  revert start. induction invoices as [|x l IH]; intros start; cbn; [lia|].
  rewrite IH. lia.
Qed.

(** X16.  The four counters are set together or not at all.  Whatever the
    four reads answer, [fetchDashboardStats] ends normally with the
    loading flag down and displays nothing.  If one of them fails, the
    counters keep their former values and the first failure, in the order
    of the requests, is the one logged.  If all four succeed, the counters
    are the numbers of rows returned and the pending amount is the sum of
    the invoice amounts, a missing amount counting for nothing. *)
Theorem fetchDashboardStats_all_or_nothing
  (toLocaleString : Z -> string) (answers : DashboardCounters.Answers)
  (s : Session DashboardCounters.State) :
  let run := DashboardCounters.fetchDashboardStats toLocaleString answers in
  let s' := after run s in
  let firstError :=
    match DashboardCounters.activeApps answers, DashboardCounters.approvedApps answers,
          DashboardCounters.invoices answers, DashboardCounters.documents answers with
    | Error e, _, _, _ => Some e
    | Data _, Error e, _, _ => Some e
    | Data _, Data _, Error e, _ => Some e
    | Data _, Data _, Data _, Error e => Some e
    | Data _, Data _, Data _, Data _ => None
    end in
  fst (run s) = Done tt
  /\ DashboardCounters.loading (component s') = false
  /\ toasts s' = toasts s
  /\ (forall e, firstError = Some e ->
        DashboardCounters.stats (component s') = DashboardCounters.stats (component s)
        /\ console s' = console s ++ [("Error fetching dashboard stats:" ++ " " ++ e)%string])
  /\ (forall active approved amounts docs,
        DashboardCounters.activeApps answers = Data active ->
        DashboardCounters.approvedApps answers = Data approved ->
        DashboardCounters.invoices answers = Data amounts ->
        DashboardCounters.documents answers = Data docs ->
        DashboardCounters.stats (component s')
        = {| DashboardCounters.activeApplications := List.length active;
             DashboardCounters.approvedPermits := List.length approved;
             DashboardCounters.pendingPayments :=
               ("K" ++ toLocaleString
                         (fold_right Z.add 0
                            (map (fun amount => match amount with
                                                | Some a => a
                                                | None => 0
                                                end) amounts)))%string;
             DashboardCounters.documentsCount := List.length docs |}
        /\ console s' = console s).
Proof.
  intros run0 s' firstError. subst run0 s' firstError.
  unfold DashboardCounters.fetchDashboardStats, DashboardCounters.orThrow.
  destruct answers as [a1 a2 a3 a4]. cbn [DashboardCounters.activeApps
    DashboardCounters.approvedApps DashboardCounters.invoices DashboardCounters.documents].
  destruct a1 as [r1|e1]; [destruct a2 as [r2|e2]; [destruct a3 as [r3|e3];
    [destruct a4 as [r4|e4]|]|]|]; run;
    (split; [reflexivity|]); (split; [reflexivity|]); (split; [reflexivity|]); split;
    try (intros e He; injection He as <-; split; reflexivity);
    try discriminate;
    try (intros ? ? ? ? ? ? ? ?; discriminate).
  intros active approved amounts docs [= <-] [= <-] [= <-] [= <-].
  split; [|reflexivity].
  unfold DashboardCounters.totalPending. rewrite totalPending_from. reflexivity.
Qed.

Lemma fetchDashboardStats_all_or_nothing_witness :
  DashboardCounters.stats
    (component
       (after (DashboardCounters.fetchDashboardStats Js.of_Z
                 {| DashboardCounters.activeApps := Data [1%nat; 2%nat];
                    DashboardCounters.approvedApps := Data [3%nat];
                    DashboardCounters.invoices := Error "timeout";
                    DashboardCounters.documents := Data [] |})
              {| world := Sample.busy Sample.always_up; toasts := []; console := [];
                 component := DashboardCounters.initialState |}))
  = DashboardCounters.stats DashboardCounters.initialState.
Proof.
  pose proof (fetchDashboardStats_all_or_nothing Js.of_Z
                {| DashboardCounters.activeApps := Data [1%nat; 2%nat];
                   DashboardCounters.approvedApps := Data [3%nat];
                   DashboardCounters.invoices := Error "timeout";
                   DashboardCounters.documents := Data [] |}
                {| world := Sample.busy Sample.always_up; toasts := []; console := [];
                   component := DashboardCounters.initialState |})
    as (_ & _ & _ & H & _).
  exact (proj1 (H "timeout" eq_refl)).
Defined.

(** ** Paging *)

Lemma firstn_min_length {A} (n : nat) (x : list A) :
  firstn (Nat.min n (List.length x)) x = firstn n x.
Proof.
  destruct (Nat.le_gt_cases n (List.length x)) as [H|H].
  - now rewrite Nat.min_l.
  - rewrite Nat.min_r by lia. rewrite firstn_all, firstn_all2 by lia. reflexivity.
Qed.

Lemma firstn_plus {A} (a b : nat) (l : list A) :
  firstn (a + b) l = firstn a l ++ firstn b (skipn a l).
Proof.
  revert l. induction a as [|a IH]; intros l; [reflexivity|].
  destruct l as [|x l]; cbn; [now rewrite firstn_nil | now rewrite IH].
Qed.

(** A page within the numbering is the next ten rows. *)
Lemma paginated_chunk {A} (l : list A) (i : nat) :
  Paging.paginated l (Z.of_nat (S i)) = firstn 10 (skipn (10 * i) l).
Proof.
  unfold Paging.paginated, JsText.slice, Paging.endIndex, Paging.startIndex,
    JsText.relativeIndex, Paging.ITEMS_PER_PAGE.
  set (len := Z.of_nat (List.length l)).
  destruct (Z.ltb_spec ((Z.of_nat (S i) - 1) * 10) 0) as [H|_]; [lia|].
  destruct (Z.ltb_spec ((Z.of_nat (S i) - 1) * 10 + 10) 0) as [H|_]; [lia|].
  destruct (Z.le_gt_cases (10 * Z.of_nat i) len) as [H|H].
  - replace (Z.to_nat (Z.min ((Z.of_nat (S i) - 1) * 10) len)) with (10 * i)%nat by lia.
    rewrite <- (firstn_min_length 10). f_equal.
    rewrite length_skipn. subst len. lia.
  - replace (Z.to_nat (Z.min ((Z.of_nat (S i) - 1) * 10) len)) with (List.length l)
      by (subst len; lia).
    rewrite skipn_all, (skipn_all2 l) by (subst len; lia).
    now rewrite !firstn_nil.
Qed.

Lemma pages_up_to {A} (l : list A) (n : nat) :
  List.concat (map (fun i => Paging.paginated l (Z.of_nat i)) (seq 1 n)) = firstn (10 * n) l.
Proof.
  induction n as [|n IH]; [reflexivity|].
  rewrite seq_S, map_app, concat_app, IH. cbn [map List.concat Nat.add].
  rewrite paginated_chunk, app_nil_r.
  replace (10 * S n)%nat with (10 * n + 10)%nat by lia.
  now rewrite firstn_plus.
Qed.

Lemma totalPages_bounds (count : nat) :
  let n := Paging.totalPages count in
  0 <= n /\ Z.of_nat count <= 10 * n /\ (0 < n -> 10 * (n - 1) < Z.of_nat count).
Proof.
  unfold Paging.totalPages, JsText.ceilDiv, Paging.ITEMS_PER_PAGE. cbn zeta.
  Z.to_euclidean_division_equations. lia.
Qed.

(** X17.  The pages of a list view.  Read in order, pages 1 to the page
    count give back the filtered list, nothing lost, repeated or
    reordered.  Every page within the count is non-empty, holds at most
    ten rows, and holds as many rows as the "Showing a-b" line announces;
    from it the Previous and Next buttons lead to a page within the count.
    A page number beyond the count, as left behind when the list becomes
    shorter, shows no rows. *)
Theorem pages_cover_the_list {A} (filtered : list A) :
  let n := Paging.totalPages (List.length filtered) in
  List.concat (map (fun i => Paging.paginated filtered (Z.of_nat i)) (seq 1 (Z.to_nat n)))
  = filtered
  /\ (forall currentPage, 1 <= currentPage <= n ->
        Paging.paginated filtered currentPage <> []
        /\ (List.length (Paging.paginated filtered currentPage) <= 10)%nat
        /\ Z.of_nat (List.length (Paging.paginated filtered currentPage))
           = Paging.showingTo filtered currentPage - Paging.showingFrom currentPage + 1
        /\ 1 <= Paging.previousPage currentPage <= n
        /\ 1 <= Paging.nextPage n currentPage <= n)
  /\ (forall currentPage, n < currentPage -> Paging.paginated filtered currentPage = []).
Proof.
  intros n. pose proof (totalPages_bounds (List.length filtered)) as (Hn0 & Hup & Hlow).
  fold n in Hn0, Hup, Hlow.
  split; [|split].
  - rewrite pages_up_to. apply firstn_all2. lia.
  - intros p Hp.
    assert (Hlen : List.length (Paging.paginated filtered p)
                   = Nat.min 10 (List.length filtered - 10 * Z.to_nat (p - 1))).
    { replace p with (Z.of_nat (S (Z.to_nat (p - 1)))) at 1 by lia.
      rewrite paginated_chunk, length_firstn, length_skipn. reflexivity. }
    split; [|split; [|split; [|split]]].
    + intros E. rewrite E in Hlen. cbn [List.length] in Hlen. lia.
    + lia.
    + unfold Paging.showingTo, Paging.showingFrom, Paging.endIndex, Paging.startIndex,
        Paging.ITEMS_PER_PAGE. lia.
    + unfold Paging.previousPage. lia.
    + unfold Paging.nextPage. lia.
  - intros p Hp.
    replace p with (Z.of_nat (S (Z.to_nat (p - 1)))) by lia.
    rewrite paginated_chunk, skipn_all2 by lia. apply firstn_nil.
Qed.

Lemma pages_cover_the_list_witness :
  Paging.paginated (seq 0 23) 3 <> []
  /\ Paging.paginated (seq 0 23) 4 = [].
Proof.
  pose proof (pages_cover_the_list (seq 0 23)) as (_ & Hin & Hout).
  split.
  - apply (Hin 3). vm_compute. split; discriminate.
  - apply (Hout 4). reflexivity.
Defined.

(** ** The options of the permit filters *)

Lemma existsb_eqb_In (x : string) (seen : list string) :
  existsb (String.eqb x) seen = true <-> In x seen.
Proof.
  rewrite existsb_exists. split.
  - intros (y & Hy & E). apply String.eqb_eq in E. now subst.
  - intros H. exists x. split; [exact H | apply String.eqb_refl].
Qed.

Lemma firstOccurrences_spec (xs seen : list string) :
  NoDup (JsText.firstOccurrences seen xs)
  /\ forall x, In x (JsText.firstOccurrences seen xs) <-> In x xs /\ ~ In x seen.
Proof.
  revert seen. induction xs as [|y xs IH]; intros seen; cbn.
  - split; [constructor | tauto].
  - destruct (existsb (String.eqb y) seen) eqn:E.
    + apply existsb_eqb_In in E. destruct (IH seen) as (Hnd & Hin).
      split; [exact Hnd|]. intros x. rewrite Hin. split; [tauto|].
      intros ([<- | Hx] & Hs); [contradiction | tauto].
    + assert (Hy : ~ In y seen) by (rewrite <- existsb_eqb_In, E; discriminate).
      destruct (IH (y :: seen)) as (Hnd & Hin). split.
      * constructor; [|exact Hnd]. rewrite Hin. cbn. tauto.
      * intros x. cbn. rewrite Hin. cbn.
        destruct (string_dec y x) as [<- | Hne]; tauto.
Qed.

Lemma unique_spec (xs : list string) :
  NoDup (JsText.unique xs) /\ forall x, In x (JsText.unique xs) <-> In x xs.
Proof.
  destruct (firstOccurrences_spec xs []) as (Hnd & Hin).
  split; [exact Hnd|]. intros x. unfold JsText.unique. rewrite Hin. cbn. tauto.
Qed.

Lemma firstById_spec (es : list (string * string)) (seen : list string) :
  NoDup (map fst (PermitsList.firstById seen es))
  /\ (forall i, In i (map fst (PermitsList.firstById seen es))
                <-> In i (map fst es) /\ ~ In i seen)
  /\ (forall e, In e (PermitsList.firstById seen es) -> In e es).
Proof.
  revert seen. induction es as [|e es IH]; intros seen; cbn.
  - split; [constructor | split; tauto].
  - destruct (existsb (String.eqb (fst e)) seen) eqn:E.
    + apply existsb_eqb_In in E. destruct (IH seen) as (Hnd & Hin & Hsub).
      split; [exact Hnd|]. split; [|auto].
      intros i. rewrite Hin. split; [tauto|].
      intros ([<- | Hx] & Hs); [contradiction | tauto].
    + assert (Hy : ~ In (fst e) seen) by (rewrite <- existsb_eqb_In, E; discriminate).
      destruct (IH (fst e :: seen)) as (Hnd & Hin & Hsub). split; [|split].
      * cbn. constructor; [|exact Hnd]. rewrite Hin. cbn. tauto.
      * intros i. cbn. rewrite Hin. cbn.
        destruct (string_dec (fst e) i) as [<- | Hne]; tauto.
      * intros e' [<- | H]; [now left | right; auto].
Qed.

Lemma present_Some (x : option string) :
  PermitsList.present x = true <-> exists s, x = Some s /\ s <> "".
Proof.
  destruct x as [[|c s]|]; cbn; split; try discriminate.
  - intros (s & [= <-] & H). congruence.
  - intros _. eexists. split; [reflexivity | discriminate].
  - intros (s0 & [= <-] & _). reflexivity.
  - intros (s & E & _). discriminate.
Qed.

Lemma permitTypes_In (permits : list PermitsList.Permit) (t : string) :
  In t (PermitsList.permitTypes permits)
  <-> exists p, In p permits /\ PermitsList.permit_type p = t.
Proof.
  unfold PermitsList.permitTypes.
  rewrite (proj2 (unique_spec (map PermitsList.permit_type permits))), in_map_iff.
  split; intros (p & H1 & H2); exists p; tauto.
Qed.

Lemma categoryLevels_In (permits : list PermitsList.Permit) (l : string) :
  In l (PermitsList.categoryLevels permits)
  <-> l <> "" /\ exists p, In p permits /\ PermitsList.activity_level p = Some l.
Proof.
  unfold PermitsList.categoryLevels.
  match goal with |- context [JsText.unique ?xs] =>
    rewrite (proj2 (unique_spec xs)) end.
  rewrite in_map_iff. split.
  - intros (x & <- & Hx). apply filter_In in Hx. destruct Hx as (Hx & Hp).
    apply present_Some in Hp. destruct Hp as (s & -> & Hs).
    apply in_map_iff in Hx. destruct Hx as (p & Hp & Hin').
    cbn. split; [exact Hs|]. exists p. tauto.
  - intros (Hl & p & Hp & Ha). exists (Some l). split; [reflexivity|].
    apply filter_In. split.
    + apply in_map_iff. exists p. tauto.
    + apply present_Some. exists l. tauto.
Qed.

Lemma entities_In (permits : list PermitsList.Permit) (i : string) :
  In i (map fst (PermitsList.entities permits))
  <-> i <> "" /\ exists p name, In p permits
                                /\ PermitsList.entity_id p = Some i
                                /\ PermitsList.entity_name p = Some name
                                /\ name <> "".
Proof.
  unfold PermitsList.entities. cbv zeta.
  match goal with |- context [PermitsList.firstById [] ?es] =>
    rewrite (proj1 (proj2 (firstById_spec es []))) end.
  rewrite map_map, in_map_iff. cbn [fst]. split.
  - intros ((p & <- & Hp) & _). apply filter_In in Hp. destruct Hp as (Hp & Hb).
    apply andb_true_iff in Hb. destruct Hb as (Hi & Hn).
    apply present_Some in Hi, Hn. destruct Hi as (i & Ei & Hi), Hn as (n & En & Hn).
    rewrite Ei. cbn. split; [exact Hi|]. exists p, n. tauto.
  - intros (Hi & p & n & Hp & Ei & En & Hn). split; [|tauto].
    exists p. rewrite Ei. split; [reflexivity|].
    apply filter_In. split; [exact Hp|].
    apply andb_true_iff. split; apply present_Some; eauto.
Qed.

(** X18.  The options of the three filters of the permit list.  Each list
    of options is free of repetitions.  The type options are exactly the
    types of the permits; the level options are exactly the non-empty
    activity levels of the permits; the entity options carry exactly the
    ids of the permits that have both an id and a name of their entity,
    each once, under a name some permit gives to that id. *)
Theorem permit_filter_options (permits : list PermitsList.Permit) :
  (NoDup (PermitsList.permitTypes permits)
   /\ forall t, In t (PermitsList.permitTypes permits)
                <-> exists p, In p permits /\ PermitsList.permit_type p = t)
  /\ (NoDup (PermitsList.categoryLevels permits)
      /\ forall l, In l (PermitsList.categoryLevels permits)
                   <-> l <> "" /\ exists p, In p permits
                                            /\ PermitsList.activity_level p = Some l)
  /\ (NoDup (map fst (PermitsList.entities permits))
      /\ (forall i, In i (map fst (PermitsList.entities permits))
                    <-> i <> "" /\ exists p name, In p permits
                                                  /\ PermitsList.entity_id p = Some i
                                                  /\ PermitsList.entity_name p = Some name
                                                  /\ name <> "")
      /\ (forall i name, In (i, name) (PermitsList.entities permits) ->
            exists p, In p permits /\ PermitsList.entity_id p = Some i
                      /\ PermitsList.entity_name p = Some name)).
Proof.
  split; [|split].
  - split; [apply unique_spec | apply permitTypes_In].
  - split; [apply unique_spec | apply categoryLevels_In].
  - split; [apply firstById_spec|]. split; [apply entities_In|].
    intros i name He. unfold PermitsList.entities in He. cbv zeta in He.
    apply firstById_spec, in_map_iff in He.
    destruct He as (p & [= Ei En] & Hp). apply filter_In in Hp. destruct Hp as (Hp & Hb).
    apply andb_true_iff in Hb. destruct Hb as (Hi & Hn).
    apply present_Some in Hi, Hn. destruct Hi as (i' & Ei' & _), Hn as (n' & En' & _).
    rewrite Ei' in Ei. rewrite En' in En. cbn in Ei, En. subst.
    exists p. tauto.
Qed.

Lemma permit_filter_options_witness :
  In "mining"
     (PermitsList.permitTypes
        [ {| PermitsList.id := "p1"; PermitsList.title := "Quarry";
             PermitsList.permit_number := None; PermitsList.permit_type := "mining";
             PermitsList.description := None; PermitsList.approval_date := None;
             PermitsList.created_at := "2024-01-01"; PermitsList.updated_at := "2024-01-02";
             PermitsList.entity_name := None; PermitsList.entity_id := Some "e1";
             PermitsList.activity_level := Some "" |} ]).
Proof.
  apply (proj2 (proj1 (permit_filter_options _))).
  eexists. split; [left; reflexivity | reflexivity].
Defined.

(** X19.  Every option offered selects something.  With an empty search
    box, choosing any offered type, entity or level alone lists at least
    one permit, and every permit listed has the chosen value; with the
    three filters on "all" the whole list is shown. *)
Theorem permit_filter_options_select (permits : list PermitsList.Permit) :
  PermitsList.filteredPermits permits "" "all" "all" "all" = permits
  /\ (forall t, In t (PermitsList.permitTypes permits) ->
        PermitsList.filteredPermits permits "" t "all" "all" <> []
        /\ (t <> "all" ->
            forall p, In p (PermitsList.filteredPermits permits "" t "all" "all") ->
                      PermitsList.permit_type p = t))
  /\ (forall i, In i (map fst (PermitsList.entities permits)) ->
        PermitsList.filteredPermits permits "" "all" i "all" <> []
        /\ (i <> "all" ->
            forall p, In p (PermitsList.filteredPermits permits "" "all" i "all") ->
                      PermitsList.entity_id p = Some i))
  /\ (forall l, In l (PermitsList.categoryLevels permits) ->
        PermitsList.filteredPermits permits "" "all" "all" l <> []
        /\ (l <> "all" ->
            forall p, In p (PermitsList.filteredPermits permits "" "all" "all" l) ->
                      PermitsList.activity_level p = Some l)).
Proof.
  pose proof (permitTypes_In permits) as Ht.
  pose proof (categoryLevels_In permits) as Hl.
  pose proof (entities_In permits) as Hi.
  assert (Hsearch : forall p : PermitsList.Permit,
            JsText.includes (JsText.toLowerCase (PermitsList.title p)) (JsText.toLowerCase "")
            || PermitsList.includesLower (PermitsList.permit_number p) ""
            || PermitsList.includesLower (PermitsList.entity_name p) "" = true).
  { intros p. cbn [JsText.toLowerCase]. now rewrite includes_empty. }
  assert (Hne : forall (p : PermitsList.Permit) l, In p l -> l <> [])
    by (intros p l H ->; exact H).
  unfold PermitsList.filteredPermits. split; [|split; [|split]].
  - apply filter_all. intros p _. rewrite Hsearch. reflexivity.
  - intros t Hin. apply Ht in Hin. destruct Hin as (p & Hp & <-). split.
    + apply (Hne p), filter_In. split; [exact Hp|].
      rewrite Hsearch, String.eqb_refl, orb_true_r. reflexivity.
    + intros Hall q Hq. apply filter_In in Hq. destruct Hq as (_ & Hq).
      apply String.eqb_neq in Hall. rewrite Hall in Hq. cbn in Hq.
      rewrite !andb_true_r in Hq. apply andb_true_iff in Hq.
      now apply String.eqb_eq.
  - intros i Hin. apply Hi in Hin. destruct Hin as (_ & p & n & Hp & Ei & _). split.
    + apply (Hne p), filter_In. split; [exact Hp|].
      rewrite Hsearch, Ei. cbn. rewrite String.eqb_refl, orb_true_r. reflexivity.
    + intros Hall q Hq. apply filter_In in Hq. destruct Hq as (_ & Hq).
      apply String.eqb_neq in Hall. rewrite Hall in Hq. cbn in Hq.
      rewrite !andb_true_r in Hq. apply andb_true_iff in Hq. destruct Hq as (_ & Hq).
      destruct (PermitsList.entity_id q) as [j|]; [|discriminate].
      cbn in Hq. apply String.eqb_eq in Hq. now subst.
  - intros l Hin. apply Hl in Hin. destruct Hin as (_ & p & Hp & El). split.
    + apply (Hne p), filter_In. split; [exact Hp|].
      rewrite Hsearch, El. cbn. rewrite String.eqb_refl, orb_true_r. reflexivity.
    + intros Hall q Hq. apply filter_In in Hq. destruct Hq as (_ & Hq).
      apply String.eqb_neq in Hall. rewrite Hall in Hq. cbn in Hq.
      apply andb_true_iff in Hq. destruct Hq as (_ & Hq).
      destruct (PermitsList.activity_level q) as [j|]; [|discriminate].
      cbn in Hq. apply String.eqb_eq in Hq. now subst.
Qed.

Lemma permit_filter_options_select_witness :
  PermitsList.filteredPermits
    [ {| PermitsList.id := "p1"; PermitsList.title := "Quarry";
         PermitsList.permit_number := None; PermitsList.permit_type := "mining";
         PermitsList.description := None; PermitsList.approval_date := None;
         PermitsList.created_at := "2024-01-01"; PermitsList.updated_at := "2024-01-02";
         PermitsList.entity_name := None; PermitsList.entity_id := Some "e1";
         PermitsList.activity_level := Some "" |} ]
    "" "mining" "all" "all" <> [].
Proof.
  apply (proj1 (proj2 (permit_filter_options_select _))).
  left. reflexivity.
Defined.

(** ** The status buttons of the map *)

(** X20.  A status button flips that status and no other in the status
    filter of the map card, whose result is what the card counts in its
    title and hands on to be drawn.  After [toggleStatus] an application
    passes the filter exactly when it passed before, if its status is
    another one, and exactly when its status was not selected, if its
    status is the one toggled.  A selection without repetitions stays so,
    and toggling the same status twice lets the same applications
    through as before. *)
Theorem toggleStatus_flips_one_status
  (applications : list Application.t) (status : string) (prev : list string) :
  let shown := PermitApplicationsMap.filteredApplications applications in
  (forall app, In app (shown (PermitApplicationsMap.toggleStatus status prev))
               <-> In app applications
                   /\ (if String.eqb (Application.status app) status
                       then ~ In status prev
                       else In (Application.status app) prev))
  /\ (NoDup prev -> NoDup (PermitApplicationsMap.toggleStatus status prev))
  /\ shown (PermitApplicationsMap.toggleStatus status
              (PermitApplicationsMap.toggleStatus status prev))
     = shown prev.
Proof.
  intros shown.
  assert (Hmem : forall x prev,
            In x (PermitApplicationsMap.toggleStatus status prev)
            <-> if String.eqb x status then ~ In status prev else In x prev).
  { intros x l. unfold PermitApplicationsMap.toggleStatus.
    destruct (existsb (String.eqb status) l) eqn:E.
    - apply existsb_eqb_In in E. rewrite filter_In.
      destruct (String.eqb_spec x status) as [-> | Hne]; cbn; [|tauto].
      split; [intros (_ & H); discriminate | tauto].
    - assert (Hs : ~ In status l) by (rewrite <- existsb_eqb_In, E; discriminate).
      rewrite in_app_iff. cbn.
      destruct (String.eqb_spec x status) as [-> | Hne]; [tauto|].
      split; [intros [H | [H | []]]; [exact H | congruence] | tauto]. }
  split; [|split].
  - intros app. subst shown. unfold PermitApplicationsMap.filteredApplications.
    rewrite filter_In, existsb_eqb_In, Hmem. reflexivity.
  - intros Hnd. unfold PermitApplicationsMap.toggleStatus.
    destruct (existsb (String.eqb status) prev) eqn:E.
    + apply NoDup_filter, Hnd.
    + assert (Hs : ~ In status prev) by (rewrite <- existsb_eqb_In, E; discriminate).
      apply NoDup_app; [exact Hnd | repeat constructor; intros [] |].
      intros x Hx [<- | []]. contradiction.
  - subst shown. unfold PermitApplicationsMap.filteredApplications.
    apply filter_ext. intros app.
    apply eq_true_iff_eq. rewrite !existsb_eqb_In, Hmem.
    destruct (String.eqb (Application.status app) status) eqn:E.
    + apply String.eqb_eq in E. rewrite E, Hmem, String.eqb_refl.
      destruct (in_dec string_dec status prev); tauto.
    + rewrite Hmem, E. reflexivity.
Qed.

Lemma toggleStatus_flips_one_status_witness :
  NoDup (PermitApplicationsMap.toggleStatus "draft" ["approved"; "draft"; "submitted"])
  /\ (In (Sample.app 1%nat "draft" 3000)
          (PermitApplicationsMap.filteredApplications
             [Sample.app 1%nat "draft" 3000; Sample.app 2%nat "approved" 7000]
             (PermitApplicationsMap.toggleStatus "draft" ["approved"; "submitted"]))
       /\ ~ In (Sample.app 1%nat "draft" 3000)
               (PermitApplicationsMap.filteredApplications
                  [Sample.app 1%nat "draft" 3000; Sample.app 2%nat "approved" 7000]
                  (PermitApplicationsMap.toggleStatus "draft"
                     ["approved"; "draft"; "submitted"])))
  /\ PermitApplicationsMap.filteredApplications
       [Sample.app 1%nat "draft" 3000; Sample.app 2%nat "approved" 7000]
       (PermitApplicationsMap.toggleStatus "draft"
          (PermitApplicationsMap.toggleStatus "draft" ["approved"; "draft"; "submitted"]))
     = PermitApplicationsMap.filteredApplications
         [Sample.app 1%nat "draft" 3000; Sample.app 2%nat "approved" 7000]
         ["approved"; "draft"; "submitted"].
Proof.
  split; [|split; [split|]].
  - apply (proj1 (proj2 (toggleStatus_flips_one_status [] "draft"
                           ["approved"; "draft"; "submitted"]))).
    repeat constructor; cbn; intros H;
      repeat (destruct H as [H|H]; [discriminate|]); exact H.
  - apply (proj1 (toggleStatus_flips_one_status
                    [Sample.app 1%nat "draft" 3000; Sample.app 2%nat "approved" 7000]
                    "draft" ["approved"; "submitted"])).
    split; [left; reflexivity|]. cbn.
    intros H. repeat (destruct H as [H|H]; [discriminate|]). exact H.
  - intros H.
    apply (proj1 (toggleStatus_flips_one_status
                    [Sample.app 1%nat "draft" 3000; Sample.app 2%nat "approved" 7000]
                    "draft" ["approved"; "draft"; "submitted"])) in H.
    destruct H as (_ & H). cbn in H. apply H. right. left. reflexivity.
  - apply (proj2 (proj2 (toggleStatus_flips_one_status
                           [Sample.app 1%nat "draft" 3000; Sample.app 2%nat "approved" 7000]
                           "draft" ["approved"; "draft"; "submitted"]))).
Defined.

(** ** Editing a document template *)

(** X21.  Opening the edit dialog and saving.  [handleEdit] followed by
    [handleUpdate] with the form untouched addresses the row that was
    opened, whatever was selected before, and sends back its name and
    category unchanged; the description goes back as it was, except that
    an empty description is sent as null.  When the row has no name or no
    category nothing is sent and the required-fields message is shown. *)
Theorem edit_then_update_round_trip
  (doc : RegistryDocumentManagement.DocumentTemplate)
  (c : RegistryDocumentManagement.State) :
  let result := RegistryDocumentManagement.handleUpdate
                  (RegistryDocumentManagement.handleEdit doc c) in
  (RegistryDocumentManagement.name doc <> "" ->
   RegistryDocumentManagement.category doc <> "" ->
   result
   = inr (RegistryDocumentManagement.id doc,
          {| RegistryDocumentManagement.body_name := RegistryDocumentManagement.name doc;
             RegistryDocumentManagement.body_description :=
               match RegistryDocumentManagement.description doc with
               | Some "" => None
               | d => d
               end;
             RegistryDocumentManagement.body_category :=
               RegistryDocumentManagement.category doc |}))
  /\ (RegistryDocumentManagement.name doc = ""
      \/ RegistryDocumentManagement.category doc = "" ->
      result = inl RegistryDocumentManagement.missingFields).
Proof.
  intros result. subst result.
  unfold RegistryDocumentManagement.handleUpdate, RegistryDocumentManagement.handleEdit.
  cbn. split.
  - intros Hn Hc.
    destruct (RegistryDocumentManagement.name doc) as [|a n]; [congruence|].
    destruct (RegistryDocumentManagement.category doc) as [|b k]; [congruence|].
    cbn. destruct (RegistryDocumentManagement.description doc) as [[|x d]|]; reflexivity.
  - intros [-> | ->]; cbn; [reflexivity|].
    now rewrite orb_true_r.
Qed.

Lemma edit_then_update_round_trip_witness :
  RegistryDocumentManagement.handleUpdate
    (RegistryDocumentManagement.handleEdit
       {| RegistryDocumentManagement.id := "t1";
          RegistryDocumentManagement.name := "Waste form";
          RegistryDocumentManagement.description := Some "";
          RegistryDocumentManagement.document_type := "template";
          RegistryDocumentManagement.category := "Form template";
          RegistryDocumentManagement.file_path := None;
          RegistryDocumentManagement.is_active := true;
          RegistryDocumentManagement.created_at := "2024-01-01";
          RegistryDocumentManagement.updated_at := "2024-01-01" |}
       {| RegistryDocumentManagement.isEditDialogOpen := false;
          RegistryDocumentManagement.selectedDocument := None;
          RegistryDocumentManagement.formData :=
            {| RegistryDocumentManagement.form_name := "";
               RegistryDocumentManagement.form_description := "";
               RegistryDocumentManagement.form_category := "" |} |})
  = inr ("t1",
         {| RegistryDocumentManagement.body_name := "Waste form";
            RegistryDocumentManagement.body_description := None;
            RegistryDocumentManagement.body_category := "Form template" |}).
Proof.
  refine (proj1 (edit_then_update_round_trip
                   {| RegistryDocumentManagement.id := "t1";
                      RegistryDocumentManagement.name := "Waste form";
                      RegistryDocumentManagement.description := Some "";
                      RegistryDocumentManagement.document_type := "template";
                      RegistryDocumentManagement.category := "Form template";
                      RegistryDocumentManagement.file_path := None;
                      RegistryDocumentManagement.is_active := true;
                      RegistryDocumentManagement.created_at := "2024-01-01";
                      RegistryDocumentManagement.updated_at := "2024-01-01" |}
                   {| RegistryDocumentManagement.isEditDialogOpen := false;
                      RegistryDocumentManagement.selectedDocument := None;
                      RegistryDocumentManagement.formData :=
                        {| RegistryDocumentManagement.form_name := "";
                           RegistryDocumentManagement.form_description := "";
                           RegistryDocumentManagement.form_category := "" |} |}) _ _);
    cbn; discriminate.
Defined.

(** ** The status filter of the entity list *)

Lemma filter_twice {A} (f g : A -> bool) (l : list A) :
  filter f (filter g l) = filter (fun x => g x && f x) l.
Proof.
  induction l as [|a l IH]; cbn; [reflexivity|].
  destruct (g a); cbn; [destruct (f a)|]; now rewrite IH.
Qed.

(** X22.  The status filter of the entity list splits it, and differs from
    the one of the user list on values it does not know.  For any search
    and type filter, the entities listed under "active" and those listed
    under "suspended" are together exactly those listed under "all", none
    in both; an entity whose flag is null counts as active; any other
    value of the filter lists nothing, where the user list shows
    everything. *)
Theorem filteredEntities_status_partition
  (entities : list EntitiesList.Entity) (searchTerm entityTypeFilter : string) :
  let listed := EntitiesList.filteredEntities entities searchTerm entityTypeFilter in
  Permutation (listed "active" ++ listed "suspended") (listed "all")
  /\ (forall e, In e (listed "active") -> ~ In e (listed "suspended"))
  /\ (forall e, In e (listed "all") -> EntitiesList.is_suspended e = None ->
                In e (listed "active"))
  /\ (forall statusFilter,
        statusFilter <> "all" -> statusFilter <> "active" -> statusFilter <> "suspended" ->
        listed statusFilter = []
        /\ forall (users : list UserProfile.t) term type,
             UserFilters.filterUsers users term type statusFilter
             = UserFilters.filterUsers users term type "all").
Proof.
  intros listed. subst listed. unfold EntitiesList.filteredEntities.
  set (base := fun entity : EntitiesList.Entity =>
         (JsText.includes (JsText.toLowerCase (EntitiesList.name entity))
                          (JsText.toLowerCase searchTerm)
          || PermitsList.includesLower (EntitiesList.registration_number entity) searchTerm
          || PermitsList.includesLower (EntitiesList.email entity) searchTerm)
         && (String.eqb entityTypeFilter "all"
             || String.eqb (EntitiesList.entity_type entity) entityTypeFilter)).
  assert (Hall : forall st, st = "all" \/ st = "active" \/ st = "suspended" ->
            filter (fun entity =>
                      (JsText.includes (JsText.toLowerCase (EntitiesList.name entity))
                                       (JsText.toLowerCase searchTerm)
                       || PermitsList.includesLower (EntitiesList.registration_number entity)
                                                    searchTerm
                       || PermitsList.includesLower (EntitiesList.email entity) searchTerm)
                      && (String.eqb entityTypeFilter "all"
                          || String.eqb (EntitiesList.entity_type entity) entityTypeFilter)
                      && (String.eqb st "all"
                          || (String.eqb st "active" && negb (EntitiesList.suspended entity))
                          || (String.eqb st "suspended" && EntitiesList.suspended entity)))
                   entities
            = filter (fun entity =>
                        if String.eqb st "all" then true
                        else if String.eqb st "active"
                        then negb (EntitiesList.suspended entity)
                        else EntitiesList.suspended entity)
                     (filter base entities)).
  { intros st Hst. rewrite filter_twice. apply filter_ext. intros e. subst base. cbv beta.
    destruct Hst as [-> | [-> | ->]]; cbn; destruct (EntitiesList.suspended e); cbn;
      rewrite ?andb_true_r, ?andb_false_r; reflexivity. }
  rewrite !Hall by tauto. cbn [String.eqb Ascii.eqb Bool.eqb].
  split; [|split; [|split]].
  - rewrite filter_id.
    eapply Permutation_trans;
      [apply Permutation_app_comm | apply (filter_partition EntitiesList.suspended)].
  - intros e Ha Hs. apply filter_In in Ha, Hs.
    destruct Ha as (_ & Ha), Hs as (_ & Hs). rewrite Hs in Ha. discriminate.
  - intros e He Hnull. rewrite filter_id in He. apply filter_In. split; [exact He|].
    unfold EntitiesList.suspended. rewrite Hnull. reflexivity.
  - intros st H1 H2 H3. split.
    + apply filter_none. intros e _.
      apply String.eqb_neq in H1, H2, H3. rewrite H1, H2, H3. cbn.
      apply andb_false_r.
    + intros users term type. unfold UserFilters.filterUsers.
      apply String.eqb_neq in H2, H3. rewrite H2, H3. reflexivity.
Qed.

Lemma filteredEntities_status_partition_witness :
  EntitiesList.filteredEntities
    [ {| EntitiesList.id := "e1"; EntitiesList.name := "Ramu Mining";
         EntitiesList.registration_number := None; EntitiesList.email := None;
         EntitiesList.entity_type := "company"; EntitiesList.is_suspended := None |} ]
    "" "all" "blocked"
  = [].
Proof.
  apply (proj2 (proj2 (proj2 (filteredEntities_status_partition
           [ {| EntitiesList.id := "e1"; EntitiesList.name := "Ramu Mining";
                EntitiesList.registration_number := None; EntitiesList.email := None;
                EntitiesList.entity_type := "company";
                EntitiesList.is_suspended := None |} ] "" "all"))) "blocked");
    discriminate.
Defined.

(** ** Suspending and reactivating in turn *)

Lemma fetchUsers_administrator_world
  (p : UserProfile.t) (s : Session UserManagement.State) :
  UserProfile.user_type p = admin \/ UserProfile.user_type p = super_admin ->
  world (after (UserManagement.fetchUsers (Some p)) s)
  = Backend.record SelectProfiles (negb (Backend.down (world s))) (world s).
Proof.
  intros Hadmin.
  assert (G : UserManagement.notAdministrator (Some p) = false)
    by (unfold UserManagement.notAdministrator;
        destruct Hadmin as [-> | ->]; reflexivity).
  unfold UserManagement.fetchUsers. rewrite G. unfold Backend.select_profiles. run.
  destruct (Backend.down (world s)); reflexivity.
Qed.

Lemma patched_twice (id : Id) (first second : SuspensionPatch) (rows : list UserProfile.t) :
  patch_suspended_at second <> Undefined ->
  patch_suspended_by second <> Undefined ->
  patch_suspension_reason second <> Undefined ->
  patched id second (patched id first rows) = patched id second rows.
Proof.
  intros H1 H2 H3. unfold patched. rewrite map_map. apply map_ext. intros r.
  destruct (UserProfile.id r =? id)%nat eqn:E; [|now rewrite E].
  cbn [Backend.apply_patch UserProfile.id]. rewrite E.
  unfold Backend.apply_patch. cbn.
  destruct (patch_suspended_at second); [congruence| |];
    (destruct (patch_suspended_by second); [congruence| |]);
    (destruct (patch_suspension_reason second); [congruence| |]); reflexivity.
Qed.

(** X23.  Suspending an account and reactivating it leaves no trace.  An
    administrator suspends an account and the store accepts; the dialog is
    then opened on the row as listed, now suspended, and confirmed, and
    the store accepts again.  The profiles table is then what a lone
    reactivation of the first table would give: on every row of the
    account the flag is false and the time, the administrator and the
    reason of the suspension are gone, all other columns and all other
    rows being as they were at the start; no reason is asked for the
    reactivation. *)
Theorem suspend_then_reactivate
  (p : UserProfile.t) (s : Session UserManagement.State) (u listed : UserProfile.t) :
  let w := world s in
  let c := component s in
  let s1 := after (UserManagement.handleSuspendUser (Some p)) s in
  let s2 := after (SuspendDialog.onSuspend listed ;;
                   UserManagement.handleSuspendUser (Some p)) s1 in
  UserProfile.user_type p = admin \/ UserProfile.user_type p = super_admin ->
  UserManagement.userToSuspend c = Some u ->
  UserProfile.user_type u <> super_admin ->
  UserManagement.notSuspended u = true ->
  whitespace_only (UserManagement.suspensionReason c) = false ->
  outage w (List.length (history w)) = false ->
  UserProfile.id listed = UserProfile.id u ->
  UserProfile.user_type listed <> super_admin ->
  UserProfile.is_suspended listed = Some true ->
  outage w (S (S (List.length (history w)))) = false ->
  profiles (world s2) = patched (UserProfile.id u) reactivateBody (profiles w)
  /\ (forall r, In r (profiles (world s2)) -> UserProfile.id r = UserProfile.id u ->
        UserProfile.is_suspended r = Some false
        /\ UserProfile.suspended_at r = None
        /\ UserProfile.suspended_by r = None
        /\ UserProfile.suspension_reason r = None)
  /\ List.map UserProfile.email (profiles (world s2)) = List.map UserProfile.email (profiles w)
  /\ List.map UserProfile.user_type (profiles (world s2))
     = List.map UserProfile.user_type (profiles w)
  /\ writes (world s2)
     = writes w
       ++ [UpdateProfile (UserProfile.id u)
             (UserManagement.suspensionPatch (Some p) true (now w)
                (UserManagement.suspensionReason c));
           UpdateProfile (UserProfile.id u) reactivateBody].
Proof.
  intros w c s1 s2 Hadmin Hu Ht Hn Hr Hup0 Hid Hlt Hls Hup2.
  assert (Hg : UserManagement.notSuspended u
               && whitespace_only (UserManagement.suspensionReason (component s)) = false)
    by (fold c; rewrite Hn, Hr; reflexivity).
  (* the first run *)
  assert (E1 : world s1
               = Backend.record SelectProfiles
                   (negb (outage w (S (List.length (history w)))))
                   (Backend.record
                      (UpdateProfile (UserProfile.id u)
                         (UserManagement.suspensionPatch (Some p) true (now w)
                            (UserManagement.suspensionReason c)))
                      true
                      (Backend.set_profiles
                         (patched (UserProfile.id u)
                            (UserManagement.suspensionPatch (Some p) true (now w)
                               (UserManagement.suspensionReason c))
                            (profiles w)) w))).
  { subst s1. unfold after. rewrite (handleSuspendUser_run (Some p) s u Hu Ht Hg).
    fold w c. unfold Backend.down at 1. fold w. rewrite Hup0, Hn. cbn [world snd].
    rewrite (fetchUsers_administrator_world p _ Hadmin). cbn [world].
    unfold Backend.down. cbn. rewrite length_app, Nat.add_1_r. reflexivity. }
  (* the second run *)
  set (s1' := after (SuspendDialog.onSuspend listed) s1).
  assert (Hs1' : world s1' = world s1
                 /\ UserManagement.userToSuspend (component s1') = Some listed)
    by (subst s1'; unfold SuspendDialog.onSuspend; run; split; reflexivity).
  destruct Hs1' as (Hw1' & Hu1').
  assert (Hg' : UserManagement.notSuspended listed
                && whitespace_only (UserManagement.suspensionReason (component s1')) = false)
    by (unfold UserManagement.notSuspended; rewrite Hls; reflexivity).
  assert (Hd1' : Backend.down (world s1') = false).
  { rewrite Hw1', E1. unfold Backend.down. cbn. rewrite !length_app. cbn.
    rewrite <- Nat.add_assoc. cbn. rewrite Nat.add_comm. exact Hup2. }
  assert (E2 : s2 = after (UserManagement.handleSuspendUser (Some p)) s1').
  { subst s2 s1'. unfold after, bind.
    destruct (SuspendDialog.onSuspend listed s1) as [[[]|e] sx] eqn:Eo; [reflexivity|].
    unfold SuspendDialog.onSuspend in Eo. revert Eo. run. discriminate. }
  rewrite E2. unfold after.
  rewrite (handleSuspendUser_run (Some p) s1' listed Hu1' Hlt Hg').
  rewrite Hd1'. cbn [world snd].
  rewrite (fetchUsers_administrator_world p _ Hadmin). cbn [world].
  assert (Hbody : UserManagement.suspensionPatch (Some p) (UserManagement.notSuspended listed)
                    (now (world s1')) (UserManagement.suspensionReason (component s1'))
                  = reactivateBody)
    by (unfold UserManagement.notSuspended; rewrite Hls; reflexivity).
  rewrite Hbody, Hid, Hw1', E1.
  cbn [profiles Backend.record Backend.set_history Backend.set_profiles].
  rewrite patched_twice by discriminate.
  split; [reflexivity|]. split; [|split; [|split]].
  - intros r Hin Hidr. destruct (patched_row _ _ _ _ Hin Hidr) as (r0 & _ & ->).
    repeat split.
  - unfold patched. rewrite map_map. apply map_ext. intros r.
    destruct (UserProfile.id r =? UserProfile.id u)%nat; reflexivity.
  - unfold patched. rewrite map_map. apply map_ext. intros r.
    destruct (UserProfile.id r =? UserProfile.id u)%nat; reflexivity.
  - unfold writes. cbn [history Backend.record Backend.set_history Backend.set_profiles].
    rewrite !map_app, !filter_app. cbn. rewrite <- !app_assoc. reflexivity.
Qed.

Lemma suspend_then_reactivate_witness :
  profiles
    (world (after (SuspendDialog.onSuspend (Sample.profile 4%nat public (Some true)) ;;
                   UserManagement.handleSuspendUser (Some Sample.officer))
                  (after (UserManagement.handleSuspendUser (Some Sample.officer))
                         (Sample.session Sample.always_up
                            (Sample.suspendDialog Sample.citizen "forged licence")))))
  = [Sample.root; Sample.officer; Sample.clerk; Sample.profile 4%nat public (Some false)].
Proof.
  assert (Ht : UserProfile.user_type Sample.citizen <> super_admin) by (cbn; discriminate).
  assert (Hl : UserProfile.user_type (Sample.profile 4%nat public (Some true)) <> super_admin)
    by (cbn; discriminate).
  rewrite (proj1 (suspend_then_reactivate Sample.officer
                    (Sample.session Sample.always_up
                       (Sample.suspendDialog Sample.citizen "forged licence"))
                    Sample.citizen (Sample.profile 4%nat public (Some true))
                    (or_introl eq_refl) eq_refl Ht eq_refl eq_refl eq_refl eq_refl Hl
                    eq_refl eq_refl)).
  reflexivity.
Defined.
